(** * Direct messaging: participant resolution and live sync

    A shallow embedding of the messaging screens of the application:

    - the conversation list ([MessagesScreen], the component that follows
      the rankings screen in [app/(tabs)/challenge/rankings.tsx]),
    - the new-message screen ([NewMessageScreen], [app/messages/new.tsx]),
    - the conversation screen ([DirectMessageScreen],
      [app/messages/[id].tsx]).

    Component functions are written in a small state-and-exception monad
    over the component's state; every [await] is a suspension point of an
    explicit transition system whose events are the gateway's answers. *)

From Stdlib Require Import String List Bool Arith Lia.
From Stdlib Require Import DecimalString.
Import ListNotations.
Local Open Scope string_scope.
Local Open Scope list_scope.

(** ** JavaScript values *)

Module Js.

(** A value of type [string | null | undefined]. *)
Inductive value : Type :=
| undefined
| null
| str (s : string).

(** Truthiness: [undefined], [null] and the empty string are falsy. *)
Definition truthy (v : value) : bool :=
  match v with
  | str s => negb (s =? "")
  | _ => false
  end.

(** Strict equality [===]: no coercion, [null] and [undefined] differ. *)
Definition strict_eq (a b : value) : bool :=
  match a, b with
  | undefined, undefined => true
  | null, null => true
  | str s, str t => s =? t
  | _, _ => false
  end.

Definition strict_neq (a b : value) : bool := negb (strict_eq a b).

(** [a || b] on values. *)
Definition or (a b : value) : value := if truthy a then a else b.

(** [a || 'literal'], whose result is always a string. *)
Definition or_default (a : value) (d : string) : string :=
  match a with
  | str s => if s =? "" then d else s
  | _ => d
  end.

(** Template-literal rendering of a number. *)
Definition of_nat (n : nat) : string :=
  NilEmpty.string_of_uint (Nat.to_uint n).

(** Template-literal rendering of a value. *)
Definition show (v : value) : string :=
  match v with
  | undefined => "undefined"
  | null => "null"
  | str s => s
  end.

(** Exceptions a component function can meet. *)
Inductive exn : Type :=
| TypeError (msg : string)
| Rejected (reason : string).

Inductive result (A : Type) : Type :=
| Ok (a : A)
| Throw (e : exn).
Arguments Ok {A} a.
Arguments Throw {A} e.

End Js.

(** ** Computations over component state, with exceptions *)

Module Comp.
Import Js.

Section WithState.
Context {St : Type}.

Definition M (A : Type) : Type := St -> result A * St.

Definition ret {A} (a : A) : M A := fun s => (Ok a, s).

Definition bind {A B} (c : M A) (k : A -> M B) : M B :=
  fun s =>
    match c s with
    | (Ok a, s') => k a s'
    | (Throw e, s') => (Throw e, s')
    end.

Definition throw {A} (e : exn) : M A := fun s => (Throw e, s).

Definition gets {A} (f : St -> A) : M A := fun s => (Ok (f s), s).

Definition modify (f : St -> St) : M unit := fun s => (Ok tt, f s).

(** [try { body } catch (e) { handler e }] *)
Definition try_catch {A} (body : M A) (handler : exn -> M A) : M A :=
  fun s =>
    match body s with
    | (Ok a, s') => (Ok a, s')
    | (Throw e, s') => handler e s'
    end.

(** [try { body } finally { fin }]: [fin] runs on both exits; an
    exception of [body] goes on after it. *)
Definition try_finally {A} (body : M A) (fin : M unit) : M A :=
  fun s =>
    match body s with
    | (Ok a, s') =>
        match fin s' with
        | (Ok _, s'') => (Ok a, s'')
        | (Throw e, s'') => (Throw e, s'')
        end
    | (Throw e, s') =>
        match fin s' with
        | (Ok _, s'') => (Throw e, s'')
        | (Throw e', s'') => (Throw e', s'')
        end
    end.

Definition when (b : bool) (c : M unit) : M unit :=
  if b then c else ret tt.
End WithState.

Arguments M St A : clear implicits.

Declare Scope comp_scope.
Delimit Scope comp_scope with comp.
Notation "x <- c ;; k" := (bind c (fun x => k))
  (at level 61, c at next level, right associativity) : comp_scope.
Notation "c ;; k" := (bind c (fun _ => k))
  (at level 61, right associativity) : comp_scope.
End Comp.

(** ** The conversation list *)

Module MessagesScreen.
Import Js Comp.
Local Open Scope comp_scope.

(** *** Data, as the screen's [Conversation] type declares it *)

Record Profile : Type := mkProfile {
  id : value;
  username : value;
  display_name : value;
  avatar_url : value
}.

(** A participant row of the nested select; the joined profile may be
    missing at run time, which the screen guards against. *)
Record Participant : Type := mkParticipant {
  profiles : option Profile
}.

Record Conversation : Type := mkConversation {
  conv_id : string;
  last_message : value;
  last_message_at : value;
  updated_at : value;
  participants : option (list Participant)
}.

(** *** Component state and console *)

Inductive level : Type := LLog | LWarn | LError.

(** A console call, kept by level and first argument. *)
Definition entry : Type := (level * string)%type.

Record Screen : Type := mkScreen {
  conversations : list Conversation;
  loading : bool;
  refreshing : bool;
  searchQuery : string;
  currentUserId : value;
  error : value
}.

Record World : Type := mkWorld {
  screen : Screen;
  console : list entry
}.

(** [useState] initial values. *)
Definition initialScreen : Screen :=
  {| conversations := []; loading := true; refreshing := false;
     searchQuery := ""; currentUserId := null; error := null |}.

Definition initialWorld : World :=
  {| screen := initialScreen; console := [] |}.

(** Computations of this screen. *)
Abbreviation M := (Comp.M World).

Definition on_screen (f : Screen -> Screen) : M unit :=
  modify (fun w => {| screen := f (screen w); console := console w |}).

Definition setConversations (v : list Conversation) : M unit :=
  on_screen (fun s =>
    {| conversations := v; loading := loading s;
       refreshing := refreshing s; searchQuery := searchQuery s;
       currentUserId := currentUserId s; error := error s |}).

Definition setLoading (v : bool) : M unit :=
  on_screen (fun s =>
    {| conversations := conversations s; loading := v;
       refreshing := refreshing s; searchQuery := searchQuery s;
       currentUserId := currentUserId s; error := error s |}).

Definition setRefreshing (v : bool) : M unit :=
  on_screen (fun s =>
    {| conversations := conversations s; loading := loading s;
       refreshing := v; searchQuery := searchQuery s;
       currentUserId := currentUserId s; error := error s |}).

Definition setSearchQuery (v : string) : M unit :=
  on_screen (fun s =>
    {| conversations := conversations s; loading := loading s;
       refreshing := refreshing s; searchQuery := v;
       currentUserId := currentUserId s; error := error s |}).

Definition setCurrentUserId (v : value) : M unit :=
  on_screen (fun s =>
    {| conversations := conversations s; loading := loading s;
       refreshing := refreshing s; searchQuery := searchQuery s;
       currentUserId := v; error := error s |}).

Definition setError (v : value) : M unit :=
  on_screen (fun s =>
    {| conversations := conversations s; loading := loading s;
       refreshing := refreshing s; searchQuery := searchQuery s;
       currentUserId := currentUserId s; error := v |}).

Definition emit (l : level) (msg : string) : M unit :=
  modify (fun w => {| screen := screen w; console := console w ++ [(l, msg)] |}).

(** A world that differs from [w] by console output only. *)
Definition logged (w : World) (out : list entry) : World :=
  {| screen := screen w; console := console w ++ out |}.

Definition console_log : string -> M unit := emit LLog.
Definition console_warn : string -> M unit := emit LWarn.
Definition console_error : string -> M unit := emit LError.

(** *** Participant resolution *)

(** [p.profiles && p.profiles.id] *)
Definition hasValidProfile (p : Participant) : bool :=
  match profiles p with
  | Some pr => truthy (id pr)
  | None => false
  end.

(** [.filter((p) => p.profiles && p.profiles.id).map((p) => p.profiles)] *)
Definition validProfilesOf (ps : list Participant) : list Profile :=
  flat_map (fun p => match profiles p with Some pr => [pr] | None => [] end)
           (filter hasValidProfile ps).

Fixpoint logParticipants (index : nat) (ps : list Participant) : M unit :=
  match ps with
  | [] => ret tt
  | p :: rest =>
      console_log ("Participant " ++ of_nat index ++ ":") ;;
      logParticipants (S index) rest
  end.

Definition debugParticipants (conversation : Conversation) : M unit :=
  console_log ("Debugging conversation " ++ conv_id conversation ++ ":") ;;
  me <- gets (fun w => currentUserId (screen w)) ;;
  console_log ("Current user ID: " ++ show me) ;;
  console_log ("Number of participants: " ++
               of_nat (match participants conversation with
                       | Some ps => length ps
                       | None => 0
                       end)) ;;
  match participants conversation with
  | Some (p :: rest) => logParticipants 0 (p :: rest)
  | _ => ret tt
  end.

Definition getOtherParticipant (conversation : Conversation)
  : M (option Profile) :=
  match participants conversation with
  | None | Some [] =>
      console_warn ("No participants in conversation " ++ conv_id conversation) ;;
      ret None
  | Some ps =>
      debugParticipants conversation ;;
      let validProfiles := validProfilesOf ps in
      match validProfiles with
      | [] =>
          console_warn ("No valid profiles in conversation " ++ conv_id conversation) ;;
          ret None
      | first :: _ =>
          me <- gets (fun w => currentUserId (screen w)) ;;
          let otherProfiles :=
            filter (fun profile => strict_neq (id profile) me) validProfiles in
          match otherProfiles with
          | other :: _ =>
              console_log ("Found " ++ of_nat (length otherProfiles) ++
                           " other participants for conversation " ++
                           conv_id conversation) ;;
              ret (Some other)
          | [] =>
              console_log ("Only found current user in conversation " ++
                           conv_id conversation ++ " - possible self-message") ;;
              ret (Some first)
          end
      end
  end.


(** The participants of a conversation, none when the array is missing. *)
Definition participantsOf (conversation : Conversation) : list Participant :=
  match participants conversation with
  | Some ps => ps
  | None => []
  end.

(** The value [getOtherParticipant] returns for a viewer, its logging
    left out. *)
Definition selected (me : value) (conversation : Conversation) : option Profile :=
  let validProfiles := validProfilesOf (participantsOf conversation) in
  match filter (fun profile => strict_neq (id profile) me) validProfiles with
  | other :: _ => Some other
  | [] => hd_error validProfiles
  end.

(** *** Rendering one conversation *)

(** What [renderItem] puts on screen for a conversation. *)
Record Row : Type := mkRow {
  onPress : string;
  avatar_uri : string;
  title : string;
  timestamp : string;
  subtitle : string
}.

Definition placeholderAvatar : string :=
  "https://images.unsplash.com/photo-1633332755192-727a05c4013d?w=100&h=100&fit=crop".

(** [(p) => p.profiles && p.profiles.id === currentUserId] *)
Definition isViewer (me : value) (p : Participant) : bool :=
  match profiles p with
  | Some pr => strict_eq (id pr) me
  | None => false
  end.

(** [(p) => p.profiles && p.profiles.id !== currentUserId] *)
Definition isNotViewer (me : value) (p : Participant) : bool :=
  match profiles p with
  | Some pr => strict_neq (id pr) me
  | None => false
  end.

(** [found?.profiles?.avatar_url] *)
Definition avatarOfFound (found : option Participant) : value :=
  match found with
  | Some p =>
      match profiles p with
      | Some pr => avatar_url pr
      | None => undefined
      end
  | None => undefined
  end.

(** The [avatarUrl] of [renderItem]. *)
Definition avatarUrlOf (me : value) (ps : list Participant)
  (otherParticipant : Profile) : value :=
  or (avatarOfFound (find (isNotViewer me) ps)) (avatar_url otherParticipant).

(** The avatar rule as the design text words it: the avatar of the first
    participant whose profile identifier differs from the viewer's, and
    the resolved profile's avatar only when there is no such participant. *)
Definition avatarAsDescribed (me : value) (ps : list Participant)
  (otherParticipant : Profile) : value :=
  match find (isNotViewer me) ps with
  | Some p => avatarOfFound (Some p)
  | None => avatar_url otherParticipant
  end.

(** [s.includes(sub)] *)
Fixpoint includes (s sub : string) : bool :=
  String.prefix sub s ||
  match s with
  | EmptyString => false
  | String _ rest => includes rest sub
  end.

Section Rendering.

(** [formatRelativeTime] of [lib/date-utils], which the screens import. *)
Variable formatRelativeTime : string -> string.

(** [String.prototype.toLowerCase] of the runtime. *)
Variable toLowerCase : string -> string.

Definition renderItem (conversation : Conversation) : M (option Row) :=
  console_log ("Rendering conversation " ++ conv_id conversation) ;;
  otherParticipant <- getOtherParticipant conversation ;;
  match otherParticipant with
  | None =>
      console_warn ("No valid participant found for conversation " ++
                    conv_id conversation) ;;
      ret None
  | Some other =>
      match participants conversation with
      | None => throw (TypeError "Cannot read properties of null (reading 'every')")
      | Some ps =>
          me <- gets (fun w => currentUserId (screen w)) ;;
          let isSelfMessage := forallb (isViewer me) ps in
          let avatarUrl := avatarUrlOf me ps other in
          console_log "Using participant:" ;;
          let formattedTime :=
            match last_message_at conversation with
            | str s => if s =? "" then "Unknown time" else formatRelativeTime s
            | _ => "Unknown time"
            end in
          ret (Some {| onPress := "/messages/" ++ conv_id conversation;
                       avatar_uri := or_default avatarUrl placeholderAvatar;
                       title := or_default
                                  (or (display_name other) (username other))
                                  "Unknown user";
                       timestamp := formattedTime;
                       subtitle := or_default (last_message conversation)
                                              "No messages yet" |})
      end
  end.

(** [v && v.toLowerCase().includes(searchQuery.toLowerCase())] *)
Definition fieldMatches (query : string) (v : value) : bool :=
  match v with
  | str s => negb (s =? "") && includes (toLowerCase s) (toLowerCase query)
  | _ => false
  end.

Fixpoint filterBySearch (query : string) (convs : list Conversation)
  : M (list Conversation) :=
  match convs with
  | [] => ret []
  | conv :: rest =>
      otherParticipant <- getOtherParticipant conv ;;
      let keep :=
        match otherParticipant with
        | None => false
        | Some other =>
            fieldMatches query (display_name other) ||
            fieldMatches query (username other) ||
            fieldMatches query (last_message conv)
        end in
      kept <- filterBySearch query rest ;;
      ret (if keep then conv :: kept else kept)
  end.

Definition filteredConversations : M (list Conversation) :=
  query <- gets (fun w => searchQuery (screen w)) ;;
  convs <- gets (fun w => conversations (screen w)) ;;
  if query =? "" then ret convs else filterBySearch query convs.

Fixpoint renderItems (convs : list Conversation) : M (list (option Row)) :=
  match convs with
  | [] => ret []
  | conv :: rest =>
      row <- renderItem conv ;;
      rows <- renderItems rest ;;
      ret (row :: rows)
  end.

(** What the component returns for the current state. *)
Inductive View : Type :=
| Spinner
| ErrorView (message : string)
| ListView (rows : list (option Row)).

Definition render : M View :=
  data <- filteredConversations ;;
  isLoading <- gets (fun w => loading (screen w)) ;;
  err <- gets (fun w => error (screen w)) ;;
  if isLoading then ret Spinner
  else match err with
       | str s => if s =? "" then rows <- renderItems data ;; ret (ListView rows)
                  else ret (ErrorView s)
       | _ => rows <- renderItems data ;; ret (ListView rows)
       end.

End Rendering.


(** *** Fetching *)

(** What [supabase.auth.getUser()] settles to: a rejection, or an answer
    [{ data: { user }, error }]. *)
Inductive AuthResponse : Type :=
| AuthRejects
| AuthAnswer (userError : bool) (user : option string).

(** What the conversations query settles to: a rejection, or an answer
    [{ data, error }] whose error carries a message. *)
Inductive QueryResponse : Type :=
| QueryRejects
| QueryAnswer (data : option (list Conversation)) (fetchError : option string).

(** [fetchCurrentUser], resumed with the answer of [getUser]; it returns
    the user's id or [null]. *)
Definition fetchCurrentUser (resp : AuthResponse) : M value :=
  try_catch
    (match resp with
     | AuthRejects => throw (Rejected "auth.getUser")
     | AuthAnswer true _ =>
         console_error "Error fetching current user:" ;;
         setError (str "Authentication error. Please try signing in again.") ;;
         ret null
     | AuthAnswer false (Some uid) =>
         console_log ("Current user ID set to: " ++ uid) ;;
         setCurrentUserId (str uid) ;;
         ret (str uid)
     | AuthAnswer false None =>
         setError (str "No user found. Please sign in.") ;;
         ret null
     end)
    (fun _ =>
       console_error "Error fetching current user:" ;;
       setError (str "Failed to authenticate. Please try again.") ;;
       ret null).

(** The filter of [fetchConversations]:
    [conv.participants && conv.participants.length > 0 &&
     conv.participants.some((p) => p.profiles && p.profiles.id)] *)
Definition hasValidParticipant (conv : Conversation) : bool :=
  match participants conv with
  | Some ps => (0 <? length ps)%nat && existsb hasValidProfile ps
  | None => false
  end.

(** Where [fetchConversations] stands after a resumption. *)
Inductive Progress : Type :=
| Finished
| AwaitingQuery (userId : string).

(** The [catch] block of [fetchConversations]. *)
Definition fetchCatch (_ : exn) : M unit :=
  console_error "Error fetching conversations:" ;;
  setError (str "Failed to load conversations. Please try again.").

(** The [finally] block of [fetchConversations]. *)
Definition fetchFinally : M unit :=
  setLoading false ;;
  setRefreshing false.

(** [fin] runs when the function is left, not when it is suspended at
    the next [await]. *)
Definition unlessSuspended (c : M Progress) (fin : M unit) : M Progress :=
  fun w =>
    match c w with
    | (Ok (AwaitingQuery userId), w') => (Ok (AwaitingQuery userId), w')
    | (r, w') => try_finally (fun w0 => (r, w0)) fin w'
    end.

(** [fetchConversations] from the answer of [getUser] up to the query. *)
Definition fetchConversations_onUser (resp : AuthResponse) : M Progress :=
  unlessSuspended
    (try_catch
       (userId <- fetchCurrentUser resp ;;
        match userId with
        | str uid =>
            if uid =? "" then setLoading false ;; ret Finished
            else
              console_log ("Fetching conversations for user: " ++ uid) ;;
              ret (AwaitingQuery uid)
        | _ => setLoading false ;; ret Finished
        end)
       (fun e => fetchCatch e ;; ret Finished))
    fetchFinally.

(** [fetchConversations] from the answer of the query to its end. *)
Definition fetchConversations_onQuery (resp : QueryResponse) : M unit :=
  try_finally
    (try_catch
       (match resp with
        | QueryRejects => throw (Rejected "conversations")
        | QueryAnswer _ (Some message) =>
            console_error "Supabase error:" ;;
            setError (str ("Failed to load conversations: " ++ message))
        | QueryAnswer data None =>
            console_log ("Retrieved " ++
                         of_nat (match data with
                                 | Some d => length d
                                 | None => 0
                                 end) ++
                         " conversations from Supabase") ;;
            match data with
            | None | Some [] =>
                console_log "No conversations found" ;;
                setConversations []
            | Some data =>
                let validConversations := filter hasValidParticipant data in
                console_log ("Loaded " ++ of_nat (length validConversations) ++
                             " valid conversations") ;;
                when ((length validConversations =? 0)%nat && (0 <? length data)%nat)
                  (console_warn
                     "Found conversations but all were filtered out due to invalid participant data") ;;
                setConversations validConversations
            end ;;
            setError null
        end)
       fetchCatch)
    fetchFinally.


(** *** Live sync: the mount effect as a transition system *)

Inductive Channel : Type :=
| ConversationsChannel
| MessagesChannel.

(** The filter object given to [.on('postgres_changes', ...)]. *)
Record ChangeFilter : Type := mkChangeFilter {
  event : string;
  schema : string;
  table : string;
  row_filter : option string
}.

Definition filterOf (ch : Channel) : ChangeFilter :=
  match ch with
  | ConversationsChannel =>
      {| event := "*"; schema := "public"; table := "conversations";
         row_filter := None |}
  | MessagesChannel =>
      {| event := "*"; schema := "public"; table := "messages";
         row_filter := None |}
  end.

Definition channel_eqb (a b : Channel) : bool :=
  match a, b with
  | ConversationsChannel, ConversationsChannel => true
  | MessagesChannel, MessagesChannel => true
  | _, _ => false
  end.

(** An asynchronous call that is suspended at an [await]. A fetch
    started by [initialize] is followed by [debugConversations] and the
    [finally] block of [initialize]. A call is [Detached] once React has
    unmounted its component: it is not cancelled and its answers still
    resume it, but React discards the state updates it makes. *)
Inductive Task : Type :=
| AwaitUser (fromInitialize : bool)
| AwaitQuery (fromInitialize : bool) (userId : string)
| AwaitDebug
| Detached (call : Task).

(** What the unmounting of the component makes of a call in flight. *)
Definition detach (t : Task) : Task :=
  match t with
  | Detached _ => t
  | _ => Detached t
  end.

Definition isDetached (t : Task) : bool :=
  match t with
  | Detached _ => true
  | _ => false
  end.

(** One mounted instance of the screen: its state, the [mounted]
    variable of the effect, the channels that are subscribed, the calls
    in flight, and how many times [fetchConversations] has been called. *)
Record Machine : Type := mkMachine {
  world : World;
  mounted : bool;
  subscribed : list Channel;
  tasks : list Task;
  fetches : nat
}.

(** Runs a synchronous piece of component code on the machine's state. *)
Definition exec {A} (c : M A) (m : Machine) : Machine :=
  {| world := snd (c (world m)); mounted := mounted m;
     subscribed := subscribed m; tasks := tasks m; fetches := fetches m |}.

Definition withTasks (ts : list Task) (m : Machine) : Machine :=
  {| world := world m; mounted := mounted m;
     subscribed := subscribed m; tasks := ts; fetches := fetches m |}.

(** A call of [fetchConversations]: it runs up to the [await] of
    [getUser] and is then in flight. *)
Definition startFetch (fromInitialize : bool) (m : Machine) : Machine :=
  {| world := world m; mounted := mounted m;
     subscribed := subscribed m;
     tasks := tasks m ++ [AwaitUser fromInitialize];
     fetches := S (fetches m) |}.

Fixpoint replaceTask (i : nat) (new : list Task) (ts : list Task) : list Task :=
  match ts, i with
  | [], _ => []
  | _ :: rest, O => new ++ rest
  | t :: rest, S j => t :: replaceTask j new rest
  end.

(** The effect body: [initialize()] up to its first [await], then both
    subscriptions. *)
Definition mount (w : World) : Machine :=
  let m := {| world := w; mounted := true; subscribed := [];
              tasks := []; fetches := 0 |} in
  let m := exec (setLoading true) m in
  let m := if mounted m then startFetch true m else m in
  {| world := world m; mounted := mounted m;
     subscribed := [ConversationsChannel; MessagesChannel];
     tasks := tasks m; fetches := fetches m |}.

(** The cleanup function of the effect. The effect has no dependencies,
    so React runs the cleanup once, when it unmounts the component: the
    calls in flight are detached from then on. *)
Definition unmount (m : Machine) : Machine :=
  {| world := world m; mounted := false; subscribed := [];
     tasks := map detach (tasks m); fetches := fetches m |}.

(** Component code that runs for an unmounted component: what it writes
    to the console is written, the state updates it makes are discarded
    by React. *)
Definition discarding (f : Machine -> Machine) (m : Machine) : Machine :=
  let m' := f m in
  {| world := {| screen := screen (world m); console := console (world m') |};
     mounted := mounted m'; subscribed := subscribed m';
     tasks := tasks m'; fetches := fetches m' |}.

(** The callback given to [.on] for a channel. *)
Definition onChange (ch : Channel) (m : Machine) : Machine :=
  let m :=
    exec (console_log
            match ch with
            | ConversationsChannel => "Conversation change detected:"
            | MessagesChannel => "Message change detected:"
            end) m in
  if mounted m then startFetch false m else m.

(** The [catch] and [finally] blocks of [initialize], reached when the
    awaited fetch throws. *)
Definition initializeCatch (m : Machine) : Machine :=
  let m := exec (console_error "Initialization error:") m in
  let m := if mounted m
           then exec (setError (str "Failed to initialize. Please restart the app.")) m
           else m in
  if mounted m then exec (setLoading false) m else m.

(** The [finally] block of [initialize], reached after
    [debugConversations], which only logs and catches its own errors. *)
Definition initializeFinally (m : Machine) : Machine :=
  if mounted m then exec (setLoading false) m else m.

(** The [onPress] of the retry button. *)
Definition retry (m : Machine) : Machine :=
  let m := exec (setLoading true) m in
  let m := exec (setError null) m in
  startFetch false m.

(** [onRefresh] *)
Definition onRefresh (m : Machine) : Machine :=
  let m := exec (setRefreshing true) m in
  startFetch false m.

(** A row change that the gateway publishes: the kind of change
    ([payload.eventType]), the schema and table of the row, and the row
    filter expressions that the row satisfies. *)
Inductive ChangeType : Type :=
| INSERT
| UPDATE
| DELETE.

Definition eventName (t : ChangeType) : string :=
  match t with
  | INSERT => "INSERT"
  | UPDATE => "UPDATE"
  | DELETE => "DELETE"
  end.

Record Change : Type := mkChange {
  eventType : ChangeType;
  in_schema : string;
  in_table : string;
  satisfies : string -> bool
}.

(** Whether a ['postgres_changes'] filter selects a change: the event is
    ['*'] or the kind of the change, schema and table are those of the
    row, and the row filter, when there is one, holds of the row. *)
Definition selects (f : ChangeFilter) (c : Change) : bool :=
  ((event f =? "*") || (event f =? eventName (eventType c))) &&
  (schema f =? in_schema c) &&
  (table f =? in_table c) &&
  match row_filter f with
  | None => true
  | Some expr => satisfies c expr
  end.

(** The gateway publishes a change: the callback of every subscribed
    channel whose filter selects the change is called. *)
Definition publish (c : Change) (m : Machine) : Machine :=
  fold_left (fun m ch => if selects (filterOf ch) c then onChange ch m else m)
            (subscribed m) m.

(** What can happen to an instance. A change event names the channel
    it arrives on; an answer names the call it resumes by its position
    among the calls in flight; a row change is published to the
    subscribed channels. The user's events come from the rendered
    screen, that is, while the component is mounted. *)
Inductive Event : Type :=
| ChangeEvent (ch : Channel)
| UserAnswered (i : nat) (resp : AuthResponse)
| QueryAnswered (i : nat) (resp : QueryResponse)
| DebugDone (i : nat)
| Deactivate
| PressRetry
| PullToRefresh
| TypeSearch (query : string)
| RowChanged (c : Change).

(** What follows a fetch that has returned. *)
Definition afterFetch (fromInitialize : bool) : list Task :=
  if fromInitialize then [AwaitDebug] else [].

(** The answer of [getUser] resumes a detached fetch. *)
Definition resumeUserDetached (i : nat) (init : bool) (resp : AuthResponse)
  (m : Machine) : Machine :=
  discarding
    (fun m =>
       match fetchConversations_onUser resp (world m) with
       | (Ok (AwaitingQuery userId), _) =>
           withTasks (replaceTask i [Detached (AwaitQuery init userId)] (tasks m))
                     (exec (fetchConversations_onUser resp) m)
       | (Ok Finished, _) =>
           withTasks (replaceTask i (map Detached (afterFetch init)) (tasks m))
                     (exec (fetchConversations_onUser resp) m)
       | (Throw _, _) =>
           let m' := withTasks (replaceTask i [] (tasks m))
                               (exec (fetchConversations_onUser resp) m) in
           if init then initializeCatch m' else m'
       end) m.

(** The answer of the query resumes a detached fetch. *)
Definition resumeQueryDetached (i : nat) (init : bool) (resp : QueryResponse)
  (m : Machine) : Machine :=
  discarding
    (fun m =>
       match fetchConversations_onQuery resp (world m) with
       | (Ok _, _) =>
           withTasks (replaceTask i (map Detached (afterFetch init)) (tasks m))
                     (exec (fetchConversations_onQuery resp) m)
       | (Throw _, _) =>
           let m' := withTasks (replaceTask i [] (tasks m))
                               (exec (fetchConversations_onQuery resp) m) in
           if init then initializeCatch m' else m'
       end) m.

(** [debugConversations] returns to a detached [initialize]. *)
Definition resumeDebugDetached (i : nat) (m : Machine) : Machine :=
  discarding
    (fun m => initializeFinally (withTasks (replaceTask i [] (tasks m)) m)) m.

Definition step (m : Machine) (e : Event) : Machine :=
  match e with
  | ChangeEvent ch =>
      if existsb (channel_eqb ch) (subscribed m) then onChange ch m else m
  | UserAnswered i resp =>
      match nth_error (tasks m) i with
      | Some (AwaitUser init) =>
          match fetchConversations_onUser resp (world m) with
          | (Ok (AwaitingQuery userId), _) =>
              withTasks (replaceTask i [AwaitQuery init userId] (tasks m))
                        (exec (fetchConversations_onUser resp) m)
          | (Ok Finished, _) =>
              withTasks (replaceTask i (afterFetch init) (tasks m))
                        (exec (fetchConversations_onUser resp) m)
          | (Throw _, _) =>
              let m' := withTasks (replaceTask i [] (tasks m))
                                  (exec (fetchConversations_onUser resp) m) in
              if init then initializeCatch m' else m'
          end
      | Some (Detached (AwaitUser init)) => resumeUserDetached i init resp m
      | _ => m
      end
  | QueryAnswered i resp =>
      match nth_error (tasks m) i with
      | Some (AwaitQuery init _) =>
          match fetchConversations_onQuery resp (world m) with
          | (Ok _, _) =>
              withTasks (replaceTask i (afterFetch init) (tasks m))
                        (exec (fetchConversations_onQuery resp) m)
          | (Throw _, _) =>
              let m' := withTasks (replaceTask i [] (tasks m))
                                  (exec (fetchConversations_onQuery resp) m) in
              if init then initializeCatch m' else m'
          end
      | Some (Detached (AwaitQuery init _)) => resumeQueryDetached i init resp m
      | _ => m
      end
  | DebugDone i =>
      match nth_error (tasks m) i with
      | Some AwaitDebug =>
          initializeFinally (withTasks (replaceTask i [] (tasks m)) m)
      | Some (Detached AwaitDebug) => resumeDebugDetached i m
      | _ => m
      end
  | Deactivate => unmount m
  | PressRetry =>
      if negb (loading (screen (world m))) && truthy (error (screen (world m)))
      then retry m else m
  | PullToRefresh =>
      if negb (loading (screen (world m))) &&
         negb (truthy (error (screen (world m))))
      then onRefresh m else m
  | TypeSearch query =>
      if negb (loading (screen (world m)))
      then exec (setSearchQuery query) m else m
  | RowChanged c => publish c m
  end.

Definition run (m : Machine) (es : list Event) : Machine :=
  fold_left step es m.

(** The screen is active: the effect has run and its cleanup has not. *)
Definition active (m : Machine) : Prop :=
  mounted m = true /\ subscribed m = [ConversationsChannel; MessagesChannel].

(** The answers with which a fetch fails. *)
Definition isFailure (resp : QueryResponse) : bool :=
  match resp with
  | QueryRejects => true
  | QueryAnswer _ (Some _) => true
  | QueryAnswer _ None => false
  end.

(** The screen once [fetchCurrentUser] has stored the viewer's id. *)
Definition signedInAs (uid : string) : World :=
  {| screen := {| conversations := []; loading := false; refreshing := false;
                  searchQuery := ""; currentUserId := str uid; error := null |};
     console := [] |}.

(** The avatar rule as described, read on a rendered row. *)
Definition rendersAvatarAsDescribed (fmt : string -> string) (w : World)
  (c : Conversation) : Prop :=
  forall row ps other,
    fst (renderItem fmt c w) = Ok (Some row) ->
    participants c = Some ps ->
    fst (getOtherParticipant c w) = Ok (Some other) ->
    avatar_uri row =
    or_default (avatarAsDescribed (currentUserId (screen w)) ps other)
               placeholderAvatar.

(** A conversation between two users, as the query returns it. *)
Definition sampleConversation : Conversation :=
  {| conv_id := "c1";
     last_message := str "hi";
     last_message_at := str "2025-02-17T06:05:59Z";
     updated_at := str "2025-02-17T06:05:59Z";
     participants :=
       Some [ {| profiles := Some {| id := str "u1"; username := str "ann";
                                      display_name := str "Ann";
                                      avatar_url := null |} |};
              {| profiles := Some {| id := str "u2"; username := str "bob";
                                      display_name := str "Bob";
                                      avatar_url := str "b.png" |} |} ] |}.

(** The screen loads an empty list, a message arrives and starts a
    refetch, and the screen is left while the query is in flight. *)
Definition leftDuringRefetch : list Event :=
  [ UserAnswered 0 (AuthAnswer false (Some "u1"));
    QueryAnswered 0 (QueryAnswer (Some []) None);
    DebugDone 0;
    ChangeEvent MessagesChannel;
    UserAnswered 0 (AuthAnswer false (Some "u1"));
    Deactivate ].

(** The answer of the query that was in flight. *)
Definition lateAnswer : Event :=
  QueryAnswered 0 (QueryAnswer (Some [sampleConversation]) None).

(** A conversation whose first participant has a profile with an empty
    identifier and no avatar. *)
Definition blankFirst : Conversation :=
  {| conv_id := "c2";
     last_message := null;
     last_message_at := null;
     updated_at := null;
     participants :=
       Some [ {| profiles := Some {| id := str ""; username := null;
                                      display_name := null;
                                      avatar_url := null |} |};
              {| profiles := Some {| id := str "u2"; username := str "bob";
                                      display_name := str "Bob";
                                      avatar_url := str "b.png" |} |} ] |}.

(** A message is inserted. *)
Definition messageInserted : Change :=
  {| eventType := INSERT; in_schema := "public"; in_table := "messages";
     satisfies := fun _ => true |}.

(** The events that come from the gateway, as opposed to the user's. *)
Definition fromGateway (e : Event) : bool :=
  match e with
  | ChangeEvent _ | UserAnswered _ _ | QueryAnswered _ _ | DebugDone _
  | RowChanged _ => true
  | _ => false
  end.

(** The test of the search filter on a conversation whose other party
    is resolved. *)
Definition matchesSearch (toLowerCase : string -> string) (query : string)
  (other : Profile) (conv : Conversation) : bool :=
  fieldMatches toLowerCase query (display_name other) ||
  fieldMatches toLowerCase query (username other) ||
  fieldMatches toLowerCase query (last_message conv).

End MessagesScreen.

(** ** Starting a conversation *)

Module NewMessageScreen.
Import Js Comp.
Local Open Scope comp_scope.

(** A row of [conversation_participants], by the two columns the screen
    reads and writes. *)
Record ParticipantRow : Type := mkRow {
  conversation_id : string;
  user_id : string
}.

(** The two tables behind the gateway; a conversation row is kept by
    its id. *)
Record Database : Type := mkDatabase {
  conversations : list string;
  conversation_participants : list ParticipantRow
}.

(** How the gateway behaves during one call of [startConversation]:
    the signed-in user, which requests it answers with an error, and
    the id it generates for an inserted conversation. *)
Record Gateway : Type := mkGateway {
  sessionUser : option string;
  selectFails : bool;
  lookupFails : string -> bool;
  insertConversationFails : bool;
  insertParticipantsFails : bool;
  generatedId : string
}.

Record World : Type := mkWorld {
  db : Database;
  error : value;
  pushed : list string;
  console : list string
}.

Abbreviation M := (Comp.M World).

Definition setError (v : value) : M unit :=
  modify (fun w => {| db := db w; error := v; pushed := pushed w;
                      console := console w |}).

Definition router_push (path : string) : M unit :=
  modify (fun w => {| db := db w; error := error w;
                      pushed := pushed w ++ [path]; console := console w |}).

Definition console_error (msg : string) : M unit :=
  modify (fun w => {| db := db w; error := error w; pushed := pushed w;
                      console := console w ++ [msg] |}).

Definition setDb (d : Database) : M unit :=
  modify (fun w => {| db := d; error := error w; pushed := pushed w;
                      console := console w |}).

(** An answer [{ data, error }] of the gateway. *)
Definition Answer (A : Type) : Type := (option A * option exn)%type.

(** [.from('conversation_participants').select('conversation_id')
     .eq('user_id', userId)] *)
Definition selectByUser (g : Gateway) (userId : string)
  : M (Answer (list ParticipantRow)) :=
  rows <- gets (fun w => conversation_participants (db w)) ;;
  if selectFails g then ret (None, Some (Rejected "select"))
  else ret (Some (filter (fun r => user_id r =? userId) rows), None).

(** [.eq('conversation_id', c).eq('user_id', u)] on one row. *)
Definition isRow (c u : string) (r : ParticipantRow) : bool :=
  (conversation_id r =? c) && (user_id r =? u).

(** [.eq('conversation_id', c).eq('user_id', userId).single()]: data
    only when exactly one row matches. *)
Definition selectSingle (g : Gateway) (c userId : string)
  : M (Answer ParticipantRow) :=
  rows <- gets (fun w => conversation_participants (db w)) ;;
  if lookupFails g c then ret (None, Some (Rejected "single"))
  else
    match filter (isRow c userId) rows with
    | [r] => ret (Some r, None)
    | _ => ret (None, Some (Rejected "single"))
    end.

(** [.from('conversations').insert({}).select().single()] *)
Definition insertConversation (g : Gateway) : M (Answer string) :=
  d <- gets db ;;
  if insertConversationFails g then ret (None, Some (Rejected "insert"))
  else
    setDb {| conversations := conversations d ++ [generatedId g];
             conversation_participants := conversation_participants d |} ;;
    ret (Some (generatedId g), None).

(** [.from('conversation_participants').insert(rows)] *)
Definition insertParticipants (g : Gateway) (rows : list ParticipantRow)
  : M (Answer unit) :=
  d <- gets db ;;
  if insertParticipantsFails g then ret (None, Some (Rejected "insert"))
  else
    setDb {| conversations := conversations d;
             conversation_participants := conversation_participants d ++ rows |} ;;
    ret (Some tt, None).

(** The [for ... of existingParticipants] loop with its [break]. *)
Fixpoint findExisting (g : Gateway) (otherUserId : string)
  (existingParticipants : list ParticipantRow) : M value :=
  match existingParticipants with
  | [] => ret null
  | participant :: rest =>
      answer <- selectSingle g (conversation_id participant) otherUserId ;;
      match fst answer with
      | Some otherParticipant => ret (str (conversation_id otherParticipant))
      | None => findExisting g otherUserId rest
      end
  end.

(** [let existingConversationId = null] and the guarded loop that may
    assign it. *)
Definition lookForExisting (g : Gateway) (otherUserId : string)
  (existingParticipants : option (list ParticipantRow)) : M value :=
  match existingParticipants with
  | Some (p :: rest) => findExisting g otherUserId (p :: rest)
  | _ => ret null
  end.

(** The statements after the early return: both inserts and the
    navigation. *)
Definition createNew (g : Gateway) (user otherUserId : string) : M unit :=
  created <- insertConversation g ;;
  match snd created with
  | Some conversationError => throw conversationError
  | None =>
      match fst created with
      | None => throw (TypeError "Cannot read properties of null (reading 'id')")
      | Some newId =>
          added <- insertParticipants g
                     [ {| conversation_id := newId; user_id := user |};
                       {| conversation_id := newId; user_id := otherUserId |} ] ;;
          match snd added with
          | Some participantsInsertError => throw participantsInsertError
          | None => router_push ("/messages/" ++ newId)
          end
      end
  end.

Definition startConversation (g : Gateway) (otherUserId : string) : M unit :=
  try_catch
    (match sessionUser g with
     | None => setError (str "You must be logged in to start a conversation")
     | Some user =>
         existing <- selectByUser g user ;;
         match snd existing with
         | Some participantsError => throw participantsError
         | None =>
             existingConversationId <-
               lookForExisting g otherUserId (fst existing) ;;
             if truthy existingConversationId
             then router_push ("/messages/" ++ show existingConversationId)
             else createNew g user otherUserId
         end
     end)
    (fun _ =>
       console_error "Error starting conversation:" ;;
       setError (str "Failed to start conversation")).

(** The state in which a call finds the screen. *)
Definition before (d : Database) : World :=
  {| db := d; error := null; pushed := []; console := [] |}.

(** The state in which a call on database [d] leaves the screen. *)
Definition after (g : Gateway) (d : Database) (otherUserId : string) : World :=
  snd (startConversation g otherUserId (before d)).

(** Conversation [c] has both users as participants. *)
Definition sharedBy (d : Database) (viewer other c : string) : Prop :=
  In {| conversation_id := c; user_id := viewer |} (conversation_participants d) /\
  In {| conversation_id := c; user_id := other |} (conversation_participants d).

(** The database after a conversation [c] between both users is added. *)
Definition withConversation (d : Database) (c viewer other : string) : Database :=
  {| conversations := conversations d ++ [c];
     conversation_participants :=
       conversation_participants d ++
       [ {| conversation_id := c; user_id := viewer |};
         {| conversation_id := c; user_id := other |} ] |}.

(** Whether the conversation of row [r] has the other user, read off
    the table. *)
Definition hasOther (d : Database) (other : string) (r : ParticipantRow) : bool :=
  existsb (isRow (conversation_id r) other) (conversation_participants d).

(** Every request is answered from the tables. *)
Definition answersAll (g : Gateway) : Prop :=
  selectFails g = false /\ (forall c, lookupFails g c = false) /\
  insertConversationFails g = false /\ insertParticipantsFails g = false.

(** What the schema enforces: conversation ids are generated uuids, so
    never empty, and [UNIQUE(conversation_id, user_id)]. *)
Definition wellFormed (d : Database) : Prop :=
  NoDup (conversation_participants d) /\
  forall r, In r (conversation_participants d) -> conversation_id r <> "".

(** A conversation between both users is added and nothing else. *)
Definition createsConversation (g : Gateway) (d : Database) (viewer other : string)
  : Prop :=
  db (after g d other) = withConversation d (generatedId g) viewer other.

(** The creation rule without a condition on the gateway: a
    conversation is created exactly when none is shared. *)
Definition createsExactlyWhenUnshared (g : Gateway) (d : Database)
  (viewer other : string) : Prop :=
  createsConversation g d viewer other <->
  ~ exists c, sharedBy d viewer other c.

(** A gateway that answers the first select with an error. *)
Definition failingSelect : Gateway :=
  {| sessionUser := Some "u1"; selectFails := true;
     lookupFails := fun _ => false; insertConversationFails := false;
     insertParticipantsFails := false; generatedId := "c9" |}.

Definition emptyDatabase : Database :=
  {| conversations := []; conversation_participants := [] |}.

End NewMessageScreen.

(** ** The conversation screen *)

Module DirectMessageScreen.
Import Js Comp.
Local Open Scope comp_scope.

(** [Participant] is declared as in the conversation list. *)
Definition Profile : Type := MessagesScreen.Profile.
Definition Participant : Type := MessagesScreen.Participant.

(** The state the header reads. *)
Record Screen : Type := mkScreen {
  participants : list Participant;
  currentUserId : value
}.

Abbreviation M := (Comp.M Screen).

(** [.find((profile) => profile.id !== currentUserId)] over the mapped
    profiles; reading [id] of a missing profile is a [TypeError]. *)
Fixpoint findOther (me : value) (mapped : list (option MessagesScreen.Profile))
  : M (option MessagesScreen.Profile) :=
  match mapped with
  | [] => ret None
  | None :: _ => throw (TypeError "Cannot read properties of null (reading 'id')")
  | Some profile :: rest =>
      if strict_neq (MessagesScreen.id profile) me then ret (Some profile)
      else findOther me rest
  end.

Definition getOtherParticipant : M (option MessagesScreen.Profile) :=
  ps <- gets participants ;;
  me <- gets currentUserId ;;
  findOther me (map MessagesScreen.profiles ps).

End DirectMessageScreen.

(** ** The rankings of the active challenge *)

Module RankingsScreen.
Import Js Comp.
Local Open Scope comp_scope.

Record Challenge : Type := mkChallenge {
  id : string;
  unit_label : string;
  target_value : nat
}.

Record Progress : Type := mkProgress {
  current_value : nat;
  user_id : string;
  profiles : option MessagesScreen.Profile
}.

Record Screen : Type := mkScreen {
  progress : list Progress;
  challenge : option Challenge;
  loading : bool;
  error : value;
  refreshing : bool
}.

(** [useState] initial values. *)
Definition initialScreen : Screen :=
  {| progress := []; challenge := None; loading := true; error := null;
     refreshing := false |}.

Abbreviation M := (Comp.M Screen).

Definition setProgress (v : list Progress) : M unit :=
  modify (fun s => {| progress := v; challenge := challenge s;
                      loading := loading s; error := error s;
                      refreshing := refreshing s |}).

Definition setChallenge (v : option Challenge) : M unit :=
  modify (fun s => {| progress := progress s; challenge := v;
                      loading := loading s; error := error s;
                      refreshing := refreshing s |}).

Definition setLoading (v : bool) : M unit :=
  modify (fun s => {| progress := progress s; challenge := challenge s;
                      loading := v; error := error s;
                      refreshing := refreshing s |}).

Definition setError (v : value) : M unit :=
  modify (fun s => {| progress := progress s; challenge := challenge s;
                      loading := loading s; error := v;
                      refreshing := refreshing s |}).

Definition setRefreshing (v : bool) : M unit :=
  modify (fun s => {| progress := progress s; challenge := challenge s;
                      loading := loading s; error := error s;
                      refreshing := v |}).

(** An answer [{ data, error }] of a select, or a rejected request. *)
Inductive Response (A : Type) : Type :=
| Rejects
| Answers (data : option (list A)) (failed : bool).
Arguments Rejects {A}.
Arguments Answers {A} data failed.

(** Where [fetchData] stands after a resumption. *)
Inductive Progression : Type :=
| Done
| AwaitingProgress (challengeId : string).

(** The [catch] block of [fetchData]. *)
Definition fetchCatch (_ : exn) : M unit :=
  setError (str "Failed to load rankings").

(** The [finally] block of [fetchData]. *)
Definition fetchFinally : M unit :=
  setLoading false ;;
  setRefreshing false.

(** [fin] runs when the function is left, not when it is suspended. *)
Definition unlessSuspended (c : M Progression) (fin : M unit) : M Progression :=
  fun s =>
    match c s with
    | (Ok (AwaitingProgress challengeId), s') =>
        (Ok (AwaitingProgress challengeId), s')
    | (r, s') => try_finally (fun s0 => (r, s0)) fin s'
    end.

(** [fetchData] from the answer of the challenges query up to the
    progress query. *)
Definition fetchData_onChallenges (resp : Response Challenge) : M Progression :=
  unlessSuspended
    (try_catch
       (match resp with
        | Rejects => throw (Rejected "challenges")
        | Answers _ true => throw (Rejected "challengeError")
        | Answers (Some (first :: rest)) false =>
            setChallenge (Some first) ;;
            ret (AwaitingProgress (id first))
        | Answers _ false =>
            setError (str "No active challenge found") ;;
            ret Done
        end)
       (fun e => fetchCatch e ;; ret Done))
    fetchFinally.

(** [fetchData] from the answer of the progress query to its end. *)
Definition fetchData_onProgress (resp : Response Progress) : M unit :=
  try_finally
    (try_catch
       (match resp with
        | Rejects => throw (Rejected "challenge_progress")
        | Answers _ true => throw (Rejected "progressError")
        | Answers (Some progressData) false => setProgress progressData
        | Answers None false => setProgress []
        end)
       fetchCatch)
    fetchFinally.

(** What the component returns. *)
Inductive View : Type :=
| Spinner
| ErrorView (message : value)
| Rankings (shown : Challenge) (rows : list Progress).

Definition render (s : Screen) : View :=
  if loading s then Spinner
  else if truthy (error s) then ErrorView (error s)
  else match challenge s with
       | None => ErrorView (error s)
       | Some c => Rankings c (progress s)
       end.

(** A call of [fetchData] suspended at an [await]. *)
Inductive Task : Type :=
| AwaitChallenges
| AwaitProgress (challengeId : string).

Record Machine : Type := mkMachine {
  screen : Screen;
  tasks : list Task
}.

Definition exec {A} (c : M A) (m : Machine) : Machine :=
  {| screen := snd (c (screen m)); tasks := tasks m |}.

Definition withTasks (ts : list Task) (m : Machine) : Machine :=
  {| screen := screen m; tasks := ts |}.

(** A call of [fetchData], up to its first [await]. *)
Definition fetchData (m : Machine) : Machine :=
  {| screen := screen m; tasks := tasks m ++ [AwaitChallenges] |}.

Fixpoint replaceTask (i : nat) (new : list Task) (ts : list Task) : list Task :=
  match ts, i with
  | [], _ => []
  | _ :: rest, O => new ++ rest
  | t :: rest, S j => t :: replaceTask j new rest
  end.

(** The effect: [fetchData()] on mount. *)
Definition mount : Machine :=
  fetchData {| screen := initialScreen; tasks := [] |}.

Inductive Event : Type :=
| ChallengesAnswered (i : nat) (resp : Response Challenge)
| ProgressAnswered (i : nat) (resp : Response Progress)
| PressTryAgain
| PullToRefresh.

Definition isErrorView (v : View) : bool :=
  match v with ErrorView _ => true | _ => false end.

Definition isRankings (v : View) : bool :=
  match v with Rankings _ _ => true | _ => false end.

Definition step (m : Machine) (e : Event) : Machine :=
  match e with
  | ChallengesAnswered i resp =>
      match nth_error (tasks m) i with
      | Some AwaitChallenges =>
          match fst (fetchData_onChallenges resp (screen m)) with
          | Ok (AwaitingProgress challengeId) =>
              withTasks (replaceTask i [AwaitProgress challengeId] (tasks m))
                        (exec (fetchData_onChallenges resp) m)
          | _ =>
              withTasks (replaceTask i [] (tasks m))
                        (exec (fetchData_onChallenges resp) m)
          end
      | _ => m
      end
  | ProgressAnswered i resp =>
      match nth_error (tasks m) i with
      | Some (AwaitProgress _) =>
          withTasks (replaceTask i [] (tasks m))
                    (exec (fetchData_onProgress resp) m)
      | _ => m
      end
  | PressTryAgain =>
      if isErrorView (render (screen m)) then fetchData m else m
  | PullToRefresh =>
      if isRankings (render (screen m))
      then fetchData (exec (setRefreshing true) m) else m
  end.

Definition run (m : Machine) (es : list Event) : Machine :=
  fold_left step es m.

End RankingsScreen.

(** ** The length of a JavaScript string *)

Module Utf16.

(** A text is held as its UTF-8 bytes, and the [length] of a JavaScript
    string counts UTF-16 code units: a character takes two units when
    its UTF-8 form has four bytes, and one unit otherwise. [units c] is
    what the character that starts with the byte [c] takes; a
    continuation byte starts none. *)
Definition units (c : Ascii.ascii) : nat :=
  match c with
  | Ascii.Ascii _ _ _ _ b4 b5 b6 b7 =>
      if negb b7 then 1
      else if negb b6 then 0
      else if b5 && b4 then 2
      else 1
  end.

(** [s.length] *)
Fixpoint length (s : string) : nat :=
  match s with
  | EmptyString => 0
  | String c rest => units c + length rest
  end.

(** The text of the bytes with the given values. *)
Definition ofBytes (bytes : list nat) : string :=
  string_of_list_ascii (map Ascii.ascii_of_nat bytes).

(** U+65E5, three bytes (E6 97 A5) and one code unit. *)
Definition sun : string := ofBytes [230; 151; 165].

(** U+1F600, four bytes (F0 9F 98 80) and two code units. *)
Definition grin : string := ofBytes [240; 159; 152; 128].

End Utf16.

(** ** Searching for people to message *)

Module ProfileSearch.
Import Js Comp.
Local Open Scope comp_scope.

(** The [Profile] type of the screen has the fields of the list's. *)
Definition Profile : Type := MessagesScreen.Profile.

Record Screen : Type := mkScreen {
  searchQuery : string;
  profiles : list Profile;
  loading : bool;
  error : value
}.

Definition initialScreen : Screen :=
  {| searchQuery := ""; profiles := []; loading := false; error := null |}.

Abbreviation M := (Comp.M Screen).

Definition setSearchQuery (v : string) : M unit :=
  modify (fun s => {| searchQuery := v; profiles := profiles s;
                      loading := loading s; error := error s |}).

Definition setProfiles (v : list Profile) : M unit :=
  modify (fun s => {| searchQuery := searchQuery s; profiles := v;
                      loading := loading s; error := error s |}).

Definition setLoading (v : bool) : M unit :=
  modify (fun s => {| searchQuery := searchQuery s; profiles := profiles s;
                      loading := v; error := error s |}).

Definition setError (v : value) : M unit :=
  modify (fun s => {| searchQuery := searchQuery s; profiles := profiles s;
                      loading := loading s; error := v |}).

(** What [getUser] settles to. *)
Inductive AuthResponse : Type :=
| AuthRejects
| AuthAnswer (user : option string).

(** What the profiles query settles to. *)
Inductive ProfilesResponse : Type :=
| ProfilesRejects
| ProfilesAnswer (data : option (list Profile)) (failed : bool).

(** The select that [searchProfiles] sends: the viewer is excluded and
    username or display name must match the pattern. *)
Record Request : Type := mkRequest {
  excluded_id : string;
  pattern : string;
  limit : nat
}.

Inductive Progression : Type :=
| Done
| AwaitingProfiles (request : Request).

Definition searchCatch (_ : exn) : M unit :=
  setError (str "Failed to search users").

Definition searchFinally : M unit := setLoading false.

Definition unlessSuspended (c : M Progression) (fin : M unit) : M Progression :=
  fun s =>
    match c s with
    | (Ok (AwaitingProfiles request), s') => (Ok (AwaitingProfiles request), s')
    | (r, s') => try_finally (fun s0 => (r, s0)) fin s'
    end.

(** [searchProfiles] from the answer of [getUser]; [query] is the
    [searchQuery] of the render in which the effect ran. *)
Definition searchProfiles_onUser (query : string) (resp : AuthResponse)
  : M Progression :=
  unlessSuspended
    (try_catch
       (match resp with
        | AuthRejects => throw (Rejected "auth.getUser")
        | AuthAnswer None => ret Done
        | AuthAnswer (Some uid) =>
            ret (AwaitingProfiles
                   {| excluded_id := uid;
                      pattern := "%" ++ query ++ "%";
                      limit := 20 |})
        end)
       (fun e => searchCatch e ;; ret Done))
    searchFinally.

(** [searchProfiles] from the answer of the select to its end. *)
Definition searchProfiles_onProfiles (resp : ProfilesResponse) : M unit :=
  try_finally
    (try_catch
       (match resp with
        | ProfilesRejects => throw (Rejected "profiles")
        | ProfilesAnswer _ true => throw (Rejected "error")
        | ProfilesAnswer (Some data) false => setProfiles data
        | ProfilesAnswer None false => setProfiles []
        end)
       searchCatch)
    searchFinally.

Inductive Task : Type :=
| AwaitUser (query : string)
| AwaitProfiles (request : Request).

Record Machine : Type := mkMachine {
  screen : Screen;
  tasks : list Task
}.

Definition exec {A} (c : M A) (m : Machine) : Machine :=
  {| screen := snd (c (screen m)); tasks := tasks m |}.

Definition withTasks (ts : list Task) (m : Machine) : Machine :=
  {| screen := screen m; tasks := ts |}.

Fixpoint replaceTask (i : nat) (new : list Task) (ts : list Task) : list Task :=
  match ts, i with
  | [], _ => []
  | _ :: rest, O => new ++ rest
  | t :: rest, S j => t :: replaceTask j new rest
  end.

(** The effect on [searchQuery]: search when [searchQuery.length] is two
    or more, clear the list below. [searchProfiles] runs up to its first
    [await]. *)
Definition onSearchQuery (m : Machine) : Machine :=
  let query := searchQuery (screen m) in
  if (2 <=? Utf16.length query)%nat
  then {| screen := snd (setLoading true (screen m));
          tasks := tasks m ++ [AwaitUser query] |}
  else exec (setProfiles []) m.

Inductive Event : Type :=
| TypeQuery (text : string)
| UserAnswered (i : nat) (resp : AuthResponse)
| ProfilesAnswered (i : nat) (resp : ProfilesResponse).

Definition step (m : Machine) (e : Event) : Machine :=
  match e with
  | TypeQuery text =>
      if text =? searchQuery (screen m) then m
      else onSearchQuery (exec (setSearchQuery text) m)
  | UserAnswered i resp =>
      match nth_error (tasks m) i with
      | Some (AwaitUser query) =>
          match fst (searchProfiles_onUser query resp (screen m)) with
          | Ok (AwaitingProfiles request) =>
              withTasks (replaceTask i [AwaitProfiles request] (tasks m))
                        (exec (searchProfiles_onUser query resp) m)
          | _ =>
              withTasks (replaceTask i [] (tasks m))
                        (exec (searchProfiles_onUser query resp) m)
          end
      | _ => m
      end
  | ProfilesAnswered i resp =>
      match nth_error (tasks m) i with
      | Some (AwaitProfiles _) =>
          withTasks (replaceTask i [] (tasks m))
                    (exec (searchProfiles_onProfiles resp) m)
      | _ => m
      end
  end.

Definition run (m : Machine) (es : list Event) : Machine :=
  fold_left step es m.

End ProfileSearch.

(** ** The conversation screen: messages, sending and the header *)

Module DirectMessageThread.
Import Js Comp.
Local Open Scope comp_scope.

(** The joined author of a message. *)
Record Author : Type := mkAuthor {
  username : value;
  display_name : value;
  avatar_url : value
}.

(** A message as the select returns it; a row delivered by the change
    stream has no joined author. *)
Record Message : Type := mkMessage {
  id : string;
  content : string;
  created_at : string;
  sender_id : string;
  is_read : bool;
  profiles : option Author
}.

Record Screen : Type := mkScreen {
  messages : list Message;
  newMessage : string;
  loading : bool;
  sending : bool;
  participants : list MessagesScreen.Participant;
  error : value;
  currentUserId : value
}.

(** A row given to [.from('messages').insert]. *)
Record Insert : Type := mkInsert {
  conversation_id : string;
  insert_sender_id : string;
  insert_content : string
}.

(** The screen and the inserts it has sent to the gateway. *)
Record World : Type := mkWorld {
  screen : Screen;
  requests : list Insert
}.

Definition initialScreen : Screen :=
  {| messages := []; newMessage := ""; loading := true; sending := false;
     participants := []; error := null; currentUserId := null |}.

Abbreviation M := (Comp.M World).

Definition on_screen (f : Screen -> Screen) : M unit :=
  modify (fun w => {| screen := f (screen w); requests := requests w |}).

Definition setMessages (f : list Message -> list Message) : M unit :=
  on_screen (fun s =>
    {| messages := f (messages s); newMessage := newMessage s;
       loading := loading s; sending := sending s;
       participants := participants s; error := error s;
       currentUserId := currentUserId s |}).

Definition setNewMessage (v : string) : M unit :=
  on_screen (fun s =>
    {| messages := messages s; newMessage := v;
       loading := loading s; sending := sending s;
       participants := participants s; error := error s;
       currentUserId := currentUserId s |}).

Definition setLoading (v : bool) : M unit :=
  on_screen (fun s =>
    {| messages := messages s; newMessage := newMessage s;
       loading := v; sending := sending s;
       participants := participants s; error := error s;
       currentUserId := currentUserId s |}).

Definition setSending (v : bool) : M unit :=
  on_screen (fun s =>
    {| messages := messages s; newMessage := newMessage s;
       loading := loading s; sending := v;
       participants := participants s; error := error s;
       currentUserId := currentUserId s |}).

Definition setParticipants (v : list MessagesScreen.Participant) : M unit :=
  on_screen (fun s =>
    {| messages := messages s; newMessage := newMessage s;
       loading := loading s; sending := sending s;
       participants := v; error := error s;
       currentUserId := currentUserId s |}).

Definition setError (v : value) : M unit :=
  on_screen (fun s =>
    {| messages := messages s; newMessage := newMessage s;
       loading := loading s; sending := sending s;
       participants := participants s; error := v;
       currentUserId := currentUserId s |}).

Definition setCurrentUserId (v : value) : M unit :=
  on_screen (fun s =>
    {| messages := messages s; newMessage := newMessage s;
       loading := loading s; sending := sending s;
       participants := participants s; error := error s;
       currentUserId := v |}).

(** [supabase.from('messages').insert(row)], up to its answer. *)
Definition sendInsert (row : Insert) : M unit :=
  modify (fun w => {| screen := screen w; requests := requests w ++ [row] |}).

(** An answer [{ data, error }] of a select, or a rejected request. *)
Inductive Response (A : Type) : Type :=
| Rejects
| Answers (data : option (list A)) (failed : bool).
Arguments Rejects {A}.
Arguments Answers {A} data failed.

(** [fetchMessages], resumed with the answer of its select. *)
Definition fetchMessages (resp : Response Message) : M unit :=
  try_finally
    (try_catch
       (match resp with
        | Rejects => throw (Rejected "messages")
        | Answers _ true => throw (Rejected "error")
        | Answers (Some data) false => setMessages (fun _ => data)
        | Answers None false => setMessages (fun _ => [])
        end)
       (fun _ => setError (str "Failed to load messages")))
    (setLoading false).

(** [fetchParticipants], resumed with the answer of its select; a
    failure is only logged. *)
Definition fetchParticipants (resp : Response MessagesScreen.Participant) : M unit :=
  try_catch
    (match resp with
     | Rejects => throw (Rejected "conversation_participants")
     | Answers _ true => throw (Rejected "error")
     | Answers (Some data) false => setParticipants data
     | Answers None false => setParticipants []
     end)
    (fun _ => ret tt).

(** What [getUser] settles to. *)
Inductive AuthResponse : Type :=
| AuthRejects
| AuthAnswer (user : option string).

(** [fetchCurrentUser], resumed with the answer of [getUser]. *)
Definition fetchCurrentUser (resp : AuthResponse) : M unit :=
  try_catch
    (match resp with
     | AuthRejects => throw (Rejected "auth.getUser")
     | AuthAnswer (Some uid) => setCurrentUserId (str uid)
     | AuthAnswer None => ret tt
     end)
    (fun _ => ret tt).

(** The callback of the subscription to inserts of this conversation:
    [setMessages((current) => [payload.new, ...current])]. *)
Definition onInsert (payload : Message) : M unit :=
  setMessages (fun current => payload :: current).

Section Thread.

(** [String.prototype.trim] of the runtime. *)
Variable trim : string -> string.

(** [formatRelativeTime] of [lib/date-utils]. *)
Variable formatRelativeTime : string -> string.

(** The route parameter [id]. *)
Variable conversationId : string.

(** [handleSend] up to its first [await]: nothing when the text is
    blank or a send is running; else the text of this render is what
    the call will send. *)
Definition handleSend_press : M (option string) :=
  text <- gets (fun w => newMessage (screen w)) ;;
  busy <- gets (fun w => sending (screen w)) ;;
  if (trim text =? "") || busy then ret None
  else setSending true ;; ret (Some text).

Inductive Progression : Type :=
| Done
| AwaitingInsert.

Definition sendCatch (_ : exn) : M unit :=
  setError (str "Failed to send message").

Definition sendFinally : M unit := setSending false.

Definition unlessSuspended (c : M Progression) (fin : M unit) : M Progression :=
  fun w =>
    match c w with
    | (Ok AwaitingInsert, w') => (Ok AwaitingInsert, w')
    | (r, w') => try_finally (fun w0 => (r, w0)) fin w'
    end.

(** [handleSend] from the answer of [getUser] up to the insert. *)
Definition handleSend_onUser (text : string) (resp : AuthResponse)
  : M Progression :=
  unlessSuspended
    (try_catch
       (match resp with
        | AuthRejects => throw (Rejected "auth.getUser")
        | AuthAnswer None => throw (Rejected "Not authenticated")
        | AuthAnswer (Some uid) =>
            sendInsert {| conversation_id := conversationId;
                          insert_sender_id := uid;
                          insert_content := trim text |} ;;
            ret AwaitingInsert
        end)
       (fun e => sendCatch e ;; ret Done))
    sendFinally.

(** [handleSend] from the answer of the insert to its end; [failed]
    tells whether the answer carries an error. *)
Definition handleSend_onInsert (failed : bool) : M unit :=
  try_finally
    (try_catch
       (if failed then throw (Rejected "error")
        else setNewMessage "")
       sendCatch)
    sendFinally.

(** What [renderMessage] shows for a message. *)
Record Bubble : Type := mkBubble {
  mine : bool;
  avatar : option string;
  text : string;
  time : string
}.

Definition placeholderAvatar : string :=
  "https://images.unsplash.com/photo-1633332755192-727a05c4013d?w=100&h=100&fit=crop".

Definition renderMessage (message : Message) : M Bubble :=
  me <- gets (fun w => currentUserId (screen w)) ;;
  let isCurrentUser := strict_eq (str (sender_id message)) me in
  shown <-
    (if isCurrentUser then ret None
     else match profiles message with
          | None => throw (TypeError "Cannot read properties of undefined (reading 'avatar_url')")
          | Some author =>
              ret (Some (or_default (avatar_url author) placeholderAvatar))
          end) ;;
  ret {| mine := isCurrentUser; avatar := shown;
         text := content message;
         time := formatRelativeTime (created_at message) |}.

(** The state the header resolver reads. *)
Definition headerState (w : World) : DirectMessageScreen.Screen :=
  {| DirectMessageScreen.participants := participants (screen w);
     DirectMessageScreen.currentUserId := currentUserId (screen w) |}.

(** What the header shows. *)
Record Header : Type := mkHeader {
  profileRoute : string;
  headerAvatar : string;
  headerName : value;
  headerUsername : string
}.

(** The header of the screen, once [loading] is cleared. *)
Definition renderHeader : M Header :=
  fun w =>
    match DirectMessageScreen.getOtherParticipant (headerState w) with
    | (Throw e, _) => (Throw e, w)
    | (Ok otherParticipant, _) =>
        (Ok {| profileRoute :=
                 "/profile/" ++
                 show (match otherParticipant with
                       | Some other => MessagesScreen.id other
                       | None => undefined
                       end);
               headerAvatar :=
                 or_default (match otherParticipant with
                             | Some other => MessagesScreen.avatar_url other
                             | None => undefined
                             end)
                            placeholderAvatar;
               headerName :=
                 match otherParticipant with
                 | Some other => MessagesScreen.display_name other
                 | None => undefined
                 end;
               headerUsername :=
                 "@" ++ match otherParticipant with
                        | Some other =>
                            match MessagesScreen.username other with
                            | str s => s
                            | _ => ""
                            end
                        | None => ""
                        end |}, w)
    end.

End Thread.

End DirectMessageThread.

(** ** Writing a post *)

Module CreatePostScreen.
Import Js Comp.
Local Open Scope comp_scope.

(** The text without its first [n] bytes. *)
Fixpoint sliceFrom (n : nat) (s : string) : string :=
  match n, s with
  | O, _ => s
  | S m, EmptyString => EmptyString
  | S m, String _ rest => sliceFrom m rest
  end.

(** The first [n] bytes of the text. *)
Fixpoint sliceTo (n : nat) (s : string) : string :=
  match n, s with
  | O, _ => EmptyString
  | S m, EmptyString => EmptyString
  | S m, String c rest => String c (sliceTo m rest)
  end.

(** [String.prototype.slice] on a text of one-byte characters. *)
Definition byteSlice (start : nat) (stop : option nat) (s : string) : string :=
  match stop with
  | None => sliceFrom start s
  | Some stop => sliceTo (stop - start) (sliceFrom start s)
  end.

(** The first group of [/^(https?:\/\/)?(www\.)?/]. *)
Definition stripProtocol (s : string) : string :=
  if String.prefix "https://" s then sliceFrom 8 s
  else if String.prefix "http://" s then sliceFrom 7 s
  else s.

(** The second group. *)
Definition stripWww (s : string) : string :=
  if String.prefix "www." s then sliceFrom 4 s else s.

Record Screen : Type := mkScreen {
  content : string;
  loading : bool;
  error : value;
  selectedImage : value;
  showUrlInput : bool;
  url : string
}.

(** A row given to [.from('posts').insert]. *)
Record Post : Type := mkPost {
  post_user_id : string;
  post_content : string;
  image_url : value
}.

Inductive Navigation : Type :=
| Back
| Replace (path : string).

(** The screen, the inserts it has sent and what it asked of the
    router. *)
Record World : Type := mkWorld {
  screen : Screen;
  posts : list Post;
  router : list Navigation
}.

Abbreviation M := (Comp.M World).

Definition on_screen (f : Screen -> Screen) : M unit :=
  modify (fun w => {| screen := f (screen w); posts := posts w;
                      router := router w |}).

Definition setContent (v : string) : M unit :=
  on_screen (fun s =>
    {| content := v; loading := loading s; error := error s;
       selectedImage := selectedImage s; showUrlInput := showUrlInput s;
       url := url s |}).

Definition setLoading (v : bool) : M unit :=
  on_screen (fun s =>
    {| content := content s; loading := v; error := error s;
       selectedImage := selectedImage s; showUrlInput := showUrlInput s;
       url := url s |}).

Definition setError (v : value) : M unit :=
  on_screen (fun s =>
    {| content := content s; loading := loading s; error := v;
       selectedImage := selectedImage s; showUrlInput := showUrlInput s;
       url := url s |}).

Definition setShowUrlInput (v : bool) : M unit :=
  on_screen (fun s =>
    {| content := content s; loading := loading s; error := error s;
       selectedImage := selectedImage s; showUrlInput := v;
       url := url s |}).

Definition setUrl (v : string) : M unit :=
  on_screen (fun s =>
    {| content := content s; loading := loading s; error := error s;
       selectedImage := selectedImage s; showUrlInput := showUrlInput s;
       url := v |}).

Definition sendPost (row : Post) : M unit :=
  modify (fun w => {| screen := screen w; posts := posts w ++ [row];
                      router := router w |}).

Definition navigate (n : Navigation) : M unit :=
  modify (fun w => {| screen := screen w; posts := posts w;
                      router := router w ++ [n] |}).

(** [handleClose] *)
Definition handleClose : M unit := navigate Back.

Section Post.

(** [String.prototype.trim] and [toLowerCase] of the runtime. *)
Variable trim : string -> string.
Variable toLowerCase : string -> string.

(** [isValidUrl], which asks the runtime's [URL] parser. *)
Variable isValidUrl : string -> bool.

Definition formatUrl (url : string) : string :=
  let formattedUrl := toLowerCase (trim url) in
  let formattedUrl := stripWww (stripProtocol formattedUrl) in
  if String.prefix "http" formattedUrl then formattedUrl
  else "https://" ++ formattedUrl.

(** [String.prototype.slice] of the runtime, whose positions count
    UTF-16 code units: [slice start None s] is [s.slice(start)] and
    [slice start (Some stop) s] is [s.slice(start, stop)]. *)
Variable slice : nat -> option nat -> string -> string.

(** [handleAddUrl]; [selectionStart] is [inputRef.current?.selectionStart]. *)
Definition handleAddUrl (selectionStart : option nat) : M unit :=
  typed <- gets (fun w => url (screen w)) ;;
  if trim typed =? "" then ret tt
  else
    let formattedUrl := formatUrl (trim typed) in
    if negb (isValidUrl formattedUrl)
    then setError (str "Please enter a valid URL")
    else
      body <- gets (fun w => content (screen w)) ;;
      let cursorPosition :=
        match selectionStart with
        | Some (S n) => S n
        | _ => Utf16.length body
        end in
      let newContent :=
        (slice 0 (Some cursorPosition) body ++
         "[" ++ formattedUrl ++ "](" ++ formattedUrl ++ ")" ++
         slice cursorPosition None body)%string in
      setContent newContent ;;
      setUrl "" ;;
      setShowUrlInput false ;;
      setError null.

(** [isPostDisabled] *)
Definition isPostDisabled (s : Screen) : bool :=
  (trim (content s) =? "") || loading s.

(** What [getUser] settles to in [handlePost]: a rejection, or an
    answer with an error message or a user. *)
Inductive AuthResponse : Type :=
| AuthRejects (message : string)
| AuthAnswer (authError : option string) (user : option string).

(** Where [handlePost] stands: done, awaiting [uploadImage], or awaiting
    the insert. *)
Inductive Progression : Type :=
| Done
| AwaitingUpload (userId : string)
| AwaitingInsert.

(** [handlePost] up to its first [await]; the content and the image of
    this render are what the call will post. *)
Definition handlePost_press : M (option (string * value)) :=
  body <- gets (fun w => content (screen w)) ;;
  image <- gets (fun w => selectedImage (screen w)) ;;
  if trim body =? "" then ret None
  else
    setLoading true ;;
    setError null ;;
    ret (Some (body, image)).

(** [(err as any).message || 'Something went wrong.'] *)
Definition postCatch (e : exn) : M unit :=
  setError (str (match e with
                 | Rejected message | TypeError message =>
                     if message =? "" then "Something went wrong." else message
                 end)).

Definition postFinally : M unit := setLoading false.

Definition unlessSuspended (c : M Progression) (fin : M unit) : M Progression :=
  fun w =>
    match c w with
    | (Ok Done, w') => try_finally (fun w0 => (Ok Done, w0)) fin w'
    | (Ok p, w') => (Ok p, w')
    | (Throw e, w') => try_finally (fun w0 => (Throw e, w0)) fin w'
    end.

(** The insert of [handlePost]. *)
Definition insertPost (userId body : string) (imageUrl : value) : M Progression :=
  sendPost {| post_user_id := userId;
              post_content := trim body;
              image_url := or imageUrl null |} ;;
  ret AwaitingInsert.

(** [handlePost] from the answer of [getUser]: to the sign-in screen
    without a user, into [uploadImage] (which sets [loading]) with an
    image, else to the insert. *)
Definition handlePost_onUser (body : string) (image : value)
  (resp : AuthResponse) : M Progression :=
  unlessSuspended
    (try_catch
       (match resp with
        | AuthRejects message => throw (Rejected message)
        | AuthAnswer (Some message) _ => throw (Rejected message)
        | AuthAnswer None None =>
            navigate (Replace "/auth/sign-in") ;;
            ret Done
        | AuthAnswer None (Some uid) =>
            if truthy image
            then setLoading true ;; ret (AwaitingUpload uid)
            else insertPost uid body null
        end)
       (fun e => postCatch e ;; ret Done))
    postFinally.

(** [handlePost] from the return of [uploadImage]: the public URL after
    it has cleared [loading], or [null] after it has caught a failure of
    reading or uploading the file. *)
Definition handlePost_onUpload (body userId : string) (uploaded : option string)
  : M Progression :=
  unlessSuspended
    (try_catch
       (match uploaded with
        | Some publicUrl =>
            setLoading false ;;
            insertPost userId body (str publicUrl)
        | None => insertPost userId body null
        end)
       (fun e => postCatch e ;; ret Done))
    postFinally.

(** [handlePost] from the answer of the insert: an error message, a
    rejection, or success. *)
Definition handlePost_onInsert (postError : option string) : M unit :=
  try_finally
    (try_catch
       (match postError with
        | Some message => throw (Rejected message)
        | None => handleClose
        end)
       postCatch)
    postFinally.

End Post.

End CreatePostScreen.

(** * Properties *)

(** Unfolds the monad and the setters, leaving strings alone. *)
Ltac run_comp :=
  cbv beta iota zeta delta
    [Comp.bind Comp.ret Comp.throw Comp.gets Comp.modify Comp.try_catch
     Comp.try_finally Comp.when
     MessagesScreen.unlessSuspended MessagesScreen.on_screen
     MessagesScreen.setConversations MessagesScreen.setLoading
     MessagesScreen.setRefreshing MessagesScreen.setError
     MessagesScreen.setCurrentUserId MessagesScreen.setSearchQuery
     MessagesScreen.console_log MessagesScreen.console_warn
     MessagesScreen.console_error MessagesScreen.emit
     MessagesScreen.fetchFinally MessagesScreen.fetchCatch
     MessagesScreen.fetchCurrentUser
     MessagesScreen.fetchConversations_onUser
     MessagesScreen.fetchConversations_onQuery
     fst snd MessagesScreen.screen MessagesScreen.console
     MessagesScreen.conversations MessagesScreen.loading
     MessagesScreen.refreshing MessagesScreen.searchQuery
     MessagesScreen.currentUserId MessagesScreen.error].

(** ** JavaScript values *)

Section JsFacts.
Import Js.

Lemma strict_eq_spec a b : reflect (a = b) (strict_eq a b).
Proof.
  destruct a, b; simpl; try (constructor; congruence).
  destruct (String.eqb_spec s s0); constructor; congruence.
Qed.

Lemma strict_neq_true a b : strict_neq a b = true <-> a <> b.
Proof.
  unfold strict_neq. destruct (strict_eq_spec a b); simpl; split;
    congruence || tauto.
Qed.


End JsFacts.

(** ** The resolver of the conversation list *)

Section Resolver.
Import Js Comp MessagesScreen.

Lemma logged_logged w a b : logged (logged w a) b = logged w (a ++ b).
Proof. unfold logged; simpl. now rewrite app_assoc. Qed.

Lemma emit_run l msg w : emit l msg w = (Ok tt, logged w [(l, msg)]).
Proof. reflexivity. Qed.

Lemma logParticipants_run ps : forall index w,
  exists out, logParticipants index ps w = (Ok tt, logged w out).
Proof.
  induction ps as [|p ps IH]; intros index w; cbn [logParticipants].
  - exists []. unfold ret, logged. rewrite app_nil_r. now destruct w.
  - unfold bind, console_log. rewrite emit_run. cbv beta iota.
    match goal with |- context [logParticipants ?i ps ?w0] =>
      destruct (IH i w0) as [out ->] end.
    rewrite logged_logged. eauto.
Qed.

Lemma debugParticipants_run c w :
  exists out, debugParticipants c w = (Ok tt, logged w out).
Proof.
  unfold debugParticipants, bind, console_log, gets.
  repeat (rewrite emit_run; cbv beta iota).
  repeat rewrite logged_logged.
  destruct (participants c) as [[|p ps]|].
  - eexists; reflexivity.
  - match goal with |- context [logParticipants 0 ?l ?w0] =>
      destruct (logParticipants_run l 0 w0) as [out ->] end.
    rewrite logged_logged. eauto.
  - eexists; reflexivity.
Qed.

(** The resolver returns [selected] for the viewer of the current state
    and only writes to the console. *)
Lemma getOtherParticipant_run c w :
  exists out,
    getOtherParticipant c w =
    (Ok (selected (currentUserId (screen w)) c), logged w out).
Proof.
  unfold getOtherParticipant, selected, participantsOf.
  destruct (participants c) as [[|p ps]|] eqn:Hps.
  - eexists. unfold bind, console_warn. rewrite emit_run. reflexivity.
  - unfold bind at 1.
    destruct (debugParticipants_run c w) as [out ->]. cbv beta iota.
    destruct (validProfilesOf (p :: ps)) as [|first rest] eqn:Hvalid.
    + eexists. unfold bind, console_warn.
      rewrite emit_run, logged_logged. reflexivity.
    + unfold bind at 1. unfold gets. cbv beta iota. cbn [screen logged].
      destruct (filter _ (first :: rest)) as [|other others];
        eexists; unfold bind, console_log;
        rewrite emit_run, logged_logged; reflexivity.
  - eexists. unfold bind, console_warn. rewrite emit_run. reflexivity.
Qed.

Lemma getOtherParticipant_value c w :
  fst (getOtherParticipant c w) = Ok (selected (currentUserId (screen w)) c).
Proof. destruct (getOtherParticipant_run c w) as [out ->]. reflexivity. Qed.

Lemma getOtherParticipant_screen c w :
  screen (snd (getOtherParticipant c w)) = screen w.
Proof. destruct (getOtherParticipant_run c w) as [out ->]. reflexivity. Qed.

Lemma validProfilesOf_cons p ps :
  validProfilesOf (p :: ps) =
  match profiles p with
  | Some pr => if truthy (id pr) then pr :: validProfilesOf ps
               else validProfilesOf ps
  | None => validProfilesOf ps
  end.
Proof.
  unfold validProfilesOf. simpl. unfold hasValidProfile at 1.
  destruct (profiles p) as [pr|] eqn:Hp; [|reflexivity].
  destruct (truthy (id pr)); [|reflexivity].
  simpl. now rewrite Hp.
Qed.

Lemma validProfilesOf_app ps qs :
  validProfilesOf (ps ++ qs) = validProfilesOf ps ++ validProfilesOf qs.
Proof.
  induction ps as [|p ps IH]; [reflexivity|].
  rewrite <- app_comm_cons, !validProfilesOf_cons, IH.
  destruct (profiles p) as [pr|]; [|reflexivity].
  now destruct (truthy (id pr)).
Qed.

Lemma In_validProfilesOf pr ps :
  In pr (validProfilesOf ps) <->
  exists p, In p ps /\ profiles p = Some pr /\ truthy (id pr) = true.
Proof.
  induction ps as [|p ps IH].
  - simpl. split; [tauto | intros (p & [] & _)].
  - rewrite validProfilesOf_cons. split.
    + destruct (profiles p) as [q|] eqn:Hp.
      * destruct (truthy (id q)) eqn:Hq.
        -- intros [<- | H].
           ++ exists p. simpl. auto.
           ++ apply IH in H as (p' & ? & ? & ?). exists p'. simpl. auto.
        -- intros H. apply IH in H as (p' & ? & ? & ?). exists p'. simpl. auto.
      * intros H. apply IH in H as (p' & ? & ? & ?). exists p'. simpl. auto.
    + intros (p' & [<- | Hin] & Hp & Ht).
      * rewrite Hp, Ht. now left.
      * assert (In pr (validProfilesOf ps)) by (apply IH; eauto).
        destruct (profiles p) as [q|]; [|assumption].
        destruct (truthy (id q)); [now right | assumption].
Qed.

Lemma validProfilesOf_nil ps :
  validProfilesOf ps = [] <-> forall p, In p ps -> hasValidProfile p = false.
Proof.
  split.
  - intros Hnil p Hin. unfold hasValidProfile.
    destruct (profiles p) as [pr|] eqn:Hp; [|reflexivity].
    destruct (truthy (id pr)) eqn:Ht; [|reflexivity].
    assert (In pr (validProfilesOf ps)) as H by (apply In_validProfilesOf; eauto).
    rewrite Hnil in H. destruct H.
  - intros Hall. destruct (validProfilesOf ps) as [|pr rest] eqn:Hv; [reflexivity|].
    assert (In pr (validProfilesOf ps)) as H by (rewrite Hv; now left).
    apply In_validProfilesOf in H as (p & Hin & Hp & Ht).
    specialize (Hall p Hin). unfold hasValidProfile in Hall.
    rewrite Hp in Hall. congruence.
Qed.

(** The others among the profiles before the first non-viewer are none. *)
Lemma no_others_before me before :
  (forall q, In q before -> hasValidProfile q = true -> isViewer me q = true) ->
  filter (fun profile => strict_neq (id profile) me) (validProfilesOf before) = [].
Proof.
  intros Hbefore.
  induction before as [|q before IH]; [reflexivity|].
  rewrite validProfilesOf_cons.
  assert (IH' := IH (fun q' Hin => Hbefore q' (or_intror Hin))).
  specialize (Hbefore q (or_introl eq_refl)).
  unfold hasValidProfile, isViewer in Hbefore.
  destruct (profiles q) as [pr|]; [|assumption].
  destruct (truthy (id pr)); [|assumption].
  simpl. unfold strict_neq. rewrite (Hbefore eq_refl). assumption.
Qed.

Lemma selected_first_other me c before p after pr :
  participants c = Some (before ++ p :: after) ->
  profiles p = Some pr ->
  truthy (id pr) = true ->
  id pr <> me ->
  (forall q, In q before -> hasValidProfile q = true -> isViewer me q = true) ->
  selected me c = Some pr.
Proof.
  intros Hps Hp Ht Hne Hbefore.
  unfold selected, participantsOf. rewrite Hps.
  rewrite validProfilesOf_app, validProfilesOf_cons, Hp, Ht.
  rewrite filter_app, (no_others_before me before Hbefore). simpl.
  apply strict_neq_true in Hne. now rewrite Hne.
Qed.

(** C1. Whenever some participant with a profile and an identifier is
    not the viewer, [getOtherParticipant] returns the first such profile
    in input order: every participant before it is either discarded by
    the validity filter or is the viewer. A list with exactly one such
    profile is the case where none follows it. *)
Theorem getOtherParticipant_first_other :
  forall (w : World) (c : Conversation) (before after : list Participant)
         (p : Participant) (pr : Profile),
    participants c = Some (before ++ p :: after) ->
    profiles p = Some pr ->
    truthy (id pr) = true ->
    id pr <> currentUserId (screen w) ->
    (forall q, In q before -> hasValidProfile q = true ->
               isViewer (currentUserId (screen w)) q = true) ->
    fst (getOtherParticipant c w) = Ok (Some pr).
Proof.
  intros w c before after p pr Hps Hp Ht Hne Hbefore.
  rewrite getOtherParticipant_value.
  f_equal. eapply selected_first_other; eassumption.
Qed.

Lemma selected_none_iff me c :
  selected me c = None <-> validProfilesOf (participantsOf c) = [].
Proof.
  unfold selected.
  destruct (validProfilesOf (participantsOf c)) as [|first rest]; simpl.
  - tauto.
  - destruct (strict_neq (id first) me); [split; discriminate|].
    destruct (filter _ rest); split; discriminate.
Qed.

Lemma hasValidParticipant_false_iff c :
  hasValidParticipant c = false <-> validProfilesOf (participantsOf c) = [].
Proof.
  rewrite validProfilesOf_nil.
  unfold hasValidParticipant, participantsOf.
  destruct (participants c) as [ps|]; [|split; [intros _ p [] | reflexivity]].
  destruct ps as [|p ps]; [split; [intros _ q [] | reflexivity]|].
  cbn [length Nat.ltb Nat.leb andb].
  split.
  - intros Hex q Hin.
    destruct (hasValidProfile q) eqn:Hq; [|reflexivity].
    assert (existsb hasValidProfile (p :: ps) = true) as Habs
      by (apply existsb_exists; eauto).
    congruence.
  - intros Hall.
    destruct (existsb hasValidProfile (p :: ps)) eqn:Hex; [|reflexivity].
    apply existsb_exists in Hex as (q & Hin & Hq).
    rewrite (Hall q Hin) in Hq. discriminate.
Qed.

Lemma renderItem_unresolved fmt c w :
  selected (currentUserId (screen w)) c = None ->
  fst (renderItem fmt c w) = Ok None.
Proof.
  intros Hnone. unfold renderItem.
  unfold bind at 1. unfold console_log. rewrite emit_run. cbv beta iota.
  unfold bind at 1.
  match goal with |- context [getOtherParticipant c ?w0] =>
    destruct (getOtherParticipant_run c w0) as [out ->] end.
  cbn [screen logged]. rewrite Hnone. reflexivity.
Qed.

Lemma stored_after_answer data w :
  conversations (screen (snd (fetchConversations_onQuery
                                (QueryAnswer (Some data) None) w))) =
  filter hasValidParticipant data.
Proof.
  destruct data as [|conv data]; [reflexivity|].
  run_comp.
  match goal with |- context [andb ?a ?b] => destruct (andb a b) end;
    reflexivity.
Qed.

(** C2. [getOtherParticipant] keeps the participants that have a profile
    with an identifier and returns [null] exactly when none is kept. For
    such a conversation [renderItem] renders nothing, the filter of
    [fetchConversations] rejects it, and what a successful fetch stores
    is the answer with the rejected conversations removed. *)
Theorem getOtherParticipant_null_iff_no_valid_profile :
  forall (formatRelativeTime : string -> string) (w : World) (c : Conversation),
    (fst (getOtherParticipant c w) = Ok None <->
     validProfilesOf (participantsOf c) = []) /\
    (validProfilesOf (participantsOf c) = [] ->
     fst (renderItem formatRelativeTime c w) = Ok None) /\
    (validProfilesOf (participantsOf c) = [] <->
     hasValidParticipant c = false) /\
    (forall data,
       conversations (screen (snd (fetchConversations_onQuery
                                     (QueryAnswer (Some data) None) w))) =
       filter hasValidParticipant data).
Proof.
  intros fmt w c. split; [|split; [|split]].
  - rewrite getOtherParticipant_value. split; intros H.
    + apply selected_none_iff with (me := currentUserId (screen w)). congruence.
    + f_equal. now apply selected_none_iff.
  - intros H. apply renderItem_unresolved. now apply selected_none_iff.
  - symmetry. apply hasValidParticipant_false_iff.
  - intros data. apply stored_after_answer.
Qed.

(** A conversation whose only participant has no profile is unresolved
    and not rendered. *)
Lemma getOtherParticipant_null_iff_no_valid_profile_witness :
  fst (renderItem (fun s => s)
         {| conv_id := "c0"; last_message := null; last_message_at := null;
            updated_at := null;
            participants := Some [ {| profiles := None |} ] |}
         initialWorld) = Ok None.
Proof.
  apply (getOtherParticipant_null_iff_no_valid_profile (fun s => s) initialWorld
           {| conv_id := "c0"; last_message := null; last_message_at := null;
              updated_at := null;
              participants := Some [ {| profiles := None |} ] |}).
  reflexivity.
Defined.




(** C9. [getOtherParticipant] depends on the conversation and the
    viewer's identifier only and leaves the screen state as it was: two
    invocations in a row return the same profile, and so do invocations
    in any two states with the same viewer. Its only effect is console
    output. *)
Theorem getOtherParticipant_deterministic :
  forall (c : Conversation) (w : World),
    (exists r,
       fst (bind (getOtherParticipant c)
              (fun a => bind (getOtherParticipant c)
                          (fun b => ret (a, b))) w) = Ok (r, r)) /\
    screen (snd (bind (getOtherParticipant c)
                   (fun a => bind (getOtherParticipant c)
                               (fun b => ret (a, b))) w)) = screen w /\
    (forall w', currentUserId (screen w') = currentUserId (screen w) ->
                fst (getOtherParticipant c w') = fst (getOtherParticipant c w)).
Proof.
  intros c w.
  assert (exists out,
            bind (getOtherParticipant c)
              (fun a => bind (getOtherParticipant c) (fun b => ret (a, b))) w =
            (Ok (selected (currentUserId (screen w)) c,
                 selected (currentUserId (screen w)) c), logged w out))
    as [out Hrun].
  { unfold bind at 1.
    destruct (getOtherParticipant_run c w) as [out1 ->]. cbv beta iota.
    unfold bind.
    destruct (getOtherParticipant_run c (logged w out1)) as [out2 ->].
    rewrite logged_logged. cbn [screen logged]. eexists. reflexivity. }
  rewrite Hrun. repeat split.
  - eexists. reflexivity.
  - intros w' Hsame. rewrite !getOtherParticipant_value. now rewrite Hsame.
Qed.

(** The same conversation resolved on a fresh screen and on one that has
    loaded a list. *)
Lemma getOtherParticipant_deterministic_witness :
  fst (getOtherParticipant sampleConversation
         {| screen := {| conversations := [sampleConversation];
                         loading := false; refreshing := false;
                         searchQuery := "bob"; currentUserId := null;
                         error := null |};
            console := [] |}) =
  fst (getOtherParticipant sampleConversation initialWorld).
Proof.
  apply (getOtherParticipant_deterministic sampleConversation initialWorld).
  reflexivity.
Defined.

(** The viewer "u1" sees Bob as the other party. *)
Lemma getOtherParticipant_first_other_witness :
  fst (getOtherParticipant sampleConversation (signedInAs "u1")) =
  Ok (Some {| id := str "u2"; username := str "bob";
              display_name := str "Bob"; avatar_url := str "b.png" |}).
Proof.
  apply (getOtherParticipant_first_other (signedInAs "u1") sampleConversation
           [ {| profiles := Some {| id := str "u1"; username := str "ann";
                                    display_name := str "Ann";
                                    avatar_url := null |} |} ]
           []
           {| profiles := Some {| id := str "u2"; username := str "bob";
                                  display_name := str "Bob";
                                  avatar_url := str "b.png" |} |}).
  - reflexivity.
  - reflexivity.
  - reflexivity.
  - discriminate.
  - intros q [<- | []] _. reflexivity.
Defined.


End Resolver.

(** ** Rendering a conversation *)

Section Avatar.
Import Js Comp MessagesScreen.

(** What [renderItem] returns once the resolver has found a profile. *)
Lemma renderItem_resolved fmt c w ps other :
  participants c = Some ps ->
  selected (currentUserId (screen w)) c = Some other ->
  exists row,
    fst (renderItem fmt c w) = Ok (Some row) /\
    avatar_uri row =
    or_default (avatarUrlOf (currentUserId (screen w)) ps other) placeholderAvatar.
Proof.
  intros Hps Hsel. unfold renderItem.
  unfold bind at 1. unfold console_log. rewrite emit_run. cbv beta iota.
  unfold bind at 1.
  match goal with |- context [getOtherParticipant c ?w0] =>
    destruct (getOtherParticipant_run c w0) as [out ->] end.
  cbn [screen logged]. rewrite Hsel, Hps. cbv beta iota.
  eexists. split; reflexivity.
Qed.

Lemma renderItem_row fmt c w row :
  fst (renderItem fmt c w) = Ok (Some row) ->
  exists ps other,
    participants c = Some ps /\
    selected (currentUserId (screen w)) c = Some other /\
    avatar_uri row =
    or_default (avatarUrlOf (currentUserId (screen w)) ps other) placeholderAvatar.
Proof.
  intros Hrow.
  destruct (selected (currentUserId (screen w)) c) as [other|] eqn:Hsel.
  - destruct (participants c) as [ps|] eqn:Hps.
    + destruct (renderItem_resolved fmt c w ps other Hps Hsel) as (row' & H1 & H2).
      rewrite H1 in Hrow. injection Hrow as <-. eauto.
    + unfold selected, participantsOf in Hsel. rewrite Hps in Hsel. discriminate.
  - rewrite (renderItem_unresolved fmt c w Hsel) in Hrow. discriminate.
Qed.

(** C5, as amended. On every rendered conversation the avatar shown is
    that of the first participant in input order that has a profile whose
    identifier differs from the viewer's, provided this avatar is not
    empty; when there is no such participant, or its avatar is null or
    empty, it is the avatar of the profile the resolver selected. An empty
    result is replaced by the placeholder image. *)
Theorem renderItem_avatar :
  forall (formatRelativeTime : string -> string) (w : World)
         (c : Conversation) (row : Row),
    fst (renderItem formatRelativeTime c w) = Ok (Some row) ->
    exists ps other,
      participants c = Some ps /\
      fst (getOtherParticipant c w) = Ok (Some other) /\
      avatar_uri row =
      or_default
        (match find (isNotViewer (currentUserId (screen w))) ps with
         | Some p =>
             if truthy (avatarOfFound (Some p)) then avatarOfFound (Some p)
             else avatar_url other
         | None => avatar_url other
         end)
        placeholderAvatar.
Proof.
  intros fmt w c row Hrow.
  destruct (renderItem_row fmt c w row Hrow) as (ps & other & Hps & Hsel & Hav).
  exists ps, other. split; [assumption|]. split.
  - rewrite getOtherParticipant_value. now f_equal.
  - rewrite Hav. unfold avatarUrlOf, or.
    destruct (find _ ps) as [p|]; reflexivity.
Qed.

(** Bob's avatar is shown for the sample conversation. *)
Lemma renderItem_avatar_witness :
  exists ps other,
    participants sampleConversation = Some ps /\
    fst (getOtherParticipant sampleConversation (signedInAs "u1")) =
    Ok (Some other) /\
    "b.png" =
    or_default
      (match find (isNotViewer (str "u1")) ps with
       | Some p =>
           if truthy (avatarOfFound (Some p)) then avatarOfFound (Some p)
           else avatar_url other
       | None => avatar_url other
       end)
      placeholderAvatar.
Proof.
  apply (renderItem_avatar (fun s => s) (signedInAs "u1") sampleConversation
           {| onPress := "/messages/c1"; avatar_uri := "b.png"; title := "Bob";
              timestamp := "2025-02-17T06:05:59Z"; subtitle := "hi" |}).
  reflexivity.
Defined.

(** C5, as stated, fails: the first participant whose identifier differs
    from the viewer's has an empty identifier and no avatar, so the rule
    as described shows the placeholder, while the row shows the avatar
    of the resolved profile. *)
Lemma renderItem_avatar_not_as_described :
  ~ rendersAvatarAsDescribed (fun s => s) (signedInAs "u1") blankFirst.
Proof.
  intros Hclaim.
  specialize (Hclaim
    {| onPress := "/messages/c2"; avatar_uri := "b.png"; title := "Bob";
       timestamp := "Unknown time"; subtitle := "No messages yet" |}
    [ {| profiles := Some {| id := str ""; username := null;
                             display_name := null; avatar_url := null |} |};
      {| profiles := Some {| id := str "u2"; username := str "bob";
                             display_name := str "Bob";
                             avatar_url := str "b.png" |} |} ]
    {| id := str "u2"; username := str "bob";
       display_name := str "Bob"; avatar_url := str "b.png" |}
    eq_refl eq_refl eq_refl).
  discriminate Hclaim.
Qed.

(** When every profile carries an identifier, the participant found for
    the avatar is the one the resolver selected, and the rule is as
    described. *)
Lemma avatar_as_described_with_identifiers me c ps other :
  participants c = Some ps ->
  (forall p pr, In p ps -> profiles p = Some pr -> truthy (id pr) = true) ->
  selected me c = Some other ->
  avatarUrlOf me ps other = avatarAsDescribed me ps other.
Proof.
  intros Hps Hids Hsel.
  unfold avatarUrlOf, avatarAsDescribed.
  destruct (find (isNotViewer me) ps) as [p|] eqn:Hfind;
    [|reflexivity].
  unfold selected, participantsOf in Hsel. rewrite Hps in Hsel. clear Hps.
  assert (profiles p = Some other) as Hp.
  { revert Hsel Hfind.
    induction ps as [|q ps IH]; [discriminate|].
    intros Hsel Hfind. rewrite validProfilesOf_cons in Hsel.
    cbn [find] in Hfind. unfold isNotViewer at 1 in Hfind.
    destruct (profiles q) as [pq|] eqn:Hq.
    - rewrite (Hids q pq (or_introl eq_refl) Hq) in Hsel.
      cbn [filter] in Hsel.
      destruct (strict_neq (id pq) me) eqn:Hne.
      + injection Hfind as <-. injection Hsel as <-. assumption.
      + destruct (filter _ (validProfilesOf ps)) as [|o os] eqn:Hf.
        * exfalso. clear IH Hsel.
          apply find_some in Hfind as [Hin Hnv].
          unfold isNotViewer in Hnv.
          destruct (profiles p) as [pp|] eqn:Hpp; [|discriminate].
          assert (In pp (filter (fun profile => strict_neq (id profile) me)
                                (validProfilesOf ps))) as Habs.
          { apply filter_In. split; [|assumption].
            apply In_validProfilesOf. exists p. repeat split; try assumption.
            apply (Hids p pp); [now right | assumption]. }
          rewrite Hf in Habs. destruct Habs.
        * apply IH; try assumption.
          -- intros p' pr' Hin. apply Hids. now right.
    - apply IH; try assumption.
      intros p' pr' Hin. apply Hids. now right. }
  cbn [avatarOfFound]. rewrite Hp.
  unfold or. destruct (truthy (avatar_url other)); reflexivity.
Qed.

(** Read the other way, with an empty identifier counting as none, the
    rule does not hold either: a participant without an identifier but
    with an avatar lends its avatar to the row of the resolved profile. *)
Lemma renderItem_avatar_of_unidentified :
  exists row,
    fst (renderItem (fun s => s)
           {| conv_id := "c4"; last_message := null; last_message_at := null;
              updated_at := null;
              participants :=
                Some [ {| profiles := Some {| id := str ""; username := null;
                                               display_name := null;
                                               avatar_url := str "x.png" |} |};
                       {| profiles := Some {| id := str "u2"; username := str "bob";
                                               display_name := str "Bob";
                                               avatar_url := str "b.png" |} |} ] |}
           (signedInAs "u1")) = Ok (Some row) /\
    title row = "Bob" /\ avatar_uri row = "x.png".
Proof. eexists. repeat split. Qed.

End Avatar.

(** ** The header of the conversation screen *)

Section Header.
Import Js Comp MessagesScreen.

Lemma findOther_skips me s before rest :
  (forall q, In q before -> isViewer me q = true) ->
  DirectMessageScreen.findOther me (map profiles (before ++ rest)) s =
  DirectMessageScreen.findOther me (map profiles rest) s.
Proof.
  induction before as [|q before IH]; intros Hbefore; [reflexivity|].
  cbn [app map DirectMessageScreen.findOther].
  assert (Hq := Hbefore q (or_introl eq_refl)). unfold isViewer in Hq.
  destruct (profiles q) as [pq|]; [|discriminate].
  unfold strict_neq. rewrite Hq. cbn [negb].
  apply IH. intros q' Hin. apply Hbefore. now right.
Qed.



(** A participant without a profile, met before any other party, makes
    the header resolver throw. *)
Lemma header_getOtherParticipant_missing_profile s after :
  DirectMessageScreen.participants s = {| profiles := None |} :: after ->
  exists e, fst (DirectMessageScreen.getOtherParticipant s) = Throw e.
Proof.
  intros Hps. unfold DirectMessageScreen.getOtherParticipant, bind, gets.
  rewrite Hps. eexists. reflexivity.
Qed.

End Header.


(** ** Live sync *)

Section LiveSync.
Import Js Comp MessagesScreen.

Lemma mount_active w : active (mount w).
Proof. split; reflexivity. Qed.

Lemma onChange_mounted ch m :
  mounted m = true ->
  fetches (onChange ch m) = S (fetches m) /\
  tasks (onChange ch m) = tasks m ++ [AwaitUser false] /\
  screen (world (onChange ch m)) = screen (world m) /\
  mounted (onChange ch m) = true /\
  subscribed (onChange ch m) = subscribed m.
Proof.
  intros Hm. unfold onChange. cbn [exec mounted]. rewrite Hm.
  destruct ch; repeat split; assumption.
Qed.

Lemma onChange_unmounted ch m :
  mounted m = false ->
  fetches (onChange ch m) = fetches m /\
  tasks (onChange ch m) = tasks m /\
  screen (world (onChange ch m)) = screen (world m).
Proof.
  intros Hm. unfold onChange. cbn [exec mounted]. rewrite Hm.
  destruct ch; repeat split.
Qed.

Lemma step_change_active ch m :
  active m -> step m (ChangeEvent ch) = onChange ch m.
Proof.
  intros [_ Hsub]. cbn [step]. rewrite Hsub. now destruct ch.
Qed.

(** After the cleanup a change event starts no fetch: none is delivered
    on a released channel, and the callback itself checks [mounted]. *)
Lemma no_refetch_after_release m ch :
  step (unmount m) (ChangeEvent ch) = unmount m /\
  fetches (onChange ch (unmount m)) = fetches m /\
  tasks (onChange ch (unmount m)) = tasks (unmount m) /\
  screen (world (onChange ch (unmount m))) = screen (world m).
Proof.
  split; [reflexivity|].
  destruct (onChange_unmounted ch (unmount m) eq_refl) as (Hf & Ht & Hs).
  now rewrite Hf, Ht, Hs.
Qed.

(** The [finally] block of [initialize] does check [mounted]. *)
Lemma initializeFinally_guarded m :
  mounted m = false -> initializeFinally m = m.
Proof. unfold initializeFinally. now intros ->. Qed.

Lemma initializeCatch_frame m :
  mounted (initializeCatch m) = mounted m /\
  subscribed (initializeCatch m) = subscribed m.
Proof.
  destruct m as [w [|] subs ts n]; split; reflexivity.
Qed.

Lemma initializeFinally_frame m :
  mounted (initializeFinally m) = mounted m /\
  subscribed (initializeFinally m) = subscribed m.
Proof.
  destruct m as [w [|] subs ts n]; split; reflexivity.
Qed.

Lemma onChange_frame ch m :
  mounted (onChange ch m) = mounted m /\
  subscribed (onChange ch m) = subscribed m.
Proof.
  destruct m as [w [|] subs ts n], ch; split; reflexivity.
Qed.

Lemma deliver_frame c chs : forall m,
  mounted (fold_left (fun m ch => if selects (filterOf ch) c
                                  then onChange ch m else m) chs m) = mounted m /\
  subscribed (fold_left (fun m ch => if selects (filterOf ch) c
                                     then onChange ch m else m) chs m) =
    subscribed m.
Proof.
  induction chs as [|ch chs IH]; intros m; cbn [fold_left]; [now split|].
  destruct (IH (if selects (filterOf ch) c then onChange ch m else m)) as [-> ->].
  destruct (selects (filterOf ch) c); [apply onChange_frame | now split].
Qed.

Lemma resumeUserDetached_frame i init resp m :
  mounted (resumeUserDetached i init resp m) = mounted m /\
  subscribed (resumeUserDetached i init resp m) = subscribed m.
Proof.
  unfold resumeUserDetached, discarding. cbn [mounted subscribed].
  destruct (fetchConversations_onUser resp (world m)) as [[[|u]|ex] w'];
    try now split.
  destruct init; [|now split].
  apply (initializeCatch_frame
           (withTasks _ (exec (fetchConversations_onUser resp) m))).
Qed.

Lemma resumeQueryDetached_frame i init resp m :
  mounted (resumeQueryDetached i init resp m) = mounted m /\
  subscribed (resumeQueryDetached i init resp m) = subscribed m.
Proof.
  unfold resumeQueryDetached, discarding. cbn [mounted subscribed].
  destruct (fetchConversations_onQuery resp (world m)) as [[[]|ex] w'];
    try now split.
  destruct init; [|now split].
  apply (initializeCatch_frame
           (withTasks _ (exec (fetchConversations_onQuery resp) m))).
Qed.

Lemma resumeDebugDetached_frame i m :
  mounted (resumeDebugDetached i m) = mounted m /\
  subscribed (resumeDebugDetached i m) = subscribed m.
Proof.
  unfold resumeDebugDetached, discarding. cbn [mounted subscribed].
  apply (initializeFinally_frame (withTasks _ m)).
Qed.

(** Only the cleanup changes [mounted] and the subscriptions. *)
Lemma step_frame m e :
  e <> Deactivate ->
  mounted (step m e) = mounted m /\ subscribed (step m e) = subscribed m.
Proof.
  intros He.
  destruct e as [ch|i resp|i resp|i| | | |query|c]; cbn [step];
    try congruence.
  - destruct (existsb _ _); [|now split].
    apply onChange_frame.
  - destruct (nth_error (tasks m) i) as [[init|init u| |[init|init u| |t]]|];
      try now split.
    + destruct (fetchConversations_onUser resp (world m)) as [[[|u]|ex] w'];
        try now split.
      destruct init; [|now split].
      apply (initializeCatch_frame
               (withTasks _ (exec (fetchConversations_onUser resp) m))).
    + apply resumeUserDetached_frame.
  - destruct (nth_error (tasks m) i) as [[init|init u| |[init|init u| |t]]|];
      try now split.
    + destruct (fetchConversations_onQuery resp (world m)) as [[[]|ex] w'];
        try now split.
      destruct init; [|now split].
      apply (initializeCatch_frame
               (withTasks _ (exec (fetchConversations_onQuery resp) m))).
    + apply resumeQueryDetached_frame.
  - destruct (nth_error (tasks m) i) as [[init|init u| |[init|init u| |t]]|];
      try now split.
    + apply (initializeFinally_frame (withTasks _ m)).
    + apply resumeDebugDetached_frame.
  - destruct (_ && _)%bool; now split.
  - destruct (_ && _)%bool; now split.
  - destruct (negb _); now split.
  - apply deliver_frame.
Qed.

(** The screen stays active until the cleanup runs. *)
Lemma step_keeps_active m e :
  e <> Deactivate -> active m -> active (step m e).
Proof.
  intros He [Hm Hs]. destruct (step_frame m e He) as [Hm' Hs'].
  split; congruence.
Qed.

(** *** Failed fetches *)

Lemma filterBySearch_run lower query convs : forall w,
  exists kept out, filterBySearch lower query convs w = (Ok kept, logged w out).
Proof.
  induction convs as [|conv convs IH]; intros w; cbn [filterBySearch].
  - exists [], []. unfold ret, logged. rewrite app_nil_r. now destruct w.
  - unfold bind at 1.
    destruct (getOtherParticipant_run conv w) as [out1 ->]. cbv beta iota.
    unfold bind at 1.
    destruct (IH (logged w out1)) as (kept & out2 & ->).
    rewrite logged_logged. eexists. eexists. reflexivity.
Qed.

Lemma filteredConversations_run lower w :
  exists data out, filteredConversations lower w = (Ok data, logged w out).
Proof.
  unfold filteredConversations, bind, gets.
  destruct (searchQuery (screen w) =? "").
  - exists (conversations (screen w)), [].
    unfold ret, logged. rewrite app_nil_r. now destruct w.
  - apply filterBySearch_run.
Qed.

(** With an error message and no fetch running, the screen shows the
    message (and with it the retry button) instead of the list. *)
Lemma render_error fmt lower w message :
  loading (screen w) = false ->
  error (screen w) = str message ->
  message <> "" ->
  fst (render fmt lower w) = Ok (ErrorView message).
Proof.
  intros Hloading Herror Hmessage. unfold render.
  unfold bind at 1.
  destruct (filteredConversations_run lower w) as (data & out & ->).
  unfold bind, gets. cbn [screen logged]. rewrite Hloading, Herror.
  apply String.eqb_neq in Hmessage. now rewrite Hmessage.
Qed.

Lemma fetchConversations_onUser_safe resp w :
  (exists p, fst (fetchConversations_onUser resp w) = Ok p) /\
  conversations (screen (snd (fetchConversations_onUser resp w))) =
  conversations (screen w).
Proof.
  destruct resp as [|[|] [uid|]]; try (split; [eexists|]; reflexivity).
  run_comp. destruct (uid =? ""); split; try eexists; reflexivity.
Qed.

Lemma fetchConversations_onQuery_safe resp w :
  fst (fetchConversations_onQuery resp w) = Ok tt.
Proof.
  destruct resp as [|data [message|]]; try reflexivity.
  destruct data as [[|conv data]|]; try reflexivity.
  run_comp.
  match goal with |- context [andb ?a ?b] => destruct (andb a b) end;
    reflexivity.
Qed.

Lemma fetchConversations_onQuery_failure resp w :
  isFailure resp = true ->
  conversations (screen (snd (fetchConversations_onQuery resp w))) =
    conversations (screen w) /\
  loading (screen (snd (fetchConversations_onQuery resp w))) = false /\
  refreshing (screen (snd (fetchConversations_onQuery resp w))) = false /\
  error (screen (snd (fetchConversations_onQuery resp w))) =
    match resp with
    | QueryAnswer _ (Some message) =>
        str ("Failed to load conversations: " ++ message)
    | _ => str "Failed to load conversations. Please try again."
    end.
Proof.
  destruct resp as [|data [message|]]; try discriminate;
    intros _; repeat split.
Qed.

(** C8. A failed conversations fetch, by an error answer or a rejected
    request, leaves [fetchConversations] normally: the stored list is as
    before, the error state holds a message, and the loading flags are
    cleared, so that the message is shown with the retry button. No new
    fetch is started by the failure; pressing retry clears the message
    and starts one. *)
Theorem failed_fetch_is_reported :
  forall (w : World),
    (forall resp, exists p, fst (fetchConversations_onUser resp w) = Ok p) /\
    (forall resp, fst (fetchConversations_onQuery resp w) = Ok tt) /\
    (forall resp,
       isFailure resp = true ->
       conversations (screen (snd (fetchConversations_onQuery resp w))) =
         conversations (screen w) /\
       error (screen (snd (fetchConversations_onQuery resp w))) =
         match resp with
         | QueryAnswer _ (Some message) =>
             str ("Failed to load conversations: " ++ message)
         | _ => str "Failed to load conversations. Please try again."
         end /\
       (forall fmt lower,
          exists message,
            fst (render fmt lower (snd (fetchConversations_onQuery resp w))) =
            Ok (ErrorView message))) /\
    (forall m i init userId resp,
       world m = w ->
       nth_error (tasks m) i = Some (AwaitQuery init userId) ->
       isFailure resp = true ->
       fetches (step m (QueryAnswered i resp)) = fetches m /\
       tasks (step m (QueryAnswered i resp)) =
         replaceTask i (afterFetch init) (tasks m)) /\
    (forall m,
       world m = w ->
       loading (screen w) = false ->
       truthy (error (screen w)) = true ->
       fetches (step m PressRetry) = S (fetches m) /\
       tasks (step m PressRetry) = tasks m ++ [AwaitUser false] /\
       error (screen (world (step m PressRetry))) = null /\
       loading (screen (world (step m PressRetry))) = true /\
       conversations (screen (world (step m PressRetry))) =
         conversations (screen w)).
Proof.
  intros w. split; [|split; [|split; [|split]]].
  - intros resp. apply fetchConversations_onUser_safe.
  - intros resp. apply fetchConversations_onQuery_safe.
  - intros resp Hfailed.
    destruct (fetchConversations_onQuery_failure resp w Hfailed)
      as (Hconv & Hloading & _ & Herror).
    split; [assumption|]. split; [assumption|].
    intros fmt lower.
    destruct resp as [|data [message|]]; try discriminate;
      eexists; (eapply render_error; [exact Hloading | exact Herror | discriminate]).
  - intros m i init userId resp <- Htask Hfailed.
    cbn [step]. rewrite Htask.
    rewrite (surjective_pairing (fetchConversations_onQuery resp (world m))).
    rewrite fetchConversations_onQuery_safe.
    split; reflexivity.
  - intros m <- Hloading Herror.
    cbn [step]. rewrite Hloading, Herror. cbn [negb andb].
    repeat split.
Qed.

(** An error answer on the sample screen: the list is kept and the
    message names the error. *)
Lemma failed_fetch_is_reported_witness :
  error (screen (snd (fetchConversations_onQuery
                        (QueryAnswer None (Some "timeout"))
                        (signedInAs "u1")))) =
  str "Failed to load conversations: timeout".
Proof.
  apply (failed_fetch_is_reported (signedInAs "u1")).
  reflexivity.
Defined.

End LiveSync.

(** ** Starting a conversation *)

Section StartConversation.
Import Js Comp NewMessageScreen.

Lemma isRow_true c u r :
  isRow c u r = true <-> r = {| conversation_id := c; user_id := u |}.
Proof.
  unfold isRow. destruct r as [c' u']. cbn [conversation_id user_id].
  rewrite andb_true_iff, !String.eqb_eq. split.
  - intros [-> ->]. reflexivity.
  - intros H. injection H as -> ->. auto.
Qed.

Lemma filter_isRow_absent c u rows :
  ~ In {| conversation_id := c; user_id := u |} rows ->
  filter (isRow c u) rows = [].
Proof.
  intros Hnot. induction rows as [|r rows IH]; [reflexivity|].
  cbn [filter]. destruct (isRow c u r) eqn:Hr.
  - apply isRow_true in Hr. subst r. exfalso. apply Hnot. now left.
  - apply IH. intros Hin. apply Hnot. now right.
Qed.

Lemma filter_isRow_present c u rows :
  NoDup rows ->
  In {| conversation_id := c; user_id := u |} rows ->
  filter (isRow c u) rows = [ {| conversation_id := c; user_id := u |} ].
Proof.
  induction 1 as [|r rows Hnotin Hnodup IH]; intros Hin; [destruct Hin|].
  cbn [filter]. destruct (isRow c u r) eqn:Hr.
  - apply isRow_true in Hr. subst r.
    now rewrite (filter_isRow_absent c u rows Hnotin).
  - destruct Hin as [-> | Hin].
    + assert (isRow c u {| conversation_id := c; user_id := u |} = true)
        by now apply isRow_true.
      congruence.
    + now apply IH.
Qed.

Lemma hasOther_true d other r :
  hasOther d other r = true <->
  In {| conversation_id := conversation_id r; user_id := other |}
     (conversation_participants d).
Proof.
  unfold hasOther. rewrite existsb_exists. split.
  - intros (x & Hin & Hx). apply isRow_true in Hx. now subst x.
  - intros Hin. eexists. split; [eassumption|]. now apply isRow_true.
Qed.

Lemma selectSingle_run g w c other :
  lookupFails g c = false ->
  NoDup (conversation_participants (db w)) ->
  exists e,
    selectSingle g c other w =
    (Ok (if existsb (isRow c other) (conversation_participants (db w))
         then (Some {| conversation_id := c; user_id := other |}, None)
         else (None, Some e)), w).
Proof.
  intros Hlookup Hnodup. unfold selectSingle, bind, gets. rewrite Hlookup.
  destruct (existsb (isRow c other) (conversation_participants (db w))) eqn:Hex.
  - apply existsb_exists in Hex as (x & Hin & Hx).
    apply isRow_true in Hx. subst x.
    rewrite (filter_isRow_present c other _ Hnodup Hin).
    eexists (Rejected ""). reflexivity.
  - rewrite filter_isRow_absent; [eexists; reflexivity|].
    intros Hin.
    assert (existsb (isRow c other) (conversation_participants (db w)) = true)
      by (apply existsb_exists; eexists; split; [eassumption | now apply isRow_true]).
    congruence.
Qed.

(** The loop returns the conversation of the first of the viewer's rows
    whose conversation has the other user, or [null]. *)
Lemma findExisting_run g w other :
  (forall c, lookupFails g c = false) ->
  NoDup (conversation_participants (db w)) ->
  forall existing,
    findExisting g other existing w =
    (Ok (match find (hasOther (db w) other) existing with
         | Some r => str (conversation_id r)
         | None => null
         end), w).
Proof.
  intros Hlookup Hnodup existing.
  induction existing as [|r existing IH]; [reflexivity|].
  cbn [findExisting find]. unfold bind at 1.
  destruct (selectSingle_run g w (conversation_id r) other (Hlookup _) Hnodup)
    as [e ->].
  unfold hasOther at 1.
  destruct (existsb _ (conversation_participants (db w))); [reflexivity|].
  cbn [fst]. apply IH.
Qed.

Lemma find_hasOther_shared d viewer other r :
  find (hasOther d other)
       (filter (fun r => user_id r =? viewer) (conversation_participants d)) =
  Some r ->
  sharedBy d viewer other (conversation_id r).
Proof.
  intros Hfind. apply find_some in Hfind as [Hin Hother].
  apply filter_In in Hin as [Hin Huser].
  apply String.eqb_eq in Huser. split.
  - destruct r as [c u]. cbn in *. now subst u.
  - now apply hasOther_true.
Qed.

Lemma find_hasOther_unshared d viewer other :
  find (hasOther d other)
       (filter (fun r => user_id r =? viewer) (conversation_participants d)) =
  None ->
  ~ exists c, sharedBy d viewer other c.
Proof.
  intros Hfind (c & Hviewer & Hother).
  assert (hasOther d other {| conversation_id := c; user_id := viewer |} = false)
    as Habs.
  { apply (find_none _ _ Hfind). apply filter_In. split; [assumption|].
    cbn. apply String.eqb_refl. }
  assert (hasOther d other {| conversation_id := c; user_id := viewer |} = true)
    by now apply hasOther_true.
  congruence.
Qed.

Lemma withConversation_changes d c viewer other :
  withConversation d c viewer other <> d.
Proof.
  intros H. apply (f_equal (fun x => length (conversations x))) in H.
  cbn in H. rewrite length_app in H. cbn in H. lia.
Qed.

Lemma lookForExisting_run g w other existing :
  (forall c, lookupFails g c = false) ->
  NoDup (conversation_participants (db w)) ->
  lookForExisting g other (Some existing) w =
  (Ok (match find (hasOther (db w) other) existing with
       | Some r => str (conversation_id r)
       | None => null
       end), w).
Proof.
  intros Hlookup Hnodup. unfold lookForExisting.
  destruct existing as [|p rest]; [reflexivity|].
  now apply findExisting_run.
Qed.

Lemma createNew_run g d viewer other :
  insertConversationFails g = false ->
  insertParticipantsFails g = false ->
  createNew g viewer other (before d) =
  (Ok tt, {| db := withConversation d (generatedId g) viewer other;
             error := null;
             pushed := [("/messages/" ++ generatedId g)%string];
             console := [] |}).
Proof.
  intros Hconv Hparts.
  unfold createNew, insertConversation, insertParticipants, bind, gets.
  rewrite Hconv. cbv beta iota. unfold setDb, modify, ret. cbv beta iota.
  cbn [snd fst db]. rewrite Hparts. reflexivity.
Qed.

(** What a call does when the gateway answers every request. *)
Lemma startConversation_run g d viewer other :
  sessionUser g = Some viewer ->
  answersAll g ->
  wellFormed d ->
  after g d other =
  match find (hasOther d other)
             (filter (fun r => user_id r =? viewer) (conversation_participants d)) with
  | Some r =>
      {| db := d; error := null;
         pushed := [("/messages/" ++ conversation_id r)%string]; console := [] |}
  | None =>
      {| db := withConversation d (generatedId g) viewer other;
         error := null;
         pushed := [("/messages/" ++ generatedId g)%string];
         console := [] |}
  end.
Proof.
  intros Hsession (Hselect & Hlookup & Hconv & Hparts) (Hnodup & Hids).
  unfold after, startConversation, try_catch. rewrite Hsession.
  unfold bind at 1. unfold selectByUser, bind, gets. rewrite Hselect.
  unfold ret at 1. cbv beta iota. cbn [snd fst db before].
  rewrite (lookForExisting_run g (before d) other _ Hlookup Hnodup).
  cbn [db before].
  destruct (find (hasOther d other) _) as [r|] eqn:Hfind.
  - assert (conversation_id r <> "") as Hid.
    { apply Hids. apply find_some in Hfind as [Hin _].
      now apply filter_In in Hin as [Hin _]. }
    apply String.eqb_neq in Hid.
    cbn [truthy show]. rewrite Hid. reflexivity.
  - cbn [truthy]. now rewrite (createNew_run g d viewer other Hconv Hparts).
Qed.

(** C7, as amended. For a signed-in viewer and a gateway that answers
    every request from the tables, [startConversation] adds a
    conversation row and exactly two participant rows, one for the
    viewer and one for the other user, exactly when no conversation has
    both as participants, and then opens the new conversation; when one
    is shared it opens that one and the tables stay as they were. For a
    viewer who is not signed in it changes no table and sets an error
    message. When the first select is answered with an error it changes
    no table and reports that the conversation could not be started. *)
Theorem startConversation_creates_when_unshared :
  forall (g : Gateway) (d : Database) (viewer other : string),
    (sessionUser g = Some viewer -> answersAll g -> wellFormed d ->
     createsExactlyWhenUnshared g d viewer other /\
     ((exists c, sharedBy d viewer other c) ->
      db (after g d other) = d /\
      exists c, sharedBy d viewer other c /\
                pushed (after g d other) = [("/messages/" ++ c)%string]) /\
     (~ (exists c, sharedBy d viewer other c) ->
      pushed (after g d other) = [("/messages/" ++ generatedId g)%string])) /\
    (sessionUser g = None ->
     db (after g d other) = d /\
     pushed (after g d other) = [] /\
     error (after g d other) =
       str "You must be logged in to start a conversation") /\
    (sessionUser g = Some viewer -> selectFails g = true ->
     db (after g d other) = d /\
     pushed (after g d other) = [] /\
     error (after g d other) = str "Failed to start conversation").
Proof.
  intros g d viewer other. split; [|split].
  - intros Hsession Hanswers Hwf.
    assert (Hrun := startConversation_run g d viewer other Hsession Hanswers Hwf).
    unfold createsExactlyWhenUnshared, createsConversation.
    destruct (find (hasOther d other) _) as [r|] eqn:Hfind.
    + assert (Hshared := find_hasOther_shared d viewer other r Hfind).
      rewrite Hrun. cbn [db pushed]. split; [|split].
      * split.
        -- intros Heq. symmetry in Heq.
           now apply withConversation_changes in Heq.
        -- intros Hnone. exfalso. apply Hnone. eauto.
      * intros _. split; [reflexivity|]. eauto.
      * intros Hnone. exfalso. apply Hnone. eauto.
    + assert (Hnone := find_hasOther_unshared d viewer other Hfind).
      rewrite Hrun. cbn [db pushed]. split; [|split].
      * split; [intros _; assumption | reflexivity].
      * intros Hshared. contradiction.
      * reflexivity.
  - intros Hsession. unfold after, startConversation, try_catch.
    rewrite Hsession. repeat split.
  - intros Hsession Hselect. unfold after, startConversation, try_catch.
    rewrite Hsession. unfold bind at 1. unfold selectByUser, bind, gets.
    rewrite Hselect. repeat split.
Qed.

(** Ann and Bob share no conversation yet: one is created and opened. *)
Lemma startConversation_creates_when_unshared_witness :
  pushed (after {| sessionUser := Some "u1"; selectFails := false;
                   lookupFails := fun _ => false;
                   insertConversationFails := false;
                   insertParticipantsFails := false; generatedId := "c9" |}
                emptyDatabase "u2") = ["/messages/c9"].
Proof.
  apply (startConversation_creates_when_unshared
           {| sessionUser := Some "u1"; selectFails := false;
              lookupFails := fun _ => false;
              insertConversationFails := false;
              insertParticipantsFails := false; generatedId := "c9" |}
           emptyDatabase "u1" "u2").
  - reflexivity.
  - repeat split.
  - split; [constructor | intros r []].
  - intros (c & [] & _).
Defined.

(** C7, as stated, fails: the viewer is signed in and shares no
    conversation with the other user, but the first select is answered
    with an error and nothing is created. *)
Lemma startConversation_unshared_not_created :
  ~ createsExactlyWhenUnshared failingSelect emptyDatabase "u1" "u2".
Proof.
  unfold createsExactlyWhenUnshared, createsConversation.
  intros [_ Hcreate].
  assert (db (after failingSelect emptyDatabase "u2") =
          withConversation emptyDatabase (generatedId failingSelect) "u1" "u2")
    as Habs by (apply Hcreate; intros (c & [] & _)).
  discriminate Habs.
Qed.

End StartConversation.


(** ** The conversation list: search, rows and recovery *)

Section ListScreen.
Import Js Comp MessagesScreen.

Lemma filterBySearch_filter lower query me convs : forall w,
  currentUserId (screen w) = me ->
  exists out,
    filterBySearch lower query convs w =
    (Ok (filter (fun conv =>
                   match selected me conv with
                   | Some other => matchesSearch lower query other conv
                   | None => false
                   end) convs),
     logged w out).
Proof.
  induction convs as [|conv convs IH]; intros w Hme; cbn [filterBySearch filter].
  - exists []. unfold ret, logged. rewrite app_nil_r. now destruct w.
  - unfold bind at 1.
    destruct (getOtherParticipant_run conv w) as [out1 ->]. cbv beta iota.
    unfold bind at 1.
    destruct (IH (logged w out1) Hme) as (out2 & ->).
    rewrite logged_logged, Hme. unfold matchesSearch.
    destruct (selected me conv) as [other|]; eexists; reflexivity.
Qed.

(** Searching keeps, in their order, exactly the stored conversations
    whose other party is resolved and whose display name, username or
    last message contains the query in lower case; an empty query keeps
    the whole list. The screen state is not touched. *)
Theorem filteredConversations_sound_complete :
  forall (toLowerCase : string -> string) (w : World),
  exists out,
    filteredConversations toLowerCase w =
    (Ok (if searchQuery (screen w) =? "" then conversations (screen w)
         else filter (fun conv =>
                        match selected (currentUserId (screen w)) conv with
                        | Some other =>
                            matchesSearch toLowerCase (searchQuery (screen w))
                                          other conv
                        | None => false
                        end)
                     (conversations (screen w))),
     logged w out).
Proof.
  intros lower w. unfold filteredConversations, bind, gets.
  destruct (searchQuery (screen w) =? "").
  - exists []. unfold ret, logged. rewrite app_nil_r. now destruct w.
  - now apply filterBySearch_filter.
Qed.

Lemma or_default_nonempty v d : d <> "" -> or_default v d <> "".
Proof.
  intros Hd. destruct v as [| |s]; cbn [or_default]; try assumption.
  destruct (String.eqb_spec s ""); assumption.
Qed.

Lemma renderItem_resolved_row fmt c w ps other :
  participants c = Some ps ->
  selected (currentUserId (screen w)) c = Some other ->
  fst (renderItem fmt c w) =
  Ok (Some {| onPress := "/messages/" ++ conv_id c;
              avatar_uri :=
                or_default (avatarUrlOf (currentUserId (screen w)) ps other)
                           placeholderAvatar;
              title := or_default (or (display_name other) (username other))
                                  "Unknown user";
              timestamp :=
                match last_message_at c with
                | str s => if s =? "" then "Unknown time" else fmt s
                | _ => "Unknown time"
                end;
              subtitle := or_default (last_message c) "No messages yet" |}).
Proof.
  intros Hps Hsel. unfold renderItem.
  unfold bind at 1. unfold console_log. rewrite emit_run. cbv beta iota.
  unfold bind at 1.
  match goal with |- context [getOtherParticipant c ?w0] =>
    destruct (getOtherParticipant_run c w0) as [out ->] end.
  cbn [screen logged]. rewrite Hsel, Hps. reflexivity.
Qed.

(** A rendered row always has something to show and somewhere to go:
    its route is that of the conversation, and its avatar, title and
    preview are never empty; a conversation without a last-message time
    shows "Unknown time". *)
Theorem renderItem_row_is_complete :
  forall (formatRelativeTime : string -> string) (w : World)
         (c : Conversation) (row : Row),
    fst (renderItem formatRelativeTime c w) = Ok (Some row) ->
    onPress row = ("/messages/" ++ conv_id c)%string /\
    avatar_uri row <> "" /\
    title row <> "" /\
    subtitle row <> "" /\
    (truthy (last_message_at c) = false -> timestamp row = "Unknown time").
Proof.
  intros fmt w c row Hrow.
  destruct (selected (currentUserId (screen w)) c) as [other|] eqn:Hsel.
  - destruct (participants c) as [ps|] eqn:Hps.
    + rewrite (renderItem_resolved_row fmt c w ps other Hps Hsel) in Hrow.
      injection Hrow as <-. cbn [onPress avatar_uri title subtitle timestamp].
      split; [reflexivity|].
      split; [apply or_default_nonempty; discriminate|].
      split; [apply or_default_nonempty; discriminate|].
      split; [apply or_default_nonempty; discriminate|].
      destruct (last_message_at c) as [| |s]; try reflexivity.
      cbn [truthy]. destruct (s =? ""); [reflexivity | discriminate].
    + unfold selected, participantsOf in Hsel. rewrite Hps in Hsel. discriminate.
  - rewrite (renderItem_unresolved fmt c w Hsel) in Hrow. discriminate.
Qed.

(** The row of the sample conversation, seen by "u1". *)
Lemma renderItem_row_is_complete_witness :
  onPress {| onPress := "/messages/c1"; avatar_uri := "b.png"; title := "Bob";
             timestamp := "2025-02-17T06:05:59Z"; subtitle := "hi" |} =
  "/messages/c1".
Proof.
  apply (renderItem_row_is_complete (fun s => s) (signedInAs "u1")
           sampleConversation).
  reflexivity.
Defined.

(** Every conversation that a successful fetch stores gets a row,
    whoever the viewer is and whatever the screen state: the filter of
    the fetch and the resolver agree. *)
Theorem stored_conversations_are_rendered :
  forall (formatRelativeTime : string -> string) (data : list Conversation)
         (w w' : World) (conv : Conversation),
    In conv (conversations
               (screen (snd (fetchConversations_onQuery
                               (QueryAnswer (Some data) None) w)))) ->
    exists row, fst (renderItem formatRelativeTime conv w') = Ok (Some row).
Proof.
  intros fmt data w w' conv Hin.
  rewrite stored_after_answer in Hin. apply filter_In in Hin as [_ Hvalid].
  destruct (selected (currentUserId (screen w')) conv) as [other|] eqn:Hsel.
  - destruct (participants conv) as [ps|] eqn:Hps.
    + eexists. now apply renderItem_resolved_row with (ps := ps) (other := other).
    + unfold hasValidParticipant in Hvalid. rewrite Hps in Hvalid. discriminate.
  - apply selected_none_iff, hasValidParticipant_false_iff in Hsel. congruence.
Qed.

(** The sample conversation is stored and rendered for a viewer that is
    not signed in. *)
Lemma stored_conversations_are_rendered_witness :
  exists row,
    fst (renderItem (fun s => s) sampleConversation initialWorld) = Ok (Some row).
Proof.
  apply (stored_conversations_are_rendered (fun s => s) [sampleConversation]
           initialWorld initialWorld sampleConversation).
  now left.
Defined.

(** The query for the conversations is issued exactly when [getUser]
    answers without an error and with a user whose id is not empty. A
    rejected request, an error answer and a missing user end the fetch
    there: a message is put in the error state, both loading flags are
    cleared and the stored list is as before. *)
Theorem fetchConversations_needs_user :
  forall (resp : AuthResponse) (w : World),
    (forall uid,
       fst (fetchConversations_onUser resp w) = Ok (AwaitingQuery uid) <->
       resp = AuthAnswer false (Some uid) /\ uid <> "") /\
    ((resp = AuthRejects \/ (exists user, resp = AuthAnswer true user) \/
      resp = AuthAnswer false None) ->
     fst (fetchConversations_onUser resp w) = Ok Finished /\
     truthy (error (screen (snd (fetchConversations_onUser resp w)))) = true /\
     loading (screen (snd (fetchConversations_onUser resp w))) = false /\
     refreshing (screen (snd (fetchConversations_onUser resp w))) = false /\
     conversations (screen (snd (fetchConversations_onUser resp w))) =
       conversations (screen w)).
Proof.
  intros resp w. split.
  - intros uid.
    destruct resp as [|[|] [u|]]; cbn; try (split; [discriminate | intros [H _]; discriminate]).
    run_comp. destruct (String.eqb_spec u "") as [->|Hu]; cbn.
    + split; [discriminate | intros [H Hne]].
      injection H as <-. now elim Hne.
    + split.
      * intros H. injection H as <-. now split.
      * intros [H _]. injection H as <-. reflexivity.
  - intros [-> | [[user ->] | ->]]; repeat split.
Qed.

(** No user: the fetch ends with a message and without a query. *)
Lemma fetchConversations_needs_user_witness :
  fst (fetchConversations_onUser (AuthAnswer false None) initialWorld) = Ok Finished.
Proof.
  apply (fetchConversations_needs_user (AuthAnswer false None) initialWorld).
  right. right. reflexivity.
Defined.

Lemma step_after_cleanup m e :
  mounted m = false -> subscribed m = [] ->
  mounted (step m e) = false /\ subscribed (step m e) = [] /\
  (fromGateway e = true -> fetches (step m e) = fetches m).
Proof.
  intros Hm Hs.
  destruct m as [w mt subs ts n]. cbn [mounted subscribed] in Hm, Hs. subst mt subs.
  assert (forall m' : Machine,
            mounted m' = false -> subscribed m' = [] -> fetches m' = n ->
            mounted m' = false /\ subscribed m' = [] /\
            (fromGateway e = true ->
             fetches m' = fetches {| world := w; mounted := false; subscribed := [];
                                     tasks := ts; fetches := n |})) as Hkeep
    by (intros m' H1 H2 H3; auto).
  destruct e as [ch|i resp|i resp|i| | | |query|c];
    cbn [step tasks world existsb].
  - now apply Hkeep.
  - destruct (nth_error ts i) as [[init|init u| |[init|init u| |t]]|];
      try now apply Hkeep.
    + destruct (fetchConversations_onUser resp w) as [[[|u]|ex] w'];
        try destruct init; now apply Hkeep.
    + unfold resumeUserDetached, discarding. cbn [world tasks].
      destruct (fetchConversations_onUser resp w) as [[[|u]|ex] w'];
        try destruct init; now apply Hkeep.
  - destruct (nth_error ts i) as [[init|init u| |[init|init u| |t]]|];
      try now apply Hkeep.
    + destruct (fetchConversations_onQuery resp w) as [[[]|ex] w'];
        try destruct init; now apply Hkeep.
    + unfold resumeQueryDetached, discarding. cbn [world tasks].
      destruct (fetchConversations_onQuery resp w) as [[[]|ex] w'];
        try destruct init; now apply Hkeep.
  - destruct (nth_error ts i) as [[init|init u| |[init|init u| |t]]|];
      now apply Hkeep.
  - cbn. repeat split; discriminate.
  - destruct (_ && _)%bool; cbn; repeat split; discriminate.
  - destruct (_ && _)%bool; cbn; repeat split; discriminate.
  - destruct (negb _); cbn; repeat split; discriminate.
  - now apply Hkeep.
Qed.

(** The cleanup is final for the instance. Whatever happens after it,
    the effect stays unmounted and holds no subscription, and nothing
    that comes from the gateway (change events, answers of calls still
    in flight) calls [fetchConversations] again. *)
Theorem cleanup_is_final :
  forall (es : list Event) (m : Machine),
    mounted (run (unmount m) es) = false /\
    subscribed (run (unmount m) es) = [] /\
    (forallb fromGateway es = true ->
     fetches (run (unmount m) es) = fetches m).
Proof.
  intros es m.
  assert (forall es m0, mounted m0 = false -> subscribed m0 = [] ->
            mounted (run m0 es) = false /\ subscribed (run m0 es) = [] /\
            (forallb fromGateway es = true -> fetches (run m0 es) = fetches m0))
    as Hgen.
  { clear. induction es as [|e es IH]; intros m0 Hm Hs; cbn [run fold_left].
    - auto.
    - destruct (step_after_cleanup m0 e Hm Hs) as (Hm' & Hs' & Hf).
      destruct (IH (step m0 e) Hm' Hs') as (Hm'' & Hs'' & Hf'').
      unfold run in *. repeat split; try assumption.
      cbn [forallb]. intros Hall. apply andb_true_iff in Hall as [He Hes].
      rewrite (Hf'' Hes). now apply Hf. }
  apply (Hgen es (unmount m)); reflexivity.
Qed.

(** After the screen of the late-answer trace is left, the late answer
    and a further message event start no fetch. *)
Lemma cleanup_is_final_witness :
  fetches (run (unmount (mount initialWorld))
             [UserAnswered 0 (AuthAnswer false (Some "u1"));
              ChangeEvent MessagesChannel]) = 1.
Proof.
  apply (cleanup_is_final
           [UserAnswered 0 (AuthAnswer false (Some "u1"));
            ChangeEvent MessagesChannel]
           (mount initialWorld)).
  reflexivity.
Defined.

Lemma step_query_settles m userId resp :
  tasks m = [AwaitQuery false userId] ->
  step m (QueryAnswered 0 resp) =
  {| world := snd (fetchConversations_onQuery resp (world m));
     mounted := mounted m; subscribed := subscribed m;
     tasks := []; fetches := fetches m |}.
Proof.
  intros Htasks. cbn [step]. rewrite Htasks. cbn [nth_error].
  pose proof (fetchConversations_onQuery_safe resp (world m)) as Hsafe.
  destruct (fetchConversations_onQuery resp (world m)) as [r w'] eqn:Hrun.
  cbn [fst] in Hsafe. subst r.
  unfold withTasks, exec. rewrite Htasks, Hrun. reflexivity.
Qed.

Lemma fetchConversations_onUser_issues uid w :
  uid <> "" ->
  fst (fetchConversations_onUser (AuthAnswer false (Some uid)) w) =
  Ok (AwaitingQuery uid).
Proof.
  intros Huid. apply String.eqb_neq in Huid.
  run_comp. now rewrite Huid.
Qed.

Lemma step_user_settles m uid :
  tasks m = [AwaitUser false] ->
  uid <> "" ->
  step m (UserAnswered 0 (AuthAnswer false (Some uid))) =
  {| world := snd (fetchConversations_onUser (AuthAnswer false (Some uid)) (world m));
     mounted := mounted m; subscribed := subscribed m;
     tasks := [AwaitQuery false uid]; fetches := fetches m |}.
Proof.
  intros Htasks Huid. cbn [step]. rewrite Htasks. cbn [nth_error].
  pose proof (fetchConversations_onUser_issues uid (world m) Huid) as Hissued.
  destruct (fetchConversations_onUser (AuthAnswer false (Some uid)) (world m))
    as [r w'] eqn:Hrun.
  cbn [fst] in Hissued. subst r.
  unfold withTasks, exec. rewrite Htasks, Hrun. reflexivity.
Qed.

Lemma step_retry_pressed m :
  loading (screen (world m)) = false ->
  truthy (error (screen (world m))) = true ->
  step m PressRetry = retry m.
Proof. intros Hloading Herror. cbn [step]. now rewrite Hloading, Herror. Qed.

Lemma fetchConversations_onQuery_success data w :
  conversations (screen (snd (fetchConversations_onQuery
                                (QueryAnswer (Some data) None) w))) =
    filter hasValidParticipant data /\
  error (screen (snd (fetchConversations_onQuery
                        (QueryAnswer (Some data) None) w))) = null /\
  loading (screen (snd (fetchConversations_onQuery
                          (QueryAnswer (Some data) None) w))) = false.
Proof.
  split; [apply stored_after_answer|].
  destruct data as [|conv data]; [split; reflexivity|].
  run_comp.
  match goal with |- context [andb ?a ?b] => destruct (andb a b) end;
    split; reflexivity.
Qed.

Lemma failure_shows_retry resp w :
  isFailure resp = true ->
  loading (screen (snd (fetchConversations_onQuery resp w))) = false /\
  truthy (error (screen (snd (fetchConversations_onQuery resp w)))) = true.
Proof.
  intros Hfailed.
  destruct (fetchConversations_onQuery_failure resp w Hfailed)
    as (_ & Hloading & _ & Herror).
  split; [assumption|]. rewrite Herror.
  destruct resp as [|d [message|]]; reflexivity.
Qed.

(** Recovery by the retry button. When the only fetch in flight fails,
    the retry button is there to be pressed; if the retried fetch then
    gets a user and an answer, the screen holds the valid conversations
    of that answer, no error and no spinner, with nothing left in
    flight and exactly one more call of [fetchConversations]. *)
Theorem retry_recovers :
  forall (m : Machine) (userId uid : string) (resp : QueryResponse)
         (data : list Conversation),
    tasks m = [AwaitQuery false userId] ->
    isFailure resp = true ->
    uid <> "" ->
    conversations
      (screen (world (run m [QueryAnswered 0 resp; PressRetry;
                             UserAnswered 0 (AuthAnswer false (Some uid));
                             QueryAnswered 0 (QueryAnswer (Some data) None)]))) =
      filter hasValidParticipant data /\
    error
      (screen (world (run m [QueryAnswered 0 resp; PressRetry;
                             UserAnswered 0 (AuthAnswer false (Some uid));
                             QueryAnswered 0 (QueryAnswer (Some data) None)]))) =
      null /\
    loading
      (screen (world (run m [QueryAnswered 0 resp; PressRetry;
                             UserAnswered 0 (AuthAnswer false (Some uid));
                             QueryAnswered 0 (QueryAnswer (Some data) None)]))) =
      false /\
    tasks (run m [QueryAnswered 0 resp; PressRetry;
                  UserAnswered 0 (AuthAnswer false (Some uid));
                  QueryAnswered 0 (QueryAnswer (Some data) None)]) = [] /\
    fetches (run m [QueryAnswered 0 resp; PressRetry;
                    UserAnswered 0 (AuthAnswer false (Some uid));
                    QueryAnswered 0 (QueryAnswer (Some data) None)]) =
      S (fetches m).
Proof.
  intros m userId uid resp data Htasks Hfailed Huid.
  cbn [run fold_left].
  rewrite (step_query_settles m userId resp Htasks).
  destruct (failure_shows_retry resp (world m) Hfailed) as [Hloading Herror].
  rewrite step_retry_pressed by assumption.
  set (m2 := retry _).
  assert (tasks m2 = [AwaitUser false]) as Htasks2 by reflexivity.
  assert (fetches m2 = S (fetches m)) as Hfetches2 by reflexivity.
  rewrite (step_user_settles m2 uid Htasks2 Huid).
  set (m3 := {| world := _; mounted := _; subscribed := _;
                tasks := [AwaitQuery false uid]; fetches := _ |}).
  rewrite (step_query_settles m3 uid _ eq_refl).
  cbn [world tasks fetches].
  destruct (fetchConversations_onQuery_success data (world m3)) as (H1 & H2 & H3).
  repeat split; assumption.
Qed.

(** A timed-out refetch, a retry and the sample conversation. *)
Lemma retry_recovers_witness :
  error
    (screen (world (run {| world := signedInAs "u1"; mounted := true;
                           subscribed := [ConversationsChannel; MessagesChannel];
                           tasks := [AwaitQuery false "u1"]; fetches := 2 |}
                      [QueryAnswered 0 (QueryAnswer None (Some "timeout"));
                       PressRetry;
                       UserAnswered 0 (AuthAnswer false (Some "u1"));
                       QueryAnswered 0
                         (QueryAnswer (Some [sampleConversation]) None)]))) =
  null.
Proof.
  apply (retry_recovers
           {| world := signedInAs "u1"; mounted := true;
              subscribed := [ConversationsChannel; MessagesChannel];
              tasks := [AwaitQuery false "u1"]; fetches := 2 |}
           "u1" "u1" (QueryAnswer None (Some "timeout")) [sampleConversation]).
  - reflexivity.
  - reflexivity.
  - discriminate.
Defined.

End ListScreen.

(** ** Live sync: refetch on change, release on cleanup *)

Section Refetch.
Import Js Comp MessagesScreen.

Lemma nth_error_middle (ts rest : list Task) t :
  nth_error (ts ++ t :: rest) (length ts) = Some t.
Proof. induction ts as [|t0 ts IH]; [reflexivity | exact IH]. Qed.

Lemma replaceTask_middle ts new t rest :
  replaceTask (length ts) new (ts ++ t :: rest) = ts ++ new ++ rest.
Proof.
  induction ts as [|t0 ts IH]; cbn [length app replaceTask];
    [reflexivity | now rewrite IH].
Qed.

(** The answer of [getUser] resumes the call it belongs to, whatever
    else is in flight. *)
Lemma step_user_resumes m ts rest init uid :
  tasks m = ts ++ AwaitUser init :: rest ->
  uid <> "" ->
  step m (UserAnswered (length ts) (AuthAnswer false (Some uid))) =
  {| world := snd (fetchConversations_onUser (AuthAnswer false (Some uid)) (world m));
     mounted := mounted m; subscribed := subscribed m;
     tasks := ts ++ AwaitQuery init uid :: rest; fetches := fetches m |}.
Proof.
  intros Htasks Huid. cbn [step]. rewrite Htasks, nth_error_middle.
  pose proof (fetchConversations_onUser_issues uid (world m) Huid) as Hissued.
  destruct (fetchConversations_onUser (AuthAnswer false (Some uid)) (world m))
    as [r w'] eqn:Hrun.
  cbn [fst] in Hissued. subst r.
  unfold withTasks, exec. rewrite Htasks, Hrun, replaceTask_middle. reflexivity.
Qed.

Lemma step_query_resumes m ts rest init userId resp :
  tasks m = ts ++ AwaitQuery init userId :: rest ->
  step m (QueryAnswered (length ts) resp) =
  {| world := snd (fetchConversations_onQuery resp (world m));
     mounted := mounted m; subscribed := subscribed m;
     tasks := ts ++ afterFetch init ++ rest; fetches := fetches m |}.
Proof.
  intros Htasks. cbn [step]. rewrite Htasks, nth_error_middle.
  pose proof (fetchConversations_onQuery_safe resp (world m)) as Hsafe.
  destruct (fetchConversations_onQuery resp (world m)) as [r w'] eqn:Hrun.
  cbn [fst] in Hsafe. subst r.
  unfold withTasks, exec. rewrite Htasks, Hrun, replaceTask_middle. reflexivity.
Qed.

Lemma user_resumes m ts rest init uid :
  tasks m = ts ++ AwaitUser init :: rest ->
  uid <> "" ->
  tasks (step m (UserAnswered (length ts) (AuthAnswer false (Some uid)))) =
    ts ++ AwaitQuery init uid :: rest /\
  fetches (step m (UserAnswered (length ts) (AuthAnswer false (Some uid)))) =
    fetches m.
Proof.
  intros Htasks Huid. rewrite (step_user_resumes m ts rest init uid Htasks Huid).
  split; reflexivity.
Qed.

Lemma query_resumes m ts rest init userId resp :
  tasks m = ts ++ AwaitQuery init userId :: rest ->
  tasks (step m (QueryAnswered (length ts) resp)) = ts ++ afterFetch init ++ rest /\
  fetches (step m (QueryAnswered (length ts) resp)) = fetches m /\
  world (step m (QueryAnswered (length ts) resp)) =
    snd (fetchConversations_onQuery resp (world m)).
Proof.
  intros Htasks. rewrite (step_query_resumes m ts rest init userId resp Htasks).
  repeat split.
Qed.

(** On an active screen a change of the [conversations] table reaches
    the callback of the conversations channel and no other, a change of
    the [messages] table that of the messages channel, whatever the kind
    of change and the row; a change of another table reaches none. *)
Lemma publish_active m c :
  active m ->
  (in_schema c = "public" -> in_table c = "conversations" ->
   publish c m = onChange ConversationsChannel m) /\
  (in_schema c = "public" -> in_table c = "messages" ->
   publish c m = onChange MessagesChannel m) /\
  (in_table c <> "conversations" -> in_table c <> "messages" ->
   publish c m = m).
Proof.
  intros [_ Hs]. unfold publish. rewrite Hs.
  cbn [fold_left filterOf]. unfold selects.
  cbn [event schema table row_filter]. rewrite String.eqb_refl.
  cbn [orb]. rewrite !andb_true_r.
  split; [|split].
  - intros -> ->. reflexivity.
  - intros -> ->. reflexivity.
  - intros H1 H2.
    destruct (String.eqb_spec "conversations" (in_table c)) as [E|_];
      [now elim H1|].
    destruct (String.eqb_spec "messages" (in_table c)) as [E|_];
      [now elim H2|].
    now rewrite !andb_false_r.
Qed.

(** A published change of either table on an active screen. *)
Lemma step_row_changed m c :
  active m ->
  in_schema c = "public" ->
  in_table c = "conversations" \/ in_table c = "messages" ->
  fetches (step m (RowChanged c)) = S (fetches m) /\
  tasks (step m (RowChanged c)) = tasks m ++ [AwaitUser false] /\
  screen (world (step m (RowChanged c))) = screen (world m) /\
  active (step m (RowChanged c)).
Proof.
  intros Ha Hschema Htable. cbn [step].
  destruct (publish_active m c Ha) as (Hc & Hm & _).
  assert (exists ch, publish c m = onChange ch m) as [ch ->].
  { destruct Htable as [Ht|Ht]; eexists; [apply Hc | apply Hm]; assumption. }
  destruct Ha as [Hmounted Hsubs].
  destruct (onChange_mounted ch m Hmounted) as (Hf & Ht & Hscreen & Hm' & Hs').
  repeat split; try assumption. now rewrite Hs'.
Qed.

(** C6. On an active screen every change that the gateway publishes for
    the [conversations] or the [messages] table, of any kind and for any
    row, calls [fetchConversations] exactly once and touches no state
    itself; a change of another table calls nothing. The call is a full
    refetch: answered with the viewer it issues the query for that
    viewer, and answered with the conversations it replaces the stored
    list by the valid ones of the answer, whatever was stored, and is
    then done. Two changes start two calls, which are both in flight and
    both carried out: each stores its answer when it comes, so that the
    list is that of the call that is answered last, here the first. *)
Theorem change_event_starts_one_fetch :
  forall (m : Machine),
    active m ->
    (forall c,
       in_schema c = "public" ->
       in_table c = "conversations" \/ in_table c = "messages" ->
       fetches (step m (RowChanged c)) = S (fetches m) /\
       tasks (step m (RowChanged c)) = tasks m ++ [AwaitUser false] /\
       screen (world (step m (RowChanged c))) = screen (world m) /\
       active (step m (RowChanged c))) /\
    (forall c,
       in_table c <> "conversations" ->
       in_table c <> "messages" ->
       step m (RowChanged c) = m) /\
    (forall ch,
       fetches (step m (ChangeEvent ch)) = S (fetches m) /\
       tasks (step m (ChangeEvent ch)) = tasks m ++ [AwaitUser false] /\
       screen (world (step m (ChangeEvent ch))) = screen (world m) /\
       active (step m (ChangeEvent ch))) /\
    (forall c uid data,
       in_schema c = "public" ->
       in_table c = "conversations" \/ in_table c = "messages" ->
       uid <> "" ->
       tasks (run m [RowChanged c;
                     UserAnswered (length (tasks m))
                                  (AuthAnswer false (Some uid))]) =
         tasks m ++ [AwaitQuery false uid] /\
       conversations
         (screen (world (run m [RowChanged c;
                                UserAnswered (length (tasks m))
                                             (AuthAnswer false (Some uid));
                                QueryAnswered (length (tasks m))
                                              (QueryAnswer (Some data) None)]))) =
         filter hasValidParticipant data /\
       error
         (screen (world (run m [RowChanged c;
                                UserAnswered (length (tasks m))
                                             (AuthAnswer false (Some uid));
                                QueryAnswered (length (tasks m))
                                              (QueryAnswer (Some data) None)]))) =
         null /\
       tasks (run m [RowChanged c;
                     UserAnswered (length (tasks m))
                                  (AuthAnswer false (Some uid));
                     QueryAnswered (length (tasks m))
                                   (QueryAnswer (Some data) None)]) =
         tasks m /\
       fetches (run m [RowChanged c;
                       UserAnswered (length (tasks m))
                                    (AuthAnswer false (Some uid));
                       QueryAnswered (length (tasks m))
                                     (QueryAnswer (Some data) None)]) =
         S (fetches m)) /\
    (forall c1 c2,
       in_schema c1 = "public" ->
       in_table c1 = "conversations" \/ in_table c1 = "messages" ->
       in_schema c2 = "public" ->
       in_table c2 = "conversations" \/ in_table c2 = "messages" ->
       fetches (run m [RowChanged c1; RowChanged c2]) = S (S (fetches m)) /\
       tasks (run m [RowChanged c1; RowChanged c2]) =
         tasks m ++ [AwaitUser false; AwaitUser false] /\
       (forall uid first second,
          uid <> "" ->
          tasks (run m [RowChanged c1; RowChanged c2;
                        UserAnswered (length (tasks m))
                                     (AuthAnswer false (Some uid));
                        UserAnswered (S (length (tasks m)))
                                     (AuthAnswer false (Some uid))]) =
            tasks m ++ [AwaitQuery false uid; AwaitQuery false uid] /\
          conversations
            (screen (world (run m [RowChanged c1; RowChanged c2;
                                   UserAnswered (length (tasks m))
                                                (AuthAnswer false (Some uid));
                                   UserAnswered (S (length (tasks m)))
                                                (AuthAnswer false (Some uid));
                                   QueryAnswered (S (length (tasks m)))
                                                 (QueryAnswer (Some second) None)]))) =
            filter hasValidParticipant second /\
          conversations
            (screen (world (run m [RowChanged c1; RowChanged c2;
                                   UserAnswered (length (tasks m))
                                                (AuthAnswer false (Some uid));
                                   UserAnswered (S (length (tasks m)))
                                                (AuthAnswer false (Some uid));
                                   QueryAnswered (S (length (tasks m)))
                                                 (QueryAnswer (Some second) None);
                                   QueryAnswered (length (tasks m))
                                                 (QueryAnswer (Some first) None)]))) =
            filter hasValidParticipant first /\
          tasks (run m [RowChanged c1; RowChanged c2;
                        UserAnswered (length (tasks m))
                                     (AuthAnswer false (Some uid));
                        UserAnswered (S (length (tasks m)))
                                     (AuthAnswer false (Some uid));
                        QueryAnswered (S (length (tasks m)))
                                      (QueryAnswer (Some second) None);
                        QueryAnswered (length (tasks m))
                                      (QueryAnswer (Some first) None)]) =
            tasks m)).
Proof.
  intros m Hactive. split; [|split; [|split; [|split]]].
  - intros c Hschema Htable. now apply step_row_changed.
  - intros c H1 H2. cbn [step].
    now apply (publish_active m c Hactive).
  - intros ch. rewrite (step_change_active ch m Hactive).
    destruct Hactive as [Hm Hs].
    destruct (onChange_mounted ch m Hm) as (Hf & Ht & Hscreen & Hm' & Hs').
    repeat split; try assumption. now rewrite Hs'.
  - intros c uid data Hschema Htable Huid.
    destruct (step_row_changed m c Hactive Hschema Htable)
      as (Hf1 & Ht1 & _ & _).
    cbn [run fold_left].
    set (m1 := step m (RowChanged c)) in *.
    rewrite (step_user_resumes m1 (tasks m) [] false uid Ht1 Huid).
    set (m2 := {| world := _; mounted := _; subscribed := _;
                  tasks := tasks m ++ [AwaitQuery false uid]; fetches := _ |}).
    split; [reflexivity|].
    rewrite (step_query_resumes m2 (tasks m) [] false uid _ eq_refl).
    cbn [world tasks fetches afterFetch app].
    destruct (fetchConversations_onQuery_success data (world m2)) as (H1 & H2 & _).
    rewrite app_nil_r. repeat split; assumption.
  - intros c1 c2 Hs1 Ht1 Hs2 Ht2. cbn [run fold_left].
    destruct (step_row_changed m c1 Hactive Hs1 Ht1) as (Hf1 & Htasks1 & _ & Ha1).
    set (m1 := step m (RowChanged c1)) in *.
    destruct (step_row_changed m1 c2 Ha1 Hs2 Ht2) as (Hf2 & Htasks2 & _).
    set (m2 := step m1 (RowChanged c2)) in *.
    rewrite Htasks1, <- app_assoc in Htasks2. cbn [app] in Htasks2.
    split; [now rewrite Hf2, Hf1|]. split; [assumption|].
    intros uid first second Huid.
    destruct (user_resumes m2 (tasks m) [AwaitUser false] false uid Htasks2 Huid)
      as (Htasks3 & _).
    set (m3 := step m2 (UserAnswered (length (tasks m)) _)) in *.
    assert (tasks m3 = (tasks m ++ [AwaitQuery false uid]) ++ [AwaitUser false])
      as Htasks3' by (rewrite Htasks3, <- app_assoc; reflexivity).
    assert (S (length (tasks m)) = length (tasks m ++ [AwaitQuery false uid]))
      as -> by (rewrite length_app; cbn [length]; lia).
    destruct (user_resumes m3 _ [] false uid Htasks3' Huid) as (Htasks4 & _).
    set (m4 := step m3 (UserAnswered _ _)) in *.
    split; [now rewrite Htasks4, <- app_assoc|].
    destruct (query_resumes m4 _ [] false uid (QueryAnswer (Some second) None)
                Htasks4) as (Htasks5 & _ & Hworld5).
    set (m5 := step m4 (QueryAnswered _ _)) in *.
    split; [rewrite Hworld5; apply fetchConversations_onQuery_success|].
    cbn [afterFetch app] in Htasks5. rewrite app_nil_r in Htasks5.
    destruct (query_resumes m5 (tasks m) [] false uid (QueryAnswer (Some first) None)
                Htasks5) as (Htasks6 & _ & Hworld6).
    rewrite Hworld6, Htasks6. cbn [afterFetch app]. rewrite app_nil_r.
    split; [apply fetchConversations_onQuery_success | reflexivity].
Qed.

(** A message is inserted while the first fetch of a freshly mounted
    screen is in flight: the refetch that the change starts, answered
    with the viewer and one conversation, stores that conversation. *)
Lemma change_event_starts_one_fetch_witness :
  conversations
    (screen (world (run (mount initialWorld)
                      [RowChanged messageInserted;
                       UserAnswered 1 (AuthAnswer false (Some "u1"));
                       QueryAnswered 1
                         (QueryAnswer (Some [sampleConversation]) None)]))) =
  [sampleConversation].
Proof.
  refine (proj1 (proj2 (proj1 (proj2 (proj2 (proj2
            (change_event_starts_one_fetch (mount initialWorld)
               (mount_active initialWorld)))))
            messageInserted "u1" [sampleConversation] _ _ _))).
  - reflexivity.
  - right. reflexivity.
  - discriminate.
Defined.

Lemma detach_all ts : forallb isDetached (map detach ts) = true.
Proof.
  induction ts as [|[init|init u| |t] ts IH]; cbn [map forallb detach isDetached andb];
    assumption || reflexivity.
Qed.

Lemma nth_error_detached ts i t :
  forallb isDetached ts = true ->
  nth_error ts i = Some t ->
  exists call, t = Detached call.
Proof.
  intros Hall Hnth. apply nth_error_In in Hnth.
  rewrite forallb_forall in Hall. specialize (Hall t Hnth).
  destruct t; try discriminate. eexists. reflexivity.
Qed.

Lemma replaceTask_detached i new : forall ts,
  forallb isDetached new = true ->
  forallb isDetached ts = true ->
  forallb isDetached (replaceTask i new ts) = true.
Proof.
  induction i as [|i IH]; intros [|t ts] Hnew Hts; cbn [replaceTask];
    try reflexivity.
  - cbn [forallb] in Hts. apply andb_true_iff in Hts as [_ Hts].
    rewrite forallb_app, Hnew, Hts. reflexivity.
  - cbn [forallb] in *. apply andb_true_iff in Hts as [Ht Hts].
    rewrite Ht, (IH ts Hnew Hts). reflexivity.
Qed.

Lemma initializeCatch_tasks m : tasks (initializeCatch m) = tasks m.
Proof. destruct m as [w [|] subs ts n]; reflexivity. Qed.

Lemma initializeFinally_tasks m : tasks (initializeFinally m) = tasks m.
Proof. destruct m as [w [|] subs ts n]; reflexivity. Qed.

Lemma afterFetch_detached init :
  forallb isDetached (map Detached (afterFetch init)) = true.
Proof. now destruct init. Qed.

(** Once the cleanup has run and every call in flight is detached,
    nothing that comes from the gateway changes the state, and the calls
    stay detached. *)
Lemma step_released m e :
  subscribed m = [] ->
  forallb isDetached (tasks m) = true ->
  fromGateway e = true ->
  screen (world (step m e)) = screen (world m) /\
  forallb isDetached (tasks (step m e)) = true.
Proof.
  intros Hs Hall He.
  destruct e as [ch|i resp|i resp|i| | | |query|c]; try discriminate;
    cbn [step].
  - rewrite Hs. cbn [existsb]. now split.
  - destruct (nth_error (tasks m) i) as [t|] eqn:Hnth; [|now split].
    destruct (nth_error_detached _ _ _ Hall Hnth) as [call ->].
    destruct call as [init|init u| |t]; try now split.
    unfold resumeUserDetached, discarding. cbn [world screen tasks].
    split; [reflexivity|].
    destruct (fetchConversations_onUser resp (world m)) as [[[|u]|ex] w'];
      try destruct init; rewrite ?initializeCatch_tasks; cbn [withTasks tasks];
      apply replaceTask_detached; try assumption; reflexivity.
  - destruct (nth_error (tasks m) i) as [t|] eqn:Hnth; [|now split].
    destruct (nth_error_detached _ _ _ Hall Hnth) as [call ->].
    destruct call as [init|init u| |t]; try now split.
    unfold resumeQueryDetached, discarding. cbn [world screen tasks].
    split; [reflexivity|].
    destruct (fetchConversations_onQuery resp (world m)) as [[[]|ex] w'];
      try destruct init; rewrite ?initializeCatch_tasks; cbn [withTasks tasks];
      apply replaceTask_detached; try assumption; reflexivity.
  - destruct (nth_error (tasks m) i) as [t|] eqn:Hnth; [|now split].
    destruct (nth_error_detached _ _ _ Hall Hnth) as [call ->].
    destruct call as [init|init u| |t]; try now split.
    unfold resumeDebugDetached, discarding. cbn [world screen tasks].
    split; [reflexivity|].
    rewrite initializeFinally_tasks. cbn [withTasks tasks].
    apply replaceTask_detached; [reflexivity | assumption].
  - unfold publish. rewrite Hs. cbn [fold_left]. now split.
Qed.

Lemma run_released es : forall m,
  mounted m = false ->
  subscribed m = [] ->
  forallb isDetached (tasks m) = true ->
  forallb fromGateway es = true ->
  screen (world (run m es)) = screen (world m) /\
  fetches (run m es) = fetches m /\
  mounted (run m es) = false /\
  subscribed (run m es) = [].
Proof.
  induction es as [|e es IH]; intros m Hm Hs Hall Hes; cbn [run fold_left].
  - auto.
  - cbn [forallb] in Hes. apply andb_true_iff in Hes as [He Hes].
    destruct (step_after_cleanup m e Hm Hs) as (Hm' & Hs' & Hf).
    destruct (step_released m e Hs Hall He) as (Hscreen & Hall').
    destruct (IH (step m e) Hm' Hs' Hall' Hes) as (H1 & H2 & H3 & H4).
    unfold run in *. rewrite H1, H2, Hscreen, (Hf He). auto.
Qed.

Lemma nth_error_detach ts i t :
  nth_error ts i = Some t ->
  nth_error (map detach ts) i = Some (detach t).
Proof. intros H. now rewrite nth_error_map, H. Qed.

(** C4. Once the cleanup has run, nothing that comes from the gateway
    updates the state of the screen or calls [fetchConversations]. A
    refetch that was in flight is not cancelled: the answer of [getUser]
    lets it issue its query and the answer of the query lets it run to
    its end and write its log, and the list, the flags and the error it
    stores are discarded, the component being unmounted. Change events
    start nothing: the released channels deliver none, and the callbacks
    check [mounted]. *)
Theorem no_state_update_after_cleanup :
  forall (m : Machine),
    (forall es,
       forallb fromGateway es = true ->
       screen (world (run (unmount m) es)) = screen (world m) /\
       fetches (run (unmount m) es) = fetches m /\
       mounted (run (unmount m) es) = false /\
       subscribed (run (unmount m) es) = []) /\
    (forall i init userId resp,
       nth_error (tasks m) i = Some (AwaitQuery init userId) ->
       screen (world (step (unmount m) (QueryAnswered i resp))) =
         screen (world m) /\
       console (world (step (unmount m) (QueryAnswered i resp))) =
         console (snd (fetchConversations_onQuery resp (world m))) /\
       tasks (step (unmount m) (QueryAnswered i resp)) =
         replaceTask i (map Detached (afterFetch init)) (tasks (unmount m))) /\
    (forall i init uid,
       nth_error (tasks m) i = Some (AwaitUser init) ->
       uid <> "" ->
       screen (world (step (unmount m)
                        (UserAnswered i (AuthAnswer false (Some uid))))) =
         screen (world m) /\
       tasks (step (unmount m) (UserAnswered i (AuthAnswer false (Some uid)))) =
         replaceTask i [Detached (AwaitQuery init uid)] (tasks (unmount m))) /\
    (forall ch,
       step (unmount m) (ChangeEvent ch) = unmount m /\
       fetches (onChange ch (unmount m)) = fetches m /\
       tasks (onChange ch (unmount m)) = tasks (unmount m) /\
       screen (world (onChange ch (unmount m))) = screen (world m)) /\
    (forall c, step (unmount m) (RowChanged c) = unmount m).
Proof.
  intros m. split; [|split; [|split; [|split]]].
  - intros es Hes.
    apply (run_released es (unmount m)); try reflexivity; try assumption.
    apply detach_all.
  - intros i init userId resp Hnth.
    cbn [step unmount tasks]. rewrite (nth_error_detach _ _ _ Hnth).
    cbn [detach]. unfold resumeQueryDetached, discarding, withTasks, exec.
    change (world (unmount m)) with (world m).
    rewrite (surjective_pairing (fetchConversations_onQuery resp (world m))).
    rewrite fetchConversations_onQuery_safe.
    repeat split.
  - intros i init uid Hnth Huid.
    cbn [step unmount tasks]. rewrite (nth_error_detach _ _ _ Hnth).
    cbn [detach]. unfold resumeUserDetached, discarding, withTasks, exec.
    change (world (unmount m)) with (world m).
    rewrite (surjective_pairing
               (fetchConversations_onUser (AuthAnswer false (Some uid)) (world m))).
    rewrite (fetchConversations_onUser_issues uid (world m) Huid).
    split; reflexivity.
  - intros ch. apply no_refetch_after_release.
  - intros c. reflexivity.
Qed.

(** The screen is left while a refetch is in flight (the cleanup is the
    last event of [leftDuringRefetch]), and the query then answers with
    a conversation: the stored list is as it was, empty. *)
Lemma no_state_update_after_cleanup_witness :
  conversations
    (screen (world (run (unmount (run (mount initialWorld)
                                    (removelast leftDuringRefetch)))
                      [lateAnswer]))) = [].
Proof.
  exact (f_equal conversations
           (proj1 (proj1 (no_state_update_after_cleanup
                            (run (mount initialWorld)
                               (removelast leftDuringRefetch)))
                     [lateAnswer] eq_refl))).
Defined.

End Refetch.

(** ** Starting a conversation: every gateway behaviour *)

Section StartConversationOutcomes.
Import Js Comp NewMessageScreen.

Lemma selectSingle_any g w c other :
  exists answer,
    selectSingle g c other w = (Ok answer, w) /\
    (forall r, fst answer = Some r ->
               r = {| conversation_id := c; user_id := other |} /\
               In r (conversation_participants (db w))).
Proof.
  unfold selectSingle, bind, gets.
  destruct (lookupFails g c).
  - eexists. split; [reflexivity|]. intros r H. discriminate H.
  - destruct (filter (isRow c other) (conversation_participants (db w)))
      as [|r [|r' rest]] eqn:Hf;
      eexists; (split; [reflexivity|]); intros r0 H; try discriminate H.
    injection H as <-.
    assert (In r (filter (isRow c other) (conversation_participants (db w))))
      as Hin by (rewrite Hf; now left).
    apply filter_In in Hin as [Hin Hrow]. apply isRow_true in Hrow. now split.
Qed.

(** The loop never throws and never touches the state; what it returns
    is [null] or the id of a conversation of one of the given rows in
    which the other user has a row. *)
Lemma findExisting_any g other existing w :
  exists v,
    findExisting g other existing w = (Ok v, w) /\
    (v = null \/
     exists r, In r existing /\ v = str (conversation_id r) /\
               In {| conversation_id := conversation_id r; user_id := other |}
                  (conversation_participants (db w))).
Proof.
  induction existing as [|p rest IH]; cbn [findExisting].
  - exists null. split; [reflexivity | now left].
  - unfold bind at 1.
    destruct (selectSingle_any g w (conversation_id p) other) as (answer & -> & Hans).
    cbv beta iota.
    destruct (fst answer) as [r|] eqn:Hr.
    + destruct (Hans r eq_refl) as [-> Hin]. cbn [conversation_id].
      eexists. split; [reflexivity|]. right. exists p.
      split; [now left|]. split; [reflexivity | assumption].
    + destruct IH as (v & -> & Hv). exists v. split; [reflexivity|].
      destruct Hv as [->|(r & Hin & -> & Hother)]; [now left|].
      right. exists r. split; [now right|]. now split.
Qed.

Lemma lookForExisting_any g other existing w :
  exists v,
    lookForExisting g other existing w = (Ok v, w) /\
    (v = null \/
     exists rows r, existing = Some rows /\ In r rows /\
                    v = str (conversation_id r) /\
                    In {| conversation_id := conversation_id r; user_id := other |}
                       (conversation_participants (db w))).
Proof.
  unfold lookForExisting.
  destruct existing as [[|p rest]|];
    try (exists null; split; [reflexivity | now left]).
  destruct (findExisting_any g other (p :: rest) w) as (v & -> & Hv).
  exists v. split; [reflexivity|].
  destruct Hv as [->|(r & Hin & -> & Hother)]; [now left|].
  right. exists (p :: rest), r. auto.
Qed.

(** What the statements after the early return leave behind. *)
Lemma createNew_any g d viewer other :
  snd (try_catch (createNew g viewer other)
         (fun _ => bind (console_error "Error starting conversation:")
                     (fun _ => setError (str "Failed to start conversation")))
         (before d)) =
  if insertConversationFails g then
    {| db := d; error := str "Failed to start conversation"; pushed := [];
       console := ["Error starting conversation:"] |}
  else if insertParticipantsFails g then
    {| db := {| conversations := conversations d ++ [generatedId g];
                conversation_participants := conversation_participants d |};
       error := str "Failed to start conversation"; pushed := [];
       console := ["Error starting conversation:"] |}
  else
    {| db := withConversation d (generatedId g) viewer other; error := null;
       pushed := [("/messages/" ++ generatedId g)%string]; console := [] |}.
Proof.
  unfold try_catch, createNew, insertConversation, insertParticipants, bind, gets.
  destruct (insertConversationFails g); [reflexivity|].
  cbv beta iota. unfold setDb, modify, ret. cbv beta iota. cbn [snd fst db].
  destruct (insertParticipantsFails g); reflexivity.
Qed.

(** A call by a signed-in viewer whose first select is answered. *)
Lemma startConversation_select_ok g d viewer other :
  sessionUser g = Some viewer ->
  selectFails g = false ->
  after g d other =
  snd (try_catch
         (bind (lookForExisting g other
                  (Some (filter (fun r => user_id r =? viewer)
                                (conversation_participants d))))
               (fun existingConversationId =>
                  if truthy existingConversationId
                  then router_push ("/messages/" ++ show existingConversationId)
                  else createNew g viewer other))
         (fun _ => bind (console_error "Error starting conversation:")
                     (fun _ => setError (str "Failed to start conversation")))
         (before d)).
Proof.
  intros Hsession Hselect.
  unfold after, startConversation. rewrite Hsession.
  unfold try_catch. unfold bind at 1 4. unfold selectByUser, bind at 1, gets.
  rewrite Hselect. reflexivity.
Qed.

Lemma startConversation_found g d viewer other v :
  sessionUser g = Some viewer ->
  selectFails g = false ->
  lookForExisting g other
    (Some (filter (fun r => user_id r =? viewer) (conversation_participants d)))
    (before d) = (Ok v, before d) ->
  truthy v = true ->
  after g d other =
  {| db := d; error := null; pushed := [("/messages/" ++ show v)%string];
     console := [] |}.
Proof.
  intros Hsession Hselect Hlook Htruthy.
  rewrite (startConversation_select_ok g d viewer other Hsession Hselect).
  unfold try_catch, bind at 1. rewrite Hlook, Htruthy. reflexivity.
Qed.

(** Without a conversation to open, a call is what the inserts do. *)
Lemma startConversation_not_found g d viewer other v :
  sessionUser g = Some viewer ->
  selectFails g = false ->
  lookForExisting g other
    (Some (filter (fun r => user_id r =? viewer) (conversation_participants d)))
    (before d) = (Ok v, before d) ->
  truthy v = false ->
  after g d other =
  if insertConversationFails g then
    {| db := d; error := str "Failed to start conversation"; pushed := [];
       console := ["Error starting conversation:"] |}
  else if insertParticipantsFails g then
    {| db := {| conversations := conversations d ++ [generatedId g];
                conversation_participants := conversation_participants d |};
       error := str "Failed to start conversation"; pushed := [];
       console := ["Error starting conversation:"] |}
  else
    {| db := withConversation d (generatedId g) viewer other; error := null;
       pushed := [("/messages/" ++ generatedId g)%string]; console := [] |}.
Proof.
  intros Hsession Hselect Hlook Hfalsy.
  rewrite (startConversation_select_ok g d viewer other Hsession Hselect).
  rewrite <- (createNew_any g d viewer other).
  unfold try_catch, bind at 1. rewrite Hlook, Hfalsy. reflexivity.
Qed.

Lemma viewer_row_shared d viewer other r :
  In r (filter (fun r => user_id r =? viewer) (conversation_participants d)) ->
  In {| conversation_id := conversation_id r; user_id := other |}
     (conversation_participants d) ->
  sharedBy d viewer other (conversation_id r).
Proof.
  intros Hin Hother. apply filter_In in Hin as [Hin Huser].
  apply String.eqb_eq in Huser. split; [|assumption].
  destruct r as [c u]. cbn [user_id conversation_id] in *. now subst u.
Qed.

(** The four ways a call can end, whatever the gateway does. It either
    changes nothing and reports an error; or changes nothing and opens
    one existing conversation, in which the viewer and the other user
    both have a row; or leaves a conversation row without participants
    and reports an error; or adds the conversation with its two
    participants and opens it. It never removes a row, never opens more
    than one conversation, and never both opens one and reports an
    error. *)
Theorem startConversation_outcomes :
  forall (g : Gateway) (d : Database) (other : string),
    (db (after g d other) = d /\ pushed (after g d other) = [] /\
     truthy (error (after g d other)) = true) \/
    (db (after g d other) = d /\ error (after g d other) = null /\
     exists viewer c,
       sessionUser g = Some viewer /\ sharedBy d viewer other c /\
       pushed (after g d other) = [("/messages/" ++ c)%string]) \/
    (db (after g d other) =
       {| conversations := conversations d ++ [generatedId g];
          conversation_participants := conversation_participants d |} /\
     pushed (after g d other) = [] /\
     error (after g d other) = str "Failed to start conversation") \/
    (exists viewer,
       sessionUser g = Some viewer /\
       db (after g d other) = withConversation d (generatedId g) viewer other /\
       pushed (after g d other) = [("/messages/" ++ generatedId g)%string] /\
       error (after g d other) = null).
Proof.
  intros g d other.
  destruct (sessionUser g) as [viewer|] eqn:Hsession.
  2:{ left. unfold after, startConversation. rewrite Hsession.
      split; [reflexivity|]. split; reflexivity. }
  destruct (selectFails g) eqn:Hselect.
  { left. unfold after, startConversation. rewrite Hsession.
    unfold try_catch, bind at 1. unfold selectByUser, bind, gets.
    rewrite Hselect. split; [reflexivity|]. split; reflexivity. }
  destruct (lookForExisting_any g other
              (Some (filter (fun r => user_id r =? viewer)
                            (conversation_participants d)))
              (before d)) as (v & Hlook & Hv).
  destruct (truthy v) eqn:Htruthy.
  - rewrite (startConversation_found g d viewer other v Hsession Hselect
               Hlook Htruthy).
    destruct Hv as [->|(rows & r & Hrows & Hin & -> & Hother)]; [discriminate|].
    right. left. cbn [db error pushed show].
    split; [reflexivity|]. split; [reflexivity|].
    exists viewer, (conversation_id r). split; [reflexivity|].
    split; [|reflexivity].
    injection Hrows as <-. now apply viewer_row_shared.
  - rewrite (startConversation_not_found g d viewer other v Hsession Hselect
               Hlook Htruthy).
    destruct (insertConversationFails g).
    + left. split; [reflexivity|]. split; reflexivity.
    + destruct (insertParticipantsFails g).
      * right. right. left. split; [reflexivity|]. split; reflexivity.
      * right. right. right. exists viewer.
        split; [reflexivity|]. split; [reflexivity|]. split; reflexivity.
Qed.

Lemma lookForExisting_unshared g d viewer other :
  ~ (exists c, sharedBy d viewer other c) ->
  lookForExisting g other
    (Some (filter (fun r => user_id r =? viewer) (conversation_participants d)))
    (before d) = (Ok null, before d).
Proof.
  intros Hnone.
  destruct (lookForExisting_any g other
              (Some (filter (fun r => user_id r =? viewer)
                            (conversation_participants d)))
              (before d)) as (v & Hrun & Hv).
  destruct Hv as [->|(rows & r & Hrows & Hin & -> & Hother)]; [assumption|].
  exfalso. apply Hnone. exists (conversation_id r).
  injection Hrows as <-. now apply viewer_row_shared.
Qed.

(** A conversation without participants is left behind when the second
    insert fails: for a signed-in viewer who shares no conversation with
    the other user, if the conversation row is inserted and the insert
    of the participants is answered with an error, the new row stays,
    no participant row is added, nothing is opened and the error state
    says that the conversation could not be started. *)
Theorem startConversation_leaves_orphan :
  forall (g : Gateway) (d : Database) (viewer other : string),
    sessionUser g = Some viewer ->
    selectFails g = false ->
    ~ (exists c, sharedBy d viewer other c) ->
    insertConversationFails g = false ->
    insertParticipantsFails g = true ->
    conversations (db (after g d other)) = conversations d ++ [generatedId g] /\
    conversation_participants (db (after g d other)) =
      conversation_participants d /\
    pushed (after g d other) = [] /\
    error (after g d other) = str "Failed to start conversation".
Proof.
  intros g d viewer other Hsession Hselect Hnone Hconv Hparts.
  rewrite (startConversation_not_found g d viewer other null Hsession Hselect
             (lookForExisting_unshared g d viewer other Hnone) eq_refl).
  rewrite Hconv, Hparts. repeat split.
Qed.

(** The second insert fails on an empty database. *)
Lemma startConversation_leaves_orphan_witness :
  conversations
    (db (after {| sessionUser := Some "u1"; selectFails := false;
                  lookupFails := fun _ => false;
                  insertConversationFails := false;
                  insertParticipantsFails := true; generatedId := "c9" |}
               emptyDatabase "u2")) = ["c9"].
Proof.
  apply (startConversation_leaves_orphan
           {| sessionUser := Some "u1"; selectFails := false;
              lookupFails := fun _ => false;
              insertConversationFails := false;
              insertParticipantsFails := true; generatedId := "c9" |}
           emptyDatabase "u1" "u2").
  - reflexivity.
  - reflexivity.
  - intros (c & [] & _).
  - reflexivity.
  - reflexivity.
Defined.

Lemma findExisting_all_fail g other existing w :
  (forall c, lookupFails g c = true) ->
  findExisting g other existing w = (Ok null, w).
Proof.
  intros Hfail. induction existing as [|p rest IH]; [reflexivity|].
  cbn [findExisting]. unfold bind at 1. unfold selectSingle, bind, gets.
  rewrite Hfail. cbv beta iota. unfold ret at 1. cbn [fst]. apply IH.
Qed.

(** The answer of the membership lookup is read for its data only, so
    a lookup that fails counts as "no such participant": when every
    lookup is answered with an error and the inserts succeed, a new
    conversation is created even if the two users already share one. *)
Theorem startConversation_duplicates_on_failed_lookup :
  forall (g : Gateway) (d : Database) (viewer other : string),
    sessionUser g = Some viewer ->
    selectFails g = false ->
    (forall c, lookupFails g c = true) ->
    insertConversationFails g = false ->
    insertParticipantsFails g = false ->
    db (after g d other) = withConversation d (generatedId g) viewer other /\
    pushed (after g d other) = [("/messages/" ++ generatedId g)%string].
Proof.
  intros g d viewer other Hsession Hselect Hfail Hconv Hparts.
  assert (lookForExisting g other
            (Some (filter (fun r => user_id r =? viewer)
                          (conversation_participants d)))
            (before d) = (Ok null, before d)) as Hlook.
  { unfold lookForExisting.
    destruct (filter _ (conversation_participants d)); [reflexivity|].
    now apply findExisting_all_fail. }
  rewrite (startConversation_not_found g d viewer other null Hsession Hselect
             Hlook eq_refl).
  rewrite Hconv, Hparts. split; reflexivity.
Qed.

(** Ann and Bob share "c1"; with failing lookups "c9" is added. *)
Lemma startConversation_duplicates_on_failed_lookup_witness :
  conversations
    (db (after {| sessionUser := Some "u1"; selectFails := false;
                  lookupFails := fun _ => true;
                  insertConversationFails := false;
                  insertParticipantsFails := false; generatedId := "c9" |}
               {| conversations := ["c1"];
                  conversation_participants :=
                    [ {| conversation_id := "c1"; user_id := "u1" |};
                      {| conversation_id := "c1"; user_id := "u2" |} ] |}
               "u2")) = ["c1"; "c9"].
Proof.
  apply (f_equal conversations
           (proj1 (startConversation_duplicates_on_failed_lookup
                     {| sessionUser := Some "u1"; selectFails := false;
                        lookupFails := fun _ => true;
                        insertConversationFails := false;
                        insertParticipantsFails := false; generatedId := "c9" |}
                     {| conversations := ["c1"];
                        conversation_participants :=
                          [ {| conversation_id := "c1"; user_id := "u1" |};
                            {| conversation_id := "c1"; user_id := "u2" |} ] |}
                     "u1" "u2" eq_refl eq_refl (fun _ => eq_refl) eq_refl eq_refl))).
Defined.

(** Starting a conversation twice creates it once. After a call that
    created a conversation between two different users, a second call
    for the same pair, answered by any gateway that answers every
    request, finds that conversation: it opens it and changes no
    table. *)
Theorem startConversation_twice :
  forall (g g' : Gateway) (d : Database) (viewer other : string),
    sessionUser g = Some viewer -> answersAll g ->
    sessionUser g' = Some viewer -> answersAll g' ->
    wellFormed d ->
    viewer <> other ->
    generatedId g <> "" ->
    (forall r, In r (conversation_participants d) ->
               conversation_id r <> generatedId g) ->
    ~ (exists c, sharedBy d viewer other c) ->
    db (after g' (db (after g d other)) other) = db (after g d other) /\
    pushed (after g' (db (after g d other)) other) =
      [("/messages/" ++ generatedId g)%string].
Proof.
  intros g g' d viewer other Hsession Hanswers Hsession' Hanswers' Hwf
         Hdiff Hid Hfresh Hnone.
  assert (db (after g d other) = withConversation d (generatedId g) viewer other)
    as Hfirst.
  { rewrite (startConversation_run g d viewer other Hsession Hanswers Hwf).
    destruct (find _ _) as [r|] eqn:Hfind; [|reflexivity].
    exfalso. apply Hnone. exists (conversation_id r).
    now apply find_hasOther_shared. }
  rewrite Hfirst.
  set (d' := withConversation d (generatedId g) viewer other).
  assert (wellFormed d') as Hwf'.
  { destruct Hwf as [Hnodup Hids]. split.
    - unfold d', withConversation. cbn [conversation_participants].
      apply NoDup_app; [assumption | | ].
      + constructor; [|constructor; [intros [] | constructor]].
        intros [H|[]]. injection H as H. congruence.
      + intros r Hin [<-|[<-|[]]]; now apply (Hfresh _ Hin).
    - intros r Hin. unfold d', withConversation in Hin.
      cbn [conversation_participants] in Hin.
      apply in_app_or in Hin as [Hin|[<-|[<-|[]]]]; auto. }
  rewrite (startConversation_run g' d' viewer other Hsession' Hanswers' Hwf').
  destruct (find _ _) as [r|] eqn:Hfind.
  - cbn [db pushed]. split; [reflexivity|].
    apply find_hasOther_shared in Hfind as [Hv Ho].
    unfold d', withConversation in Hv, Ho. cbn [conversation_participants] in Hv, Ho.
    apply in_app_or in Hv as [Hv|[Hv|[Hv|[]]]];
      apply in_app_or in Ho as [Ho|[Ho|[Ho|[]]]];
      try (injection Hv as Hv1 Hv2); try (injection Ho as Ho1 Ho2);
      try congruence.
    exfalso. apply Hnone. exists (conversation_id r). now split.
  - exfalso. apply find_hasOther_unshared in Hfind. apply Hfind.
    exists (generatedId g). unfold d', withConversation, sharedBy.
    cbn [conversation_participants]. split; apply in_or_app; right.
    + now left.
    + right. now left.
Qed.

(** Ann starts a conversation with Bob twice. *)
Lemma startConversation_twice_witness :
  pushed (after {| sessionUser := Some "u1"; selectFails := false;
                   lookupFails := fun _ => false;
                   insertConversationFails := false;
                   insertParticipantsFails := false; generatedId := "c10" |}
                (db (after {| sessionUser := Some "u1"; selectFails := false;
                              lookupFails := fun _ => false;
                              insertConversationFails := false;
                              insertParticipantsFails := false;
                              generatedId := "c9" |}
                           emptyDatabase "u2"))
                "u2") = ["/messages/c9"].
Proof.
  apply (startConversation_twice
           {| sessionUser := Some "u1"; selectFails := false;
              lookupFails := fun _ => false;
              insertConversationFails := false;
              insertParticipantsFails := false; generatedId := "c9" |}
           {| sessionUser := Some "u1"; selectFails := false;
              lookupFails := fun _ => false;
              insertConversationFails := false;
              insertParticipantsFails := false; generatedId := "c10" |}
           emptyDatabase "u1" "u2").
  - reflexivity.
  - repeat split.
  - reflexivity.
  - repeat split.
  - split; [constructor | intros r []].
  - discriminate.
  - discriminate.
  - intros r [].
  - intros (c & [] & _).
Defined.

End StartConversationOutcomes.

(** ** The rankings *)

Section Rankings.
Import Js Comp RankingsScreen.

Lemma fetchData_onChallenges_keeps_error resp s :
  truthy (error s) = true ->
  truthy (error (snd (fetchData_onChallenges resp s))) = true.
Proof.
  intros Herr. destruct resp as [|[[|c rest]|] [|]]; try reflexivity; exact Herr.
Qed.

Lemma fetchData_onProgress_keeps_error resp s :
  truthy (error s) = true ->
  truthy (error (snd (fetchData_onProgress resp s))) = true.
Proof.
  intros Herr. destruct resp as [|[d|] [|]]; try reflexivity; exact Herr.
Qed.

Lemma step_keeps_error m e :
  truthy (error (screen m)) = true ->
  truthy (error (screen (step m e))) = true.
Proof.
  intros Herr. destruct e as [i resp|i resp| |]; cbn [step].
  - destruct (nth_error (tasks m) i) as [[|c]|]; try assumption.
    destruct (fst (fetchData_onChallenges resp (screen m))) as [[|c]|ex];
      cbn [withTasks exec screen];
      now apply fetchData_onChallenges_keeps_error.
  - destruct (nth_error (tasks m) i) as [[|c]|]; try assumption.
    cbn [withTasks exec screen]. now apply fetchData_onProgress_keeps_error.
  - destruct (isErrorView _); assumption.
  - destruct (isRankings _); assumption.
Qed.

(** Nothing on the rankings screen clears the error state. Once a
    message is there it stays through every later answer, retry and
    refresh, so the rankings are not shown again on this instance, even
    after a retry whose two queries succeed. *)
Theorem rankings_error_is_never_cleared :
  forall (es : list Event) (m : Machine),
    truthy (error (screen m)) = true ->
    truthy (error (screen (run m es))) = true /\
    isRankings (render (screen (run m es))) = false.
Proof.
  intros es m Herr.
  assert (truthy (error (screen (run m es))) = true) as Hkept.
  { revert m Herr. induction es as [|e es IH]; intros m Herr; [exact Herr|].
    cbn [run fold_left]. apply IH. now apply step_keeps_error. }
  split; [assumption|].
  unfold render. destruct (loading _); [reflexivity|]. now rewrite Hkept.
Qed.

(** The first load is rejected; the retry gets the challenge and its
    progress, and the screen still shows the failure. *)
Lemma rankings_error_is_never_cleared_witness :
  render (screen (run mount
                    [ChallengesAnswered 0 Rejects;
                     PressTryAgain;
                     ChallengesAnswered 0
                       (Answers (Some [ {| id := "ch1"; unit_label := "km";
                                           target_value := 100 |} ]) false);
                     ProgressAnswered 0 (Answers (Some []) false)])) =
  ErrorView (str "Failed to load rankings") /\
  isRankings
    (render (screen (run mount
                       [ChallengesAnswered 0 Rejects;
                        PressTryAgain;
                        ChallengesAnswered 0
                          (Answers (Some [ {| id := "ch1"; unit_label := "km";
                                              target_value := 100 |} ]) false);
                        ProgressAnswered 0 (Answers (Some []) false)]))) = false.
Proof.
  split; [reflexivity|].
  apply (rankings_error_is_never_cleared
           [PressTryAgain;
            ChallengesAnswered 0
              (Answers (Some [ {| id := "ch1"; unit_label := "km";
                                  target_value := 100 |} ]) false);
            ProgressAnswered 0 (Answers (Some []) false)]
           (step mount (ChallengesAnswered 0 Rejects))).
  reflexivity.
Defined.

(** The first load. When the challenges query answers with at least
    one challenge, the progress query is made for the first of them,
    and once that answers the screen shows this challenge with the
    progress rows in the order of the answer, an absent list as an empty
    one. When the challenges query answers with none, no progress query
    is made and the screen shows "No active challenge found". *)
Theorem rankings_first_load :
  forall (first : Challenge) (rest : list Challenge)
         (data : option (list Progress)),
    tasks (run mount [ChallengesAnswered 0 (Answers (Some (first :: rest)) false)]) =
      [AwaitProgress (id first)] /\
    render (screen (run mount
                      [ChallengesAnswered 0 (Answers (Some (first :: rest)) false);
                       ProgressAnswered 0 (Answers data false)])) =
      Rankings first (match data with Some rows => rows | None => [] end) /\
    tasks (run mount
             [ChallengesAnswered 0 (Answers (Some (first :: rest)) false);
              ProgressAnswered 0 (Answers data false)]) = [] /\
    (forall none,
       none = None \/ none = Some [] ->
       tasks (run mount [ChallengesAnswered 0 (Answers none false)]) = [] /\
       render (screen (run mount [ChallengesAnswered 0 (Answers none false)])) =
         ErrorView (str "No active challenge found")).
Proof.
  intros first rest data. split; [reflexivity|].
  split; [destruct data; reflexivity|].
  split; [reflexivity|].
  intros none [-> | ->]; split; reflexivity.
Qed.

(** No challenge is active. *)
Lemma rankings_first_load_witness :
  render (screen (run mount [ChallengesAnswered 0 (Answers (Some []) false)])) =
  ErrorView (str "No active challenge found").
Proof.
  apply (proj2 (proj2 (proj2 (rankings_first_load
                                {| id := "ch1"; unit_label := "km";
                                   target_value := 100 |} [] None)))
           (Some [])).
  right. reflexivity.
Defined.

End Rankings.

(** ** The search for people *)

Section Search.
Import Js Comp ProfileSearch.

(** Typing decides between searching and clearing, by the length of
    the text in UTF-16 code units. A query shorter than two empties the
    list at once and starts no search, but does not stop one that is in
    flight: when that one answers, its profiles are shown under the
    short query. A query of length two or more starts exactly one search
    for that text and keeps the list until the answer comes. A single
    character of the basic plane is short, whatever its bytes; a single
    character beyond it has length two and is searched. *)
Theorem typing_searches_or_clears :
  forall (m : Machine) (text : string),
    text <> searchQuery (screen m) ->
    ((Utf16.length text < 2)%nat ->
     profiles (screen (step m (TypeQuery text))) = [] /\
     tasks (step m (TypeQuery text)) = tasks m /\
     (forall i request data,
        nth_error (tasks m) i = Some (AwaitProfiles request) ->
        profiles (screen (run m [TypeQuery text;
                                 ProfilesAnswered i
                                   (ProfilesAnswer (Some data) false)])) = data)) /\
    ((2 <= Utf16.length text)%nat ->
     profiles (screen (step m (TypeQuery text))) = profiles (screen m) /\
     loading (screen (step m (TypeQuery text))) = true /\
     tasks (step m (TypeQuery text)) = tasks m ++ [AwaitUser text]) /\
    (Utf16.length Utf16.sun < 2)%nat /\
    (2 <= Utf16.length Utf16.grin)%nat.
Proof.
  intros m text Hnew. apply String.eqb_neq in Hnew.
  split; [|split; [|split; [cbn; lia | cbn; lia]]].
  - intros Hshort. apply Nat.leb_gt in Hshort.
    assert (step m (TypeQuery text) =
            {| screen := {| searchQuery := text; profiles := [];
                            loading := loading (screen m);
                            error := error (screen m) |};
               tasks := tasks m |}) as Hstep.
    { cbn [step]. rewrite Hnew. unfold onSearchQuery.
      cbn [exec screen setSearchQuery modify snd searchQuery]. now rewrite Hshort. }
    rewrite Hstep. repeat split.
    intros i request data Htask. cbn [run fold_left]. rewrite Hstep.
    cbn [step tasks]. rewrite Htask. reflexivity.
  - intros Hlong. apply Nat.leb_le in Hlong.
    cbn [step]. rewrite Hnew. unfold onSearchQuery.
    cbn [exec screen setSearchQuery modify snd searchQuery]. rewrite Hlong.
    repeat split.
Qed.

(** "bo" is being searched when the query is replaced by the single
    character U+65E5: the list is emptied. *)
Lemma typing_searches_or_clears_witness :
  profiles (screen (step {| screen := {| searchQuery := "bo"; profiles := [];
                                         loading := true; error := null |};
                            tasks := [AwaitProfiles {| excluded_id := "u1";
                                                       pattern := "%bo%";
                                                       limit := 20 |}] |}
                         (TypeQuery Utf16.sun))) = [].
Proof.
  refine (proj1 (proj1 (typing_searches_or_clears
                          {| screen := {| searchQuery := "bo"; profiles := [];
                                          loading := true; error := null |};
                             tasks := [AwaitProfiles {| excluded_id := "u1";
                                                        pattern := "%bo%";
                                                        limit := 20 |}] |}
                          Utf16.sun _) _)).
  - discriminate.
  - cbn. lia.
Defined.

End Search.

(** ** The conversation screen *)

Section ThreadFacts.
Import Js Comp MessagesScreen DirectMessageThread.

(** Sending is guarded. A press does nothing when the text is blank
    after trimming or when a send is running; otherwise it takes the
    text as it is, turns [sending] on and sends nothing yet, so that a
    second press before the answer does nothing. *)
Theorem handleSend_press_once :
  forall (trim : string -> string) (w : DirectMessageThread.World),
    ((trim (newMessage (DirectMessageThread.screen w)) = "" \/
      sending (DirectMessageThread.screen w) = true) ->
     handleSend_press trim w = (Ok None, w)) /\
    (trim (newMessage (DirectMessageThread.screen w)) <> "" ->
     sending (DirectMessageThread.screen w) = false ->
     fst (handleSend_press trim w) =
       Ok (Some (newMessage (DirectMessageThread.screen w))) /\
     sending (DirectMessageThread.screen (snd (handleSend_press trim w))) = true /\
     requests (snd (handleSend_press trim w)) = requests w /\
     handleSend_press trim (snd (handleSend_press trim w)) =
       (Ok None, snd (handleSend_press trim w))).
Proof.
  intros trim w. split.
  - intros Hguard. unfold handleSend_press, bind, gets. cbv beta iota.
    destruct Hguard as [-> | ->]; [reflexivity|].
    now rewrite orb_true_r.
  - intros Htext Hidle. apply String.eqb_neq in Htext.
    unfold handleSend_press, bind, gets. cbv beta iota.
    rewrite Htext, Hidle. cbn. rewrite orb_true_r. repeat split.
Qed.

(** "hello" is typed and the button is pressed twice. *)
Lemma handleSend_press_once_witness :
  fst (handleSend_press (fun s => s)
         (snd (handleSend_press (fun s => s)
                 {| DirectMessageThread.screen :=
                      {| messages := []; newMessage := "hello"; loading := false;
                         sending := false; participants := [];
                         DirectMessageThread.error := null;
                         DirectMessageThread.currentUserId := str "u1" |};
                    requests := [] |}))) = Ok None.
Proof.
  refine (f_equal fst
            (proj2 (proj2 (proj2
               (proj2 (handleSend_press_once (fun s => s)
                         {| DirectMessageThread.screen :=
                              {| messages := []; newMessage := "hello";
                                 loading := false; sending := false;
                                 participants := [];
                                 DirectMessageThread.error := null;
                                 DirectMessageThread.currentUserId := str "u1" |};
                            requests := [] |}) _ _))))).
  - discriminate.
  - reflexivity.
Defined.

(** What a send does. With a signed-in user exactly one row is sent,
    for this conversation and this user, whose content is the pressed
    text trimmed. A positive answer empties the input, whatever has
    been typed since the press, and a negative one keeps the input and
    reports "Failed to send message"; without a user nothing is sent
    and the same message is reported. [sending] is off after each of
    these ends. *)
Theorem handleSend_outcome :
  forall (trim : string -> string) (conversationId text : string)
         (w : DirectMessageThread.World),
    (forall uid,
       fst (handleSend_onUser trim conversationId text (AuthAnswer (Some uid)) w) =
         Ok AwaitingInsert /\
       requests (snd (handleSend_onUser trim conversationId text
                        (AuthAnswer (Some uid)) w)) =
         requests w ++ [ {| conversation_id := conversationId;
                            insert_sender_id := uid;
                            insert_content := trim text |} ] /\
       DirectMessageThread.screen
         (snd (handleSend_onUser trim conversationId text
                 (AuthAnswer (Some uid)) w)) = DirectMessageThread.screen w) /\
    (forall resp,
       resp = AuthRejects \/ resp = AuthAnswer None ->
       fst (handleSend_onUser trim conversationId text resp w) = Ok Done /\
       requests (snd (handleSend_onUser trim conversationId text resp w)) =
         requests w /\
       DirectMessageThread.error
         (DirectMessageThread.screen
            (snd (handleSend_onUser trim conversationId text resp w))) =
         str "Failed to send message" /\
       sending (DirectMessageThread.screen
                  (snd (handleSend_onUser trim conversationId text resp w))) =
         false /\
       newMessage (DirectMessageThread.screen
                     (snd (handleSend_onUser trim conversationId text resp w))) =
         newMessage (DirectMessageThread.screen w)) /\
    (newMessage (DirectMessageThread.screen (snd (handleSend_onInsert false w))) = "" /\
     sending (DirectMessageThread.screen (snd (handleSend_onInsert false w))) = false /\
     DirectMessageThread.error
       (DirectMessageThread.screen (snd (handleSend_onInsert false w))) =
       DirectMessageThread.error (DirectMessageThread.screen w) /\
     messages (DirectMessageThread.screen (snd (handleSend_onInsert false w))) =
       messages (DirectMessageThread.screen w)) /\
    (newMessage (DirectMessageThread.screen (snd (handleSend_onInsert true w))) =
       newMessage (DirectMessageThread.screen w) /\
     sending (DirectMessageThread.screen (snd (handleSend_onInsert true w))) = false /\
     DirectMessageThread.error
       (DirectMessageThread.screen (snd (handleSend_onInsert true w))) =
       str "Failed to send message").
Proof.
  intros trim cid text w. split; [|split; [|split]].
  - intros uid. repeat split.
  - intros resp [-> | ->]; repeat split.
  - repeat split.
  - repeat split.
Qed.

(** Nobody is signed in: nothing is sent. *)
Lemma handleSend_outcome_witness :
  requests (snd (handleSend_onUser (fun s => s) "c1" " hi " (AuthAnswer None)
                   {| DirectMessageThread.screen := initialScreen;
                      requests := [] |})) = [].
Proof.
  apply (handleSend_outcome (fun s => s) "c1" " hi "
           {| DirectMessageThread.screen := initialScreen; requests := [] |}).
  right. reflexivity.
Defined.

(** The messages that a sequence of change events leaves. *)
Lemma onInsert_fold payloads : forall w,
  messages (DirectMessageThread.screen
              (fold_left (fun w0 payload => snd (onInsert payload w0)) payloads w)) =
  rev payloads ++ messages (DirectMessageThread.screen w).
Proof.
  induction payloads as [|p payloads IH]; intros w; [reflexivity|].
  cbn [fold_left rev]. rewrite IH, <- app_assoc. reflexivity.
Qed.

(** The list is newest first and is not reconciled. Each inserted row
    that the change stream delivers is put in front of the list as it
    is, also when a message with that id is there already; an answer of
    [fetchMessages] replaces the whole list, so rows delivered before
    that answer are shown only if the answer contains them. *)
Theorem messages_are_prepended_and_replaced :
  forall (payloads : list Message) (w : DirectMessageThread.World),
    messages (DirectMessageThread.screen
                (fold_left (fun w0 payload => snd (onInsert payload w0))
                           payloads w)) =
      rev payloads ++ messages (DirectMessageThread.screen w) /\
    (forall data,
       messages (DirectMessageThread.screen
                   (snd (fetchMessages (Answers (Some data) false)
                           (fold_left (fun w0 payload => snd (onInsert payload w0))
                                      payloads w)))) = data) /\
    (forall data,
       messages (DirectMessageThread.screen
                   (fold_left (fun w0 payload => snd (onInsert payload w0))
                              payloads
                              (snd (fetchMessages (Answers (Some data) false) w)))) =
       rev payloads ++ data).
Proof.
  intros payloads w. split; [apply onInsert_fold|]. split.
  - intros data. reflexivity.
  - intros data. rewrite onInsert_fold. reflexivity.
Qed.

(** A message of the viewer needs no author; a message of somebody
    else is drawn with the author's avatar, or the placeholder, and
    cannot be drawn at all without the joined author, which is how the
    change stream delivers it. *)
Theorem renderMessage_needs_author :
  forall (formatRelativeTime : string -> string) (message : Message)
         (w : DirectMessageThread.World),
    (DirectMessageThread.currentUserId (DirectMessageThread.screen w) =
       str (sender_id message) ->
     fst (renderMessage formatRelativeTime message w) =
       Ok {| mine := true; avatar := None; text := content message;
             time := formatRelativeTime (created_at message) |}) /\
    (DirectMessageThread.currentUserId (DirectMessageThread.screen w) <>
       str (sender_id message) ->
     match DirectMessageThread.profiles message with
     | None =>
         exists msg, fst (renderMessage formatRelativeTime message w) =
                     Throw (TypeError msg)
     | Some author =>
         fst (renderMessage formatRelativeTime message w) =
           Ok {| mine := false;
                 avatar := Some (or_default (DirectMessageThread.avatar_url author)
                                            DirectMessageThread.placeholderAvatar);
                 text := content message;
                 time := formatRelativeTime (created_at message) |}
     end).
Proof.
  intros fmt message w. split.
  - intros Hme. unfold renderMessage, bind, gets. cbv beta iota.
    rewrite Hme. cbn [strict_eq]. rewrite String.eqb_refl. reflexivity.
  - intros Hother. unfold renderMessage, bind, gets. cbv beta iota.
    assert (strict_eq (str (sender_id message))
              (DirectMessageThread.currentUserId (DirectMessageThread.screen w)) =
            false) as ->.
    { destruct (strict_eq_spec (str (sender_id message))
                  (DirectMessageThread.currentUserId (DirectMessageThread.screen w)));
        [congruence | reflexivity]. }
    destruct (DirectMessageThread.profiles message); [reflexivity|].
    eexists. reflexivity.
Qed.

(** A row from the change stream, sent by "u2", on the screen of "u1". *)
Lemma renderMessage_needs_author_witness :
  exists msg,
    fst (renderMessage (fun s => s)
           {| DirectMessageThread.id := "m1"; content := "hi";
              created_at := "2025-02-17T06:05:59Z"; sender_id := "u2";
              is_read := false; DirectMessageThread.profiles := None |}
           {| DirectMessageThread.screen :=
                {| messages := []; newMessage := ""; loading := false;
                   sending := false; participants := [];
                   DirectMessageThread.error := null;
                   DirectMessageThread.currentUserId := str "u1" |};
              requests := [] |}) = Throw (TypeError msg).
Proof.
  apply (proj2 (renderMessage_needs_author (fun s => s)
                  {| DirectMessageThread.id := "m1"; content := "hi";
                     created_at := "2025-02-17T06:05:59Z"; sender_id := "u2";
                     is_read := false; DirectMessageThread.profiles := None |}
                  {| DirectMessageThread.screen :=
                       {| messages := []; newMessage := ""; loading := false;
                          sending := false; participants := [];
                          DirectMessageThread.error := null;
                          DirectMessageThread.currentUserId := str "u1" |};
                     requests := [] |})).
  discriminate.
Defined.

(** The header without another party. When every participant is the
    viewer, and so when the participants are not loaded or could not be
    loaded, the header shows the placeholder avatar, no name and a bare
    "@", and its link leads to "/profile/undefined". A failed fetch of
    the participants changes nothing on the screen. *)
Theorem renderHeader_without_other_party :
  forall (w : DirectMessageThread.World),
    ((forall q, In q (DirectMessageThread.participants (DirectMessageThread.screen w)) ->
                isViewer (DirectMessageThread.currentUserId
                            (DirectMessageThread.screen w)) q = true) ->
     renderHeader w =
       (Ok {| profileRoute := "/profile/undefined";
              headerAvatar := DirectMessageThread.placeholderAvatar;
              headerName := undefined;
              headerUsername := "@" |}, w)) /\
    (forall resp,
       resp = Rejects \/ (exists data, resp = Answers data true) ->
       fetchParticipants resp w = (Ok tt, w)).
Proof.
  intros w. split.
  - intros Hall. unfold renderHeader.
    unfold DirectMessageScreen.getOtherParticipant, bind, gets. cbv beta iota.
    cbn [headerState DirectMessageScreen.participants
         DirectMessageScreen.currentUserId].
    rewrite <- (app_nil_r (DirectMessageThread.participants
                             (DirectMessageThread.screen w))).
    rewrite findOther_skips by assumption. reflexivity.
  - intros resp [-> | [[data|] ->]]; reflexivity.
Qed.

(** The first render after the messages have come and before the
    participants have. *)
Lemma renderHeader_without_other_party_witness :
  fst (renderHeader {| DirectMessageThread.screen := initialScreen;
                       requests := [] |}) =
  Ok {| profileRoute := "/profile/undefined";
        headerAvatar := DirectMessageThread.placeholderAvatar;
        headerName := undefined;
        headerUsername := "@" |}.
Proof.
  refine (f_equal fst
            (proj1 (renderHeader_without_other_party
                      {| DirectMessageThread.screen := initialScreen;
                         requests := [] |}) _)).
  intros q [].
Defined.

End ThreadFacts.

(** ** Writing a post *)

Section PostFacts.
Import Js Comp CreatePostScreen.

Lemma prefix_app_left a b s :
  String.prefix (a ++ b) s = true -> String.prefix a s = true.
Proof.
  revert s. induction a as [|c a IH]; intros s H; [now destruct s|].
  destruct s as [|c' s]; [discriminate|].
  cbn in *. destruct (Ascii.ascii_dec c c'); [|discriminate]. now apply IH.
Qed.

Lemma no_http_no_protocol s :
  String.prefix "http" s = false -> stripProtocol s = s.
Proof.
  intros Hno. unfold stripProtocol.
  destruct (String.prefix "https://" s) eqn:H1.
  - apply (prefix_app_left "http" "s://") in H1. congruence.
  - destruct (String.prefix "http://" s) eqn:H2; [|reflexivity].
    apply (prefix_app_left "http" "://") in H2. congruence.
Qed.

(** A link always starts with "http", whatever was typed. *)
Theorem formatUrl_starts_with_http :
  forall (trim toLowerCase : string -> string) (url : string),
    String.prefix "http" (formatUrl trim toLowerCase url) = true.
Proof.
  intros trim lower url. unfold formatUrl.
  destruct (String.prefix "http" (stripWww (stripProtocol (lower (trim url)))))
    eqn:H; [assumption | reflexivity].
Qed.

Lemma prefix_append a s : String.prefix a (a ++ s) = true.
Proof.
  induction a as [|c a IH]; [now destruct s|].
  cbn. destruct (Ascii.ascii_dec c c); [assumption | congruence].
Qed.

Lemma strip_https r : stripProtocol ("https://" ++ r) = r.
Proof. unfold stripProtocol. now rewrite prefix_append. Qed.

Lemma strip_http r : stripProtocol ("http://" ++ r) = r.
Proof.
  unfold stripProtocol.
  change (String.prefix "https://" ("http://" ++ r)) with false.
  now rewrite prefix_append.
Qed.

Lemma strip_www r : stripWww ("www." ++ r) = r.
Proof. unfold stripWww. now rewrite prefix_append. Qed.

(** The spellings of an address give one link. If the address proper
    does not itself start with "http", then with or without "http://"
    or "https://", and with or without "www." after it, the result is
    "https://" followed by the address; "http://" is thereby upgraded
    and "www." dropped. *)
Theorem formatUrl_normalises :
  forall (trim toLowerCase : string -> string) (url address : string),
    String.prefix "http" address = false ->
    (toLowerCase (trim url) = ("https://" ++ "www." ++ address)%string \/
     toLowerCase (trim url) = ("http://" ++ "www." ++ address)%string \/
     toLowerCase (trim url) = ("www." ++ address)%string \/
     (String.prefix "www." address = false /\
      (toLowerCase (trim url) = ("https://" ++ address)%string \/
       toLowerCase (trim url) = ("http://" ++ address)%string \/
       toLowerCase (trim url) = address))) ->
    formatUrl trim toLowerCase url = ("https://" ++ address)%string.
Proof.
  intros trim lower url address Hno Hform. unfold formatUrl.
  assert (String.prefix "http" ("www." ++ address) = false) as Hwww_no_http
    by reflexivity.
  assert (stripWww (stripProtocol (lower (trim url))) = address) as ->.
  { destruct Hform as [-> | [-> | [-> | [Hwww [-> | [-> | ->]]]]]].
    - now rewrite strip_https, strip_www.
    - now rewrite strip_http, strip_www.
    - now rewrite (no_http_no_protocol _ Hwww_no_http), strip_www.
    - rewrite strip_https. unfold stripWww. now rewrite Hwww.
    - rewrite strip_http. unfold stripWww. now rewrite Hwww.
    - rewrite (no_http_no_protocol address Hno). unfold stripWww. now rewrite Hwww. }
  now rewrite Hno.
Qed.

(** "http://www.example.com" becomes "https://example.com". *)
Lemma formatUrl_normalises_witness :
  formatUrl (fun s => s) (fun s => s) "http://www.example.com" =
  "https://example.com".
Proof.
  apply (formatUrl_normalises (fun s => s) (fun s => s)
           "http://www.example.com" "example.com").
  - reflexivity.
  - right. left. reflexivity.
Defined.

(** An address that starts with "http" loses its protocol: the
    protocol that was typed is removed and none is added, because the
    test for a missing protocol only looks for "http" at the start. *)
Theorem formatUrl_drops_protocol :
  forall (trim toLowerCase : string -> string) (url address : string),
    String.prefix "http" address = true ->
    String.prefix "www." address = false ->
    (toLowerCase (trim url) = ("https://" ++ address)%string \/
     toLowerCase (trim url) = ("http://" ++ address)%string) ->
    formatUrl trim toLowerCase url = address.
Proof.
  intros trim lower url address Hhttp Hwww Hform. unfold formatUrl.
  assert (stripWww (stripProtocol (lower (trim url))) = address) as ->.
  { destruct Hform as [-> | ->].
    - rewrite strip_https. unfold stripWww. now rewrite Hwww.
    - rewrite strip_http. unfold stripWww. now rewrite Hwww. }
  now rewrite Hhttp.
Qed.

(** The link to "httpbin.org" has no protocol. *)
Lemma formatUrl_drops_protocol_witness :
  formatUrl (fun s => s) (fun s => s) "https://httpbin.org" = "httpbin.org".
Proof.
  apply (formatUrl_drops_protocol (fun s => s) (fun s => s)
           "https://httpbin.org" "httpbin.org").
  - reflexivity.
  - reflexivity.
  - left. reflexivity.
Defined.

(** Adding a link. A blank address does nothing; an address that is
    not a valid URL once formatted only sets the error message. A valid
    one is written as a Markdown link whose text and target are both the
    formatted address, and put into the text at the cursor: before it
    comes [content.slice(0, cursor)], after it [content.slice(cursor)].
    Without a cursor, or with the cursor at position zero, the position
    is [content.length], so that the link goes to the end of the text
    and not to its start. The address field is emptied, the dialog
    closed and the error cleared. *)
Theorem handleAddUrl_inserts_link :
  forall (trim toLowerCase : string -> string) (isValidUrl : string -> bool)
         (slice : nat -> option nat -> string -> string)
         (selectionStart : option nat) (w : CreatePostScreen.World),
    (trim (url (screen w)) = "" ->
     handleAddUrl trim toLowerCase isValidUrl slice selectionStart w =
       (Ok tt, w)) /\
    (trim (url (screen w)) <> "" ->
     isValidUrl (formatUrl trim toLowerCase (trim (url (screen w)))) = false ->
     content (screen (snd (handleAddUrl trim toLowerCase isValidUrl slice
                             selectionStart w))) = content (screen w) /\
     url (screen (snd (handleAddUrl trim toLowerCase isValidUrl slice
                         selectionStart w))) = url (screen w) /\
     error (screen (snd (handleAddUrl trim toLowerCase isValidUrl slice
                           selectionStart w))) = str "Please enter a valid URL" /\
     showUrlInput (screen (snd (handleAddUrl trim toLowerCase isValidUrl slice
                                  selectionStart w))) = showUrlInput (screen w)) /\
    (trim (url (screen w)) <> "" ->
     isValidUrl (formatUrl trim toLowerCase (trim (url (screen w)))) = true ->
     (forall n,
        selectionStart = Some (S n) ->
        content (screen (snd (handleAddUrl trim toLowerCase isValidUrl slice
                                selectionStart w))) =
          (slice 0 (Some (S n)) (content (screen w)) ++
           "[" ++ formatUrl trim toLowerCase (trim (url (screen w))) ++
           "](" ++ formatUrl trim toLowerCase (trim (url (screen w))) ++ ")" ++
           slice (S n) None (content (screen w)))%string) /\
     (selectionStart = None \/ selectionStart = Some 0 ->
      content (screen (snd (handleAddUrl trim toLowerCase isValidUrl slice
                              selectionStart w))) =
        (slice 0 (Some (Utf16.length (content (screen w)))) (content (screen w)) ++
         "[" ++ formatUrl trim toLowerCase (trim (url (screen w))) ++
         "](" ++ formatUrl trim toLowerCase (trim (url (screen w))) ++ ")" ++
         slice (Utf16.length (content (screen w))) None (content (screen w)))%string /\
      (slice 0 (Some (Utf16.length (content (screen w)))) (content (screen w)) =
         content (screen w) ->
       slice (Utf16.length (content (screen w))) None (content (screen w)) = "" ->
       content (screen (snd (handleAddUrl trim toLowerCase isValidUrl slice
                               selectionStart w))) =
         (content (screen w) ++
          "[" ++ formatUrl trim toLowerCase (trim (url (screen w))) ++
          "](" ++ formatUrl trim toLowerCase (trim (url (screen w))) ++
          ")")%string)) /\
     url (screen (snd (handleAddUrl trim toLowerCase isValidUrl slice
                         selectionStart w))) = "" /\
     showUrlInput (screen (snd (handleAddUrl trim toLowerCase isValidUrl slice
                                  selectionStart w))) = false /\
     error (screen (snd (handleAddUrl trim toLowerCase isValidUrl slice
                           selectionStart w))) = null /\
     loading (screen (snd (handleAddUrl trim toLowerCase isValidUrl slice
                             selectionStart w))) = loading (screen w) /\
     selectedImage (screen (snd (handleAddUrl trim toLowerCase isValidUrl slice
                                   selectionStart w))) =
       selectedImage (screen w)).
Proof.
  intros trim lower valid slice sel w. split; [|split].
  - intros Hblank. unfold handleAddUrl, bind, gets. cbv beta iota.
    now rewrite Hblank.
  - intros Htyped Hinvalid. apply String.eqb_neq in Htyped.
    unfold handleAddUrl, bind, gets. cbv beta iota zeta.
    rewrite Htyped, Hinvalid. repeat split.
  - intros Htyped Hvalid. apply String.eqb_neq in Htyped.
    unfold handleAddUrl, bind, gets. cbv beta iota zeta.
    rewrite Htyped, Hvalid. cbn [negb].
    split; [|split; [|repeat split]].
    + intros n ->. reflexivity.
    + intros Hsel.
      assert (match sel with
              | Some (S n) => S n
              | _ => Utf16.length (content (screen w))
              end = Utf16.length (content (screen w))) as ->
        by (destruct Hsel as [-> | ->]; reflexivity).
      split; [reflexivity|].
      intros Hwhole Hnone.
      cbn [setContent setUrl setShowUrlInput setError on_screen modify
           snd screen content].
      rewrite Hwhole, Hnone. reflexivity.
Qed.

(** The cursor is at the start of "see " and the link goes to its end. *)
Lemma handleAddUrl_inserts_link_witness :
  content (screen (snd (handleAddUrl (fun s => s) (fun s => s) (fun _ => true)
                          byteSlice (Some 0)
                          {| screen := {| content := "see "; loading := false;
                                          error := null; selectedImage := null;
                                          showUrlInput := true;
                                          url := "x.org" |};
                             posts := []; router := [] |}))) =
  "see [https://x.org](https://x.org)".
Proof.
  refine (proj2 (proj1 (proj2 (proj2 (proj2 (handleAddUrl_inserts_link
            (fun s => s) (fun s => s) (fun _ => true) byteSlice (Some 0)
            {| screen := {| content := "see "; loading := false;
                            error := null; selectedImage := null;
                            showUrlInput := true; url := "x.org" |};
               posts := []; router := [] |})) _ _)) _) _ _).
  - discriminate.
  - reflexivity.
  - right. reflexivity.
  - reflexivity.
  - reflexivity.
Defined.

(** A failed upload is silent. When the chosen image cannot be read or
    uploaded, the post is still sent, with the trimmed text and no
    image; if the insert then succeeds the screen is closed and no error
    was ever shown. *)
Theorem handlePost_posts_without_failed_image :
  forall (trim : string -> string) (body userId : string)
         (w : CreatePostScreen.World),
    fst (handlePost_onUpload trim body userId None w) = Ok AwaitingInsert /\
    posts (snd (handlePost_onUpload trim body userId None w)) =
      posts w ++ [ {| post_user_id := userId; post_content := trim body;
                      image_url := null |} ] /\
    screen (snd (handlePost_onUpload trim body userId None w)) = screen w /\
    router (snd (handlePost_onInsert None
                   (snd (handlePost_onUpload trim body userId None w)))) =
      router w ++ [Back] /\
    error (screen (snd (handlePost_onInsert None
                          (snd (handlePost_onUpload trim body userId None w))))) =
      error (screen w).
Proof.
  intros trim body userId w. repeat split.
Qed.

(** The button is free again too early. After a successful upload the
    loading flag is off while the insert is still in flight, so the post
    button is enabled and a second press goes through: it would send the
    same text again. *)
Theorem handlePost_enabled_during_insert :
  forall (trim : string -> string) (body userId publicUrl : string)
         (w : CreatePostScreen.World),
    content (screen w) = body ->
    trim body <> "" ->
    fst (handlePost_onUpload trim body userId (Some publicUrl) w) =
      Ok AwaitingInsert /\
    posts (snd (handlePost_onUpload trim body userId (Some publicUrl) w)) =
      posts w ++ [ {| post_user_id := userId; post_content := trim body;
                      image_url := or (str publicUrl) null |} ] /\
    isPostDisabled trim
      (screen (snd (handlePost_onUpload trim body userId (Some publicUrl) w))) =
      false /\
    fst (handlePost_press trim
           (snd (handlePost_onUpload trim body userId (Some publicUrl) w))) =
      Ok (Some (body, selectedImage (screen w))).
Proof.
  intros trim body userId publicUrl w Hbody Htext.
  apply String.eqb_neq in Htext.
  destruct w as [[c l e i s u] ps r]. cbn [screen content] in Hbody. subst c.
  split; [reflexivity|]. split; [reflexivity|]. split.
  - unfold isPostDisabled. cbn. now rewrite Htext.
  - unfold handlePost_press, bind, gets. cbn. now rewrite Htext.
Qed.

(** A post with a picture, after the upload. *)
Lemma handlePost_enabled_during_insert_witness :
  isPostDisabled (fun s => s)
    (screen (snd (handlePost_onUpload (fun s => s) "hello" "u1" (Some "p.png")
                    {| screen := {| content := "hello"; loading := true;
                                    error := null; selectedImage := str "file.png";
                                    showUrlInput := false; url := "" |};
                       posts := []; router := [] |}))) = false.
Proof.
  apply (handlePost_enabled_during_insert (fun s => s) "hello" "u1" "p.png"
           {| screen := {| content := "hello"; loading := true;
                           error := null; selectedImage := str "file.png";
                           showUrlInput := false; url := "" |};
              posts := []; router := [] |}).
  - reflexivity.
  - discriminate.
Defined.

End PostFacts.
